(** * GoogleMapExporter: the place-resolution core of the three exporters

    A shallow embedding of [geojson_to_gpx.py], [saved_places_to_csv.py] and
    [saved_places_to_html.py]: the URL coordinate parser, the URL name parser,
    the coordinate resolver, the name and annotation resolver and the record
    extraction loop of each script, followed by the properties of the
    specification that concern them.

    Conventions of the embedding.
    - A Python [str] is a [string]; a character above U+007F is held as the
      bytes of its UTF-8 encoding, and what Python does character by
      character ([strip], [\s], [\d], [float], [repr]) is done on the
      characters these bytes decode to.  The character classes are those of
      Unicode 14.0.0, which CPython 3.11 is built with: white space is what
      [str.isspace] accepts, a decimal digit is a character of category Nd.
      (A [str] with a lone surrogate, which a JSON escape can write, has no
      UTF-8 encoding and so no counterpart here.)
    - A Python float is a binary64 number of [SpecFloat].
    - A parsed JSON value is a [json]; a [dict] lists its items in order.
    - A call that may raise returns a [result]: [Ok v] or [Raise e].
    - The built-ins and library functions the scripts call ([float], [str],
      [re.search], [re.match], [urlparse], [parse_qs], [unquote],
      [html.escape], the format [.8f]) are written out as CPython 3.11
      defines them, in the modules [Unicode], [Str], [Float], [Py], [Re],
      [Url] and [Fmt]. *)

From Stdlib Require Import ZArith QArith Qround List String Ascii Bool Lia.
From Stdlib Require Import DecimalString DecimalPos.
From Stdlib Require Import Floats.SpecFloat.
Import ListNotations.

#[local] Set Warnings "-register-all".

Local Open Scope string_scope.
Local Open Scope Z_scope.

(** ** Outcomes of a call *)

Inductive exn : Type :=
| ValueError
| TypeError
| AttributeError
| OverflowError.

Inductive result (A : Type) : Type :=
| Ok (a : A)
| Raise (e : exn).

Arguments Ok {A} a.
Arguments Raise {A} e.

Definition bind {A B : Type} (r : result A) (k : A -> result B) : result B :=
  match r with
  | Ok a => k a
  | Raise e => Raise e
  end.

Notation "x <- r ;; k" := (bind r (fun x => k))
  (at level 61, r at next level, right associativity).
Notation "' p <- r ;; k" := (bind r (fun p => k))
  (at level 61, p pattern, r at next level, right associativity).

Definition raises {A : Type} (r : result A) : Prop :=
  exists e, r = Raise e.

(** ** Parsed JSON documents, as [json.load] builds them *)

Definition float := spec_float.

Inductive json : Type :=
| JNull
| JBool (b : bool)
| JInt (z : Z)
| JFloat (f : float)
| JStr (s : string)
| JList (l : list json)
| JDict (d : list (string * json)).

(** A [dict]: its items in insertion order, no key twice. *)
Definition dict := list (string * json).

(** ** Unicode: the characters of a text held in UTF-8

    The tables are those of the Unicode Character Database 14.0.0, the
    version CPython 3.11 is built with. *)

Module Unicode.

Definition byte (c : ascii) : N := N_of_ascii c.

Definition between (lo hi n : N) : bool := ((lo <=? n) && (n <=? hi))%N.

Definition in_ranges (ranges : list (N * N)) (cp : N) : bool :=
  existsb (fun r => between (fst r) (snd r) cp) ranges.

(** A continuation byte. *)
Definition cont (n : N) : bool := between 128 191 n.

(** Whether [n1] may follow the lead byte [n0] of a character of three or
    four bytes: overlong forms, surrogates and code points above U+10FFFF
    are no characters. *)
Definition second (n0 n1 : N) : bool :=
  (if n0 =? 224 then between 160 191 n1
   else if n0 =? 237 then between 128 159 n1
   else if n0 =? 240 then between 144 191 n1
   else if n0 =? 244 then between 128 143 n1
   else cont n1)%N.

(** The character [s] starts with: its code point and the number of bytes
    that hold it.  [None] at the end of the text and where the bytes are
    not those of a character. *)
Definition decode (s : string) : option (N * nat) :=
  match s with
  | EmptyString => None
  | String b0 s1 =>
      let n0 := byte b0 in
      if (n0 <? 128)%N then Some (n0, 1%nat)
      else
        match s1 with
        | EmptyString => None
        | String b1 s2 =>
            let n1 := byte b1 in
            if between 194 223 n0 then
              if cont n1
              then Some (64 * (n0 - 192) + (n1 - 128), 2%nat)%N
              else None
            else
              match s2 with
              | EmptyString => None
              | String b2 s3 =>
                  let n2 := byte b2 in
                  if between 224 239 n0 then
                    if second n0 n1 && cont n2
                    then Some (4096 * (n0 - 224) + 64 * (n1 - 128)
                               + (n2 - 128), 3%nat)%N
                    else None
                  else
                    match s3 with
                    | EmptyString => None
                    | String b3 _ =>
                        let n3 := byte b3 in
                        if between 240 244 n0 && second n0 n1
                           && cont n2 && cont n3
                        then Some (262144 * (n0 - 240) + 4096 * (n1 - 128)
                                   + 64 * (n2 - 128) + (n3 - 128), 4%nat)%N
                        else None
                    end
              end
        end
  end.

(** The bytes that hold the code point [cp]. *)
Definition encode (cp : N) : string :=
  let b (n : N) := ascii_of_N n in
  (if cp <? 128 then String (b cp) ""
   else if cp <? 2048 then
     String (b (192 + cp / 64)) (String (b (128 + cp mod 64)) "")
   else if cp <? 65536 then
     String (b (224 + cp / 4096))
       (String (b (128 + (cp / 64) mod 64)) (String (b (128 + cp mod 64)) ""))
   else
     String (b (240 + cp / 262144))
       (String (b (128 + (cp / 4096) mod 64))
          (String (b (128 + (cp / 64) mod 64))
             (String (b (128 + cp mod 64)) ""))))%N.

(** [s.isascii()] *)
Fixpoint is_ascii (s : string) : bool :=
  match s with
  | EmptyString => true
  | String c s' => (byte c <? 128)%N && is_ascii s'
  end.

(** White space, the characters [str.isspace] and [\s] accept: U+0009 to
    U+000D, U+001C to U+0020, U+0085, U+00A0, U+1680, U+2000 to U+200A,
    U+2028, U+2029, U+202F, U+205F and U+3000. *)
Definition white_space : list (N * N) :=
  [
   (9, 13); (28, 32); (133, 133); (160, 160); (5760, 5760); (8192, 8202);
   (8232, 8233); (8239, 8239); (8287, 8287); (12288, 12288)
  ]%N.

Definition is_space (cp : N) : bool := in_ranges white_space cp.

(** The digit zero of each set of decimal digits (category Nd); the nine
    code points that follow a zero are the digits one to nine of its set. *)
Definition decimal_zeros : list N :=
  [
   48; 1632; 1776; 1984; 2406; 2534; 2662; 2790; 2918; 3046; 3174; 3302;
   3430; 3558; 3664; 3792; 3872; 4160; 4240; 6112; 6160; 6470; 6608; 6784;
   6800; 6992; 7088; 7232; 7248; 42528; 43216; 43264; 43472; 43504; 43600;
   44016; 65296; 66720; 68912; 69734; 69872; 69942; 70096; 70384; 70736;
   70864; 71248; 71360; 71472; 71904; 72016; 72784; 73040; 73120; 92768;
   92864; 93008; 120782; 120792; 120802; 120812; 120822; 123200; 123632;
   125264; 130032
  ]%N.

(** The value of a decimal digit, what [Py_UNICODE_TODECIMAL] gives. *)
Definition decimal (cp : N) : option N :=
  match find (fun z => between z (z + 9) cp) decimal_zeros with
  | Some z => Some (cp - z)%N
  | None => None
  end.

(** The characters [\d] and [str.isdecimal] accept. *)
Definition is_decimal (cp : N) : bool :=
  match decimal cp with
  | Some _ => true
  | None => false
  end.

(** The code points from U+0080 on that [str.isprintable] rejects: the
    separators other than the space, the control and format characters, the
    surrogates, the private use and the unassigned code points. *)
Definition unprintable : list (N * N) :=
  [
   (128, 160); (173, 173); (888, 889); (896, 899); (907, 907); (909, 909);
   (930, 930); (1328, 1328); (1367, 1368); (1419, 1420); (1424, 1424);
   (1480, 1487); (1515, 1518); (1525, 1541); (1564, 1564); (1757, 1757);
   (1806, 1807); (1867, 1868); (1970, 1983); (2043, 2044); (2094, 2095);
   (2111, 2111); (2140, 2141); (2143, 2143); (2155, 2159); (2191, 2199);
   (2274, 2274); (2436, 2436); (2445, 2446); (2449, 2450); (2473, 2473);
   (2481, 2481); (2483, 2485); (2490, 2491); (2501, 2502); (2505, 2506);
   (2511, 2518); (2520, 2523); (2526, 2526); (2532, 2533); (2559, 2560);
   (2564, 2564); (2571, 2574); (2577, 2578); (2601, 2601); (2609, 2609);
   (2612, 2612); (2615, 2615); (2618, 2619); (2621, 2621); (2627, 2630);
   (2633, 2634); (2638, 2640); (2642, 2648); (2653, 2653); (2655, 2661);
   (2679, 2688); (2692, 2692); (2702, 2702); (2706, 2706); (2729, 2729);
   (2737, 2737); (2740, 2740); (2746, 2747); (2758, 2758); (2762, 2762);
   (2766, 2767); (2769, 2783); (2788, 2789); (2802, 2808); (2816, 2816);
   (2820, 2820); (2829, 2830); (2833, 2834); (2857, 2857); (2865, 2865);
   (2868, 2868); (2874, 2875); (2885, 2886); (2889, 2890); (2894, 2900);
   (2904, 2907); (2910, 2910); (2916, 2917); (2936, 2945); (2948, 2948);
   (2955, 2957); (2961, 2961); (2966, 2968); (2971, 2971); (2973, 2973);
   (2976, 2978); (2981, 2983); (2987, 2989); (3002, 3005); (3011, 3013);
   (3017, 3017); (3022, 3023); (3025, 3030); (3032, 3045); (3067, 3071);
   (3085, 3085); (3089, 3089); (3113, 3113); (3130, 3131); (3141, 3141);
   (3145, 3145); (3150, 3156); (3159, 3159); (3163, 3164); (3166, 3167);
   (3172, 3173); (3184, 3190); (3213, 3213); (3217, 3217); (3241, 3241);
   (3252, 3252); (3258, 3259); (3269, 3269); (3273, 3273); (3278, 3284);
   (3287, 3292); (3295, 3295); (3300, 3301); (3312, 3312); (3315, 3327);
   (3341, 3341); (3345, 3345); (3397, 3397); (3401, 3401); (3408, 3411);
   (3428, 3429); (3456, 3456); (3460, 3460); (3479, 3481); (3506, 3506);
   (3516, 3516); (3518, 3519); (3527, 3529); (3531, 3534); (3541, 3541);
   (3543, 3543); (3552, 3557); (3568, 3569); (3573, 3584); (3643, 3646);
   (3676, 3712); (3715, 3715); (3717, 3717); (3723, 3723); (3748, 3748);
   (3750, 3750); (3774, 3775); (3781, 3781); (3783, 3783); (3790, 3791);
   (3802, 3803); (3808, 3839); (3912, 3912); (3949, 3952); (3992, 3992);
   (4029, 4029); (4045, 4045); (4059, 4095); (4294, 4294); (4296, 4300);
   (4302, 4303); (4681, 4681); (4686, 4687); (4695, 4695); (4697, 4697);
   (4702, 4703); (4745, 4745); (4750, 4751); (4785, 4785); (4790, 4791);
   (4799, 4799); (4801, 4801); (4806, 4807); (4823, 4823); (4881, 4881);
   (4886, 4887); (4955, 4956); (4989, 4991); (5018, 5023); (5110, 5111);
   (5118, 5119); (5760, 5760); (5789, 5791); (5881, 5887); (5910, 5918);
   (5943, 5951); (5972, 5983); (5997, 5997); (6001, 6001); (6004, 6015);
   (6110, 6111); (6122, 6127); (6138, 6143); (6158, 6158); (6170, 6175);
   (6265, 6271); (6315, 6319); (6390, 6399); (6431, 6431); (6444, 6447);
   (6460, 6463); (6465, 6467); (6510, 6511); (6517, 6527); (6572, 6575);
   (6602, 6607); (6619, 6621); (6684, 6685); (6751, 6751); (6781, 6782);
   (6794, 6799); (6810, 6815); (6830, 6831); (6863, 6911); (6989, 6991);
   (7039, 7039); (7156, 7163); (7224, 7226); (7242, 7244); (7305, 7311);
   (7355, 7356); (7368, 7375); (7419, 7423); (7958, 7959); (7966, 7967);
   (8006, 8007); (8014, 8015); (8024, 8024); (8026, 8026); (8028, 8028);
   (8030, 8030); (8062, 8063); (8117, 8117); (8133, 8133); (8148, 8149);
   (8156, 8156); (8176, 8177); (8181, 8181); (8191, 8207); (8232, 8239);
   (8287, 8303); (8306, 8307); (8335, 8335); (8349, 8351); (8385, 8399);
   (8433, 8447); (8588, 8591); (9255, 9279); (9291, 9311); (11124, 11125);
   (11158, 11158); (11508, 11512); (11558, 11558); (11560, 11564); (11566,
   11567); (11624, 11630); (11633, 11646); (11671, 11679); (11687, 11687);
   (11695, 11695); (11703, 11703); (11711, 11711); (11719, 11719); (11727,
   11727); (11735, 11735); (11743, 11743); (11870, 11903); (11930, 11930);
   (12020, 12031); (12246, 12271); (12284, 12288); (12352, 12352); (12439,
   12440); (12544, 12548); (12592, 12592); (12687, 12687); (12772, 12783);
   (12831, 12831); (42125, 42127); (42183, 42191); (42540, 42559); (42744,
   42751); (42955, 42959); (42962, 42962); (42964, 42964); (42970, 42993);
   (43053, 43055); (43066, 43071); (43128, 43135); (43206, 43213); (43226,
   43231); (43348, 43358); (43389, 43391); (43470, 43470); (43482, 43485);
   (43519, 43519); (43575, 43583); (43598, 43599); (43610, 43611); (43715,
   43738); (43767, 43776); (43783, 43784); (43791, 43792); (43799, 43807);
   (43815, 43815); (43823, 43823); (43884, 43887); (44014, 44015); (44026,
   44031); (55204, 55215); (55239, 55242); (55292, 63743); (64110, 64111);
   (64218, 64255); (64263, 64274); (64280, 64284); (64311, 64311); (64317,
   64317); (64319, 64319); (64322, 64322); (64325, 64325); (64451, 64466);
   (64912, 64913); (64968, 64974); (64976, 65007); (65050, 65055); (65107,
   65107); (65127, 65127); (65132, 65135); (65141, 65141); (65277, 65280);
   (65471, 65473); (65480, 65481); (65488, 65489); (65496, 65497); (65501,
   65503); (65511, 65511); (65519, 65531); (65534, 65535); (65548, 65548);
   (65575, 65575); (65595, 65595); (65598, 65598); (65614, 65615); (65630,
   65663); (65787, 65791); (65795, 65798); (65844, 65846); (65935, 65935);
   (65949, 65951); (65953, 65999); (66046, 66175); (66205, 66207); (66257,
   66271); (66300, 66303); (66340, 66348); (66379, 66383); (66427, 66431);
   (66462, 66462); (66500, 66503); (66518, 66559); (66718, 66719); (66730,
   66735); (66772, 66775); (66812, 66815); (66856, 66863); (66916, 66926);
   (66939, 66939); (66955, 66955); (66963, 66963); (66966, 66966); (66978,
   66978); (66994, 66994); (67002, 67002); (67005, 67071); (67383, 67391);
   (67414, 67423); (67432, 67455); (67462, 67462); (67505, 67505); (67515,
   67583); (67590, 67591); (67593, 67593); (67638, 67638); (67641, 67643);
   (67645, 67646); (67670, 67670); (67743, 67750); (67760, 67807); (67827,
   67827); (67830, 67834); (67868, 67870); (67898, 67902); (67904, 67967);
   (68024, 68027); (68048, 68049); (68100, 68100); (68103, 68107); (68116,
   68116); (68120, 68120); (68150, 68151); (68155, 68158); (68169, 68175);
   (68185, 68191); (68256, 68287); (68327, 68330); (68343, 68351); (68406,
   68408); (68438, 68439); (68467, 68471); (68498, 68504); (68509, 68520);
   (68528, 68607); (68681, 68735); (68787, 68799); (68851, 68857); (68904,
   68911); (68922, 69215); (69247, 69247); (69290, 69290); (69294, 69295);
   (69298, 69375); (69416, 69423); (69466, 69487); (69514, 69551); (69580,
   69599); (69623, 69631); (69710, 69713); (69750, 69758); (69821, 69821);
   (69827, 69839); (69865, 69871); (69882, 69887); (69941, 69941); (69960,
   69967); (70007, 70015); (70112, 70112); (70133, 70143); (70162, 70162);
   (70207, 70271); (70279, 70279); (70281, 70281); (70286, 70286); (70302,
   70302); (70314, 70319); (70379, 70383); (70394, 70399); (70404, 70404);
   (70413, 70414); (70417, 70418); (70441, 70441); (70449, 70449); (70452,
   70452); (70458, 70458); (70469, 70470); (70473, 70474); (70478, 70479);
   (70481, 70486); (70488, 70492); (70500, 70501); (70509, 70511); (70517,
   70655); (70748, 70748); (70754, 70783); (70856, 70863); (70874, 71039);
   (71094, 71095); (71134, 71167); (71237, 71247); (71258, 71263); (71277,
   71295); (71354, 71359); (71370, 71423); (71451, 71452); (71468, 71471);
   (71495, 71679); (71740, 71839); (71923, 71934); (71943, 71944); (71946,
   71947); (71956, 71956); (71959, 71959); (71990, 71990); (71993, 71994);
   (72007, 72015); (72026, 72095); (72104, 72105); (72152, 72153); (72165,
   72191); (72264, 72271); (72355, 72367); (72441, 72703); (72713, 72713);
   (72759, 72759); (72774, 72783); (72813, 72815); (72848, 72849); (72872,
   72872); (72887, 72959); (72967, 72967); (72970, 72970); (73015, 73017);
   (73019, 73019); (73022, 73022); (73032, 73039); (73050, 73055); (73062,
   73062); (73065, 73065); (73103, 73103); (73106, 73106); (73113, 73119);
   (73130, 73439); (73465, 73647); (73649, 73663); (73714, 73726); (74650,
   74751); (74863, 74863); (74869, 74879); (75076, 77711); (77811, 77823);
   (78895, 82943); (83527, 92159); (92729, 92735); (92767, 92767); (92778,
   92781); (92863, 92863); (92874, 92879); (92910, 92911); (92918, 92927);
   (92998, 93007); (93018, 93018); (93026, 93026); (93048, 93052); (93072,
   93759); (93851, 93951); (94027, 94030); (94088, 94094); (94112, 94175);
   (94181, 94191); (94194, 94207); (100344, 100351); (101590, 101631);
   (101641, 110575); (110580, 110580); (110588, 110588); (110591, 110591);
   (110883, 110927); (110931, 110947); (110952, 110959); (111356, 113663);
   (113771, 113775); (113789, 113791); (113801, 113807); (113818, 113819);
   (113824, 118527); (118574, 118575); (118599, 118607); (118724, 118783);
   (119030, 119039); (119079, 119080); (119155, 119162); (119275, 119295);
   (119366, 119519); (119540, 119551); (119639, 119647); (119673, 119807);
   (119893, 119893); (119965, 119965); (119968, 119969); (119971, 119972);
   (119975, 119976); (119981, 119981); (119994, 119994); (119996, 119996);
   (120004, 120004); (120070, 120070); (120075, 120076); (120085, 120085);
   (120093, 120093); (120122, 120122); (120127, 120127); (120133, 120133);
   (120135, 120137); (120145, 120145); (120486, 120487); (120780, 120781);
   (121484, 121498); (121504, 121504); (121520, 122623); (122655, 122879);
   (122887, 122887); (122905, 122906); (122914, 122914); (122917, 122917);
   (122923, 123135); (123181, 123183); (123198, 123199); (123210, 123213);
   (123216, 123535); (123567, 123583); (123642, 123646); (123648, 124895);
   (124903, 124903); (124908, 124908); (124911, 124911); (124927, 124927);
   (125125, 125126); (125143, 125183); (125260, 125263); (125274, 125277);
   (125280, 126064); (126133, 126208); (126270, 126463); (126468, 126468);
   (126496, 126496); (126499, 126499); (126501, 126502); (126504, 126504);
   (126515, 126515); (126520, 126520); (126522, 126522); (126524, 126529);
   (126531, 126534); (126536, 126536); (126538, 126538); (126540, 126540);
   (126544, 126544); (126547, 126547); (126549, 126550); (126552, 126552);
   (126554, 126554); (126556, 126556); (126558, 126558); (126560, 126560);
   (126563, 126563); (126565, 126566); (126571, 126571); (126579, 126579);
   (126584, 126584); (126589, 126589); (126591, 126591); (126602, 126602);
   (126620, 126624); (126628, 126628); (126634, 126634); (126652, 126703);
   (126706, 126975); (127020, 127023); (127124, 127135); (127151, 127152);
   (127168, 127168); (127184, 127184); (127222, 127231); (127406, 127461);
   (127491, 127503); (127548, 127551); (127561, 127567); (127570, 127583);
   (127590, 127743); (128728, 128732); (128749, 128751); (128765, 128767);
   (128884, 128895); (128985, 128991); (129004, 129007); (129009, 129023);
   (129036, 129039); (129096, 129103); (129114, 129119); (129160, 129167);
   (129198, 129199); (129202, 129279); (129620, 129631); (129646, 129647);
   (129653, 129655); (129661, 129663); (129671, 129679); (129709, 129711);
   (129723, 129727); (129734, 129743); (129754, 129759); (129768, 129775);
   (129783, 129791); (129939, 129939); (129995, 130031); (130042, 131071);
   (173792, 173823); (177977, 177983); (178206, 178207); (183970, 183983);
   (191457, 194559); (195102, 196607); (201547, 917759); (918000, 1114111)
  ]%N.

(** [str.isprintable] from U+0080 on. *)
Definition is_printable (cp : N) : bool := negb (in_ranges unprintable cp).

(** The characters outside ASCII whose normal form NFKC holds one of
    [/], [?], [#], [@] and [:]. *)
Definition nfkc_delimiters : list N :=
  [
   8263; 8264; 8265; 8448; 8449; 8453; 8454; 10868; 65043; 65046; 65109;
   65110; 65119; 65131; 65283; 65295; 65306; 65311; 65312
  ]%N.

(** Whether a character that satisfies [p] starts at some byte of [s]. *)
Fixpoint any_char (p : N -> bool) (s : string) : bool :=
  match s with
  | EmptyString => false
  | String _ s' =>
      match decode s with
      | Some (cp, _) => p cp
      | None => false
      end || any_char p s'
  end.

Section Run.

Variable p : N -> bool.

(** The number of bytes of the character [s] starts with when it satisfies
    [p], and 0 when [s] starts with no such character. *)
Definition width (s : string) : nat :=
  match decode s with
  | Some (cp, w) => if p cp then w else 0%nat
  | None => 0%nat
  end.

(** [s] without the characters at its start that satisfy [p]. *)
Fixpoint skip (s : string) : string :=
  match width s, s with
  | 1%nat, String _ r => skip r
  | 2%nat, String _ (String _ r) => skip r
  | 3%nat, String _ (String _ (String _ r)) => skip r
  | 4%nat, String _ (String _ (String _ (String _ r))) => skip r
  | _, _ => s
  end.

(** The characters at the start of [s] that satisfy [p]. *)
Fixpoint take (s : string) : string :=
  match width s, s with
  | 1%nat, String b0 r => String b0 (take r)
  | 2%nat, String b0 (String b1 r) => String b0 (String b1 (take r))
  | 3%nat, String b0 (String b1 (String b2 r)) =>
      String b0 (String b1 (String b2 (take r)))
  | 4%nat, String b0 (String b1 (String b2 (String b3 r))) =>
      String b0 (String b1 (String b2 (String b3 (take r))))
  | _, _ => EmptyString
  end.

End Run.

End Unicode.

(** ** Characters and strings *)

Module Str.

Definition code (c : ascii) : N := N_of_ascii c.

Definition is_digit (c : ascii) : bool :=
  ((48 <=? code c) && (code c <=? 57))%N.

Definition digit_val (c : ascii) : Z := Z.of_N (code c) - 48.

Definition is_upper (c : ascii) : bool :=
  ((65 <=? code c) && (code c <=? 90))%N.

Definition lower_char (c : ascii) : ascii :=
  if is_upper c then ascii_of_N (code c + 32) else c.

(** [s.lower()] as far as ASCII goes: the letters A to Z are lowered, the
    bytes of a character outside ASCII are kept.  The scripts only ask
    whether the result starts with [m,], which the characters outside ASCII
    cannot change: the only ones whose lower case starts in ASCII are
    U+0130 and U+212A, and they give [i] and [k]. *)
Fixpoint lower (s : string) : string :=
  match s with
  | EmptyString => EmptyString
  | String c s' => String (lower_char c) (lower s')
  end.

(** The bytes of [s] in reverse order, put before [acc]. *)
Fixpoint rev_onto (s acc : string) : string :=
  match s with
  | EmptyString => acc
  | String c s' => rev_onto s' (String c acc)
  end.

Definition rev (s : string) : string := rev_onto s EmptyString.

Definition is_empty (s : string) : bool :=
  match s with
  | EmptyString => true
  | String _ _ => false
  end.

(** [s.lstrip()]: [s] without the white space at its start. *)
Definition lstrip (s : string) : string := Unicode.skip Unicode.is_space s.

(** Whether [s] is white space from end to end. *)
Definition is_blank (s : string) : bool := is_empty (lstrip s).

(** [s.rstrip()]: [s] up to the white space that runs to its end. *)
Fixpoint rstrip (s : string) : string :=
  match s with
  | EmptyString => EmptyString
  | String c s' => if is_blank s then EmptyString else String c (rstrip s')
  end.

(** [s.strip()] *)
Definition strip (s : string) : string := rstrip (lstrip s).

(** [s.startswith(p)] *)
Definition startswith (p s : string) : bool := String.prefix p s.

(** [s[n:]] for a text whose first [n] characters are in ASCII. *)
Fixpoint drop (n : nat) (s : string) : string :=
  match n, s with
  | O, _ => s
  | S n', String _ s' => drop n' s'
  | S _, EmptyString => EmptyString
  end.

(** [c in s] *)
Fixpoint mem (c : ascii) (s : string) : bool :=
  match s with
  | EmptyString => false
  | String d s' => Ascii.eqb c d || mem c s'
  end.

(** [s.split(c, 1)]: the text before the first [c] and the text after it. *)
Fixpoint split_once (c : ascii) (s : string) : option (string * string) :=
  match s with
  | EmptyString => None
  | String d s' =>
      if Ascii.eqb c d then Some (EmptyString, s')
      else match split_once c s' with
           | Some (a, b) => Some (String d a, b)
           | None => None
           end
  end.

(** [s.split(c)] *)
Fixpoint split (c : ascii) (s : string) : list string :=
  match s with
  | EmptyString => [EmptyString]
  | String d s' =>
      if Ascii.eqb c d then EmptyString :: split c s'
      else match split c s' with
           | w :: ws => String d w :: ws
           | [] => [String d EmptyString]
           end
  end.

(** [s.replace(c, t)] for a one-character [c]. *)
Fixpoint replace (c : ascii) (t : string) (s : string) : string :=
  match s with
  | EmptyString => EmptyString
  | String d s' =>
      if Ascii.eqb c d then t ++ replace c t s' else String d (replace c t s')
  end.

(** [sep.join(parts)] *)
Fixpoint join (sep : string) (parts : list string) : string :=
  match parts with
  | [] => EmptyString
  | [p] => p
  | p :: ps => p ++ sep ++ join sep ps
  end.

(** [str(n)] for an [int]. *)
Definition of_Z (z : Z) : string := NilEmpty.string_of_int (Z.to_int z).

End Str.

(** ** Floats: [float(x)], [abs], [<] and the literal [1e-12] *)

Module Float.

Definition prec : Z := 53.
Definition emax : Z := 1024.

(** The double nearest to [m * 10 ^ e10] (ties to even), signed by [neg]. *)
Definition of_decimal (neg : bool) (m : Z) (e10 : Z) : float :=
  match m with
  | Zpos p =>
      if 0 <=? e10
      then binary_round prec emax neg (p * Z.to_pos (10 ^ e10)) 0
      else SFdiv prec emax (S754_finite neg p 0)
                 (S754_finite false (Z.to_pos (10 ^ (- e10))) 0)
  | _ => S754_zero neg
  end.

(** [float(n)] for an [int]: the nearest double, [OverflowError] beyond the
    largest one. *)
Definition of_Z (z : Z) : result float :=
  match binary_normalize prec emax z 0 false with
  | S754_infinity _ => Raise OverflowError
  | f => Ok f
  end.

(** The digits of a [digitpart] that follow its first digit: digits, each
    possibly preceded by one underscore.  Returns the value read so far, the
    number of digits read and the text left. *)
Fixpoint digits_tl (acc : Z) (n : Z) (s : string) : Z * Z * string :=
  match s with
  | String c s' =>
      if Str.is_digit c then digits_tl (10 * acc + Str.digit_val c) (n + 1) s'
      else if Ascii.eqb c "_" then
        match s' with
        | String d s'' =>
            if Str.is_digit d
            then digits_tl (10 * acc + Str.digit_val d) (n + 1) s''
            else (acc, n, s)
        | EmptyString => (acc, n, s)
        end
      else (acc, n, s)
  | EmptyString => (acc, n, s)
  end.

(** A [digitpart] read onto [acc], if [s] starts with a digit. *)
Definition digitpart (acc : Z) (s : string) : option (Z * Z * string) :=
  match s with
  | String c s' =>
      if Str.is_digit c
      then Some (digits_tl (10 * acc + Str.digit_val c) 1 s')
      else None
  | EmptyString => None
  end.

(** An optional sign: whether it is a minus, and the text after it. *)
Definition sign (s : string) : bool * string :=
  match s with
  | String "-" s' => (true, s')
  | String "+" s' => (false, s')
  | _ => (false, s)
  end.

(** [number]: the mantissa, the number of digits after the point and the
    text left. *)
Definition number (s : string) : option (Z * Z * string) :=
  match digitpart 0 s with
  | Some (m, _, String "." r) =>
      match digitpart m r with
      | Some (m', nf, r') => Some (m', nf, r')
      | None => Some (m, 0, r)
      end
  | Some (m, _, r) => Some (m, 0, r)
  | None =>
      match s with
      | String "." r => digitpart 0 r
      | _ => None
      end
  end.

(** An optional [exponent]: its value and the text left; a malformed one is
    left unread. *)
Definition exponent (s : string) : Z * string :=
  match s with
  | String c r =>
      if Ascii.eqb c "e" || Ascii.eqb c "E" then
        let '(neg, r') := sign r in
        match digitpart 0 r' with
        | Some (e, _, r'') => (if neg then - e else e, r'')
        | None => (0, s)
        end
      else (0, s)
  | EmptyString => (0, s)
  end.

(** What a character becomes before the text is read: a character of ASCII
    stays, white space becomes a space and a decimal digit the digit of
    ASCII with its value; any other character has no counterpart. *)
Definition ascii_of (cp : N) : option ascii :=
  if (cp <? 127)%N then Some (ascii_of_N cp)
  else if Unicode.is_space cp then Some " "%char
  else match Unicode.decimal cp with
       | Some d => Some (ascii_of_N (48 + d))
       | None => None
       end.

(** [_PyUnicode_TransformDecimalAndSpaceToASCII] on a text that is not all
    ASCII: the counterpart of each character, up to the first character
    that has none, which becomes a question mark and ends the text. *)
Fixpoint transform (s : string) : string :=
  match s with
  | EmptyString => EmptyString
  | String _ s1 =>
      match Unicode.decode s with
      | Some (cp, w) =>
          match ascii_of cp with
          | Some c =>
              String c
                match w, s1 with
                | 2%nat, String _ r => transform r
                | 3%nat, String _ (String _ r) => transform r
                | 4%nat, String _ (String _ (String _ r)) => transform r
                | _, _ => transform s1
                end
          | None => "?"
          end
      | None => "?"
      end
  end.

(** A text of ASCII is read as it is. *)
Definition to_ascii (s : string) : string :=
  if Unicode.is_ascii s then s else transform s.

(** [Py_ISSPACE]: the space, TAB, LF, VT, FF and CR. *)
Definition is_space (c : ascii) : bool :=
  (((9 <=? Str.code c) && (Str.code c <=? 13)) || (Str.code c =? 32))%N.

Fixpoint lstrip (s : string) : string :=
  match s with
  | EmptyString => EmptyString
  | String c s' => if is_space c then lstrip s' else s
  end.

(** The text between the white space at its two ends. *)
Definition strip (s : string) : string :=
  Str.rev (lstrip (Str.rev (lstrip s))).

(** [float_from_string_inner] on the text between the white space: a sign,
    then [inf], [infinity] or [nan] in any case, or a number with its
    exponent. *)
Definition of_ascii (s : string) : result float :=
  let '(neg, body) := sign s in
  let word := Str.lower body in
  if String.eqb word "inf" || String.eqb word "infinity"
  then Ok (S754_infinity neg)
  else if String.eqb word "nan" then Ok S754_nan
  else match number body with
       | Some (m, nf, r) =>
           match exponent r with
           | (e, EmptyString) => Ok (of_decimal neg m (e - nf))
           | _ => Raise ValueError
           end
       | None => Raise ValueError
       end.

(** [float(s)] for a [str]. *)
Definition of_string (s : string) : result float :=
  of_ascii (strip (to_ascii s)).

Definition abs (x : float) : float := SFabs x.
Definition ltb (x y : float) : bool := SFltb x y.

(** The literal [1e-12]. *)
Definition eps : float := Eval vm_compute in of_decimal false 1 (-12).

(** [bool(x)]: false for the two zeros only. *)
Definition truthy (x : float) : bool :=
  match x with
  | S754_zero _ => false
  | _ => true
  end.

(** *** [repr(x)]: the shortest decimal that reads back as [x] *)

Definition pow10 (k : Z) : Q := Qpower (10 # 1) k.
Definition pow2 (k : Z) : Q := Qpower (2 # 1) k.

(** The largest [p] at most the start value with [10 ^ p <= x]. *)
Fixpoint floor_log10 (fuel : nat) (p : Z) (x : Q) : Z :=
  match fuel with
  | O => p
  | S fuel' =>
      if Qle_bool (pow10 p) x then p else floor_log10 fuel' (p - 1) x
  end.

Definition Qlt_bool (a b : Q) : bool := negb (Qle_bool b a).

(** Whether the decimal [c] reads back as the double [m * 2 ^ e]: it lies
    between the midpoints to the two neighbouring doubles, the midpoints
    included when [m] is even. *)
Definition reads_back (m : positive) (e : Z) (c : Q) : bool :=
  let x := (inject_Z (Zpos m) * pow2 e)%Q in
  let up := pow2 (e - 1) in
  let down := if (Zpos m =? 2 ^ 52) && (-1074 <? e) then pow2 (e - 2) else up in
  let lo := (x - down)%Q in
  let hi := (x + up)%Q in
  if Z.even (Zpos m)
  then Qle_bool lo c && Qle_bool c hi
  else Qlt_bool lo c && Qlt_bool c hi.

(** The digits [d] and exponent [k] of the shortest decimal [d * 10 ^ k]
    that reads back as [m * 2 ^ e], the nearest one of that length; [n] is
    the number of digits tried, from 1 to 17. *)
Fixpoint shortest_from (fuel : nat) (n : Z) (p : Z) (m : positive) (e : Z)
  : Z * Z :=
  let x := (inject_Z (Zpos m) * pow2 e)%Q in
  let k := p - n + 1 in
  let d := Qfloor (x / pow10 k) in
  let c1 := (inject_Z d * pow10 k)%Q in
  let c2 := (inject_Z (d + 1) * pow10 k)%Q in
  match reads_back m e c1, reads_back m e c2 with
  | true, true => if Qle_bool (x - c1) (c2 - x) then (d, k) else (d + 1, k)
  | true, false => (d, k)
  | false, true => (d + 1, k)
  | false, false =>
      match fuel with
      | O => (d, k)
      | S fuel' => shortest_from fuel' (n + 1) p m e
      end
  end.

Fixpoint strip_zeros (fuel : nat) (d k : Z) : Z * Z :=
  match fuel with
  | O => (d, k)
  | S fuel' =>
      if (d mod 10 =? 0) && negb (d =? 0)
      then strip_zeros fuel' (d / 10) (k + 1)
      else (d, k)
  end.

Definition shortest (m : positive) (e : Z) : Z * Z :=
  let x := (inject_Z (Zpos m) * pow2 e)%Q in
  let p := floor_log10 700 309 x in
  let '(d, k) := shortest_from 16 1 p m e in
  strip_zeros 20 d k.

Fixpoint zeros (n : nat) : string :=
  match n with
  | O => EmptyString
  | S n' => String "0" (zeros n')
  end.

(** The digits [ds] with the decimal point after the first [decpt] of them,
    as [repr] lays them out. *)
Definition layout (ds : string) (decpt : Z) : string :=
  let n := Z.of_nat (String.length ds) in
  if (decpt <=? -4) || (16 <? decpt) then
    let e := decpt - 1 in
    let es := Str.of_Z (Z.abs e) in
    let es := if Z.abs e <? 10 then String "0" es else es in
    let frac := Str.drop 1 ds in
    String.substring 0 1 ds
      ++ (if Str.is_empty frac then "" else String "." frac)
      ++ "e" ++ (if e <? 0 then "-" else "+") ++ es
  else if decpt <=? 0 then "0." ++ zeros (Z.to_nat (- decpt)) ++ ds
  else if n <=? decpt then ds ++ zeros (Z.to_nat (decpt - n)) ++ ".0"
  else String.substring 0 (Z.to_nat decpt) ds
         ++ String "." (Str.drop (Z.to_nat decpt) ds).

(** [repr(x)], which is [str(x)]. *)
Definition repr (x : float) : string :=
  match x with
  | S754_nan => "nan"
  | S754_infinity s => if s then "-inf" else "inf"
  | S754_zero s => if s then "-0.0" else "0.0"
  | S754_finite s m e =>
      let '(d, k) := shortest m e in
      let ds := Str.of_Z d in
      (if s then "-" else "")
        ++ layout ds (Z.of_nat (String.length ds) + k)
  end.

End Float.

(** ** Python values: truth, [dict] access, [str] and [float] *)

Module Py.

(** [bool(v)] *)
Definition truthy (v : json) : bool :=
  match v with
  | JNull => false
  | JBool b => b
  | JInt z => negb (z =? 0)
  | JFloat f => Float.truthy f
  | JStr s => negb (Str.is_empty s)
  | JList l => match l with [] => false | _ => true end
  | JDict d => match d with [] => false | _ => true end
  end.

(** [a or b] *)
Definition or (a b : json) : json := if truthy a then a else b.

Fixpoint lookup (k : string) (d : dict) : option json :=
  match d with
  | [] => None
  | (k', v) :: d' => if String.eqb k k' then Some v else lookup k d'
  end.

(** [d.get(k)] *)
Definition get (d : dict) (k : string) : json :=
  match lookup k d with
  | Some v => v
  | None => JNull
  end.

(** [k in d] *)
Definition contains (d : dict) (k : string) : bool :=
  match lookup k d with
  | Some _ => true
  | None => false
  end.

(** [v.get(k)] on a value of any type: only a [dict] has the method. *)
Definition get_attr (v : json) (k : string) : result json :=
  match v with
  | JDict d => Ok (get d k)
  | _ => Raise AttributeError
  end.

Definition hex_digit (n : N) : ascii :=
  ascii_of_N (if (n <? 10)%N then 48 + n else 87 + n).

(** [n] written with the given number of hexadecimal digits. *)
Fixpoint hex (digits : nat) (n : N) : string :=
  match digits with
  | O => EmptyString
  | S d => hex d (n / 16)%N ++ String (hex_digit (n mod 16)%N) ""
  end.

(** What [repr] writes for a character between the quotes [q]: the quote
    and the backslash after a backslash, TAB, LF and CR by their letter, any
    other character that is not printable by its code point, the others as
    they are. *)
Definition repr_char (q : ascii) (cp : N) : string :=
  (if cp =? 92 then "\\"
   else if cp =? Str.code q then String "\" (String q "")
   else if cp =? 9 then "\t"
   else if cp =? 10 then "\n"
   else if cp =? 13 then "\r"
   else if (cp <? 32) || (cp =? 127) then "\x" ++ hex 2 cp
   else if cp <? 127 then String (ascii_of_N cp) ""
   else if Unicode.is_printable cp then Unicode.encode cp
   else if cp <=? 255 then "\x" ++ hex 2 cp
   else if cp <=? 65535 then "\u" ++ hex 4 cp
   else "\U" ++ hex 8 cp)%N.

Fixpoint repr_chars (q : ascii) (s : string) : string :=
  match s with
  | EmptyString => EmptyString
  | String c s1 =>
      match Unicode.decode s with
      | Some (cp, w) =>
          repr_char q cp
            ++ match w, s1 with
               | 2%nat, String _ r => repr_chars q r
               | 3%nat, String _ (String _ r) => repr_chars q r
               | 4%nat, String _ (String _ (String _ r)) => repr_chars q r
               | _, _ => repr_chars q s1
               end
      | None => String c (repr_chars q s1)
      end
  end.

(** The double quote. *)
Definition dquote : ascii := ascii_of_N 34.

Definition repr_str (s : string) : string :=
  let q : ascii :=
    if Str.mem "'" s && negb (Str.mem dquote s) then dquote else "'"%char in
  String q (repr_chars q s) ++ String q "".

(** [repr(v)] *)
Fixpoint repr (v : json) : string :=
  match v with
  | JNull => "None"
  | JBool b => if b then "True" else "False"
  | JInt z => Str.of_Z z
  | JFloat f => Float.repr f
  | JStr s => repr_str s
  | JList l => "[" ++ Str.join ", " (map repr l) ++ "]"
  | JDict d =>
      "{" ++ Str.join ", "
               (map (fun kv => let '(k, x) := kv in
                               repr_str k ++ ": " ++ repr x) d)
          ++ "}"
  end.

(** [str(v)], also what an f-string puts for [{v}]. *)
Definition str (v : json) : string :=
  match v with
  | JStr s => s
  | _ => repr v
  end.

(** [float(v)] *)
Definition to_float (v : json) : result float :=
  match v with
  | JFloat f => Ok f
  | JInt z => Float.of_Z z
  | JBool b => Ok (if b then Float.of_decimal false 1 0 else S754_zero false)
  | JStr s => Float.of_string s
  | JNull | JList _ | JDict _ => Raise TypeError
  end.

Definition is_none (v : json) : bool :=
  match v with
  | JNull => true
  | _ => false
  end.

(** [v == s] for a text [s] *)
Definition eq_str (v : json) (s : string) : bool :=
  match v with
  | JStr t => String.eqb t s
  | _ => false
  end.

(** The characters of a [str], one string each: a byte from 128 to 191
    continues the character before it. *)
Fixpoint chars (s : string) : list string :=
  match s with
  | EmptyString => []
  | String c s' =>
      let continued :=
        match s' with
        | String d _ => ((128 <=? Str.code d) && (Str.code d <=? 191))%N
        | EmptyString => false
        end in
      match chars s' with
      | w :: ws => if continued then String c w :: ws
                   else String c "" :: w :: ws
      | [] => [String c ""]
      end
  end.

(** The items [for x in v] runs over; a number, a boolean and [None] are
    not iterable. *)
Definition iterate (v : json) : result (list json) :=
  match v with
  | JList l => Ok l
  | JStr s => Ok (map JStr (chars s))
  | JDict d => Ok (map (fun kv => JStr (fst kv)) d)
  | JNull | JBool _ | JInt _ | JFloat _ => Raise TypeError
  end.

End Py.

(** ** The regular expressions of the scripts *)

Module Re.

(** [\d*] at the start of [s]: the longest run of decimal digits, those of
    ASCII or of any other script, and the text after it. *)
Definition span_digits (s : string) : string * string :=
  (Unicode.take Unicode.is_decimal s, Unicode.skip Unicode.is_decimal s).

(** [-?\d+(?:\.\d+)?] matched at the start of [s], greedily: the text of the
    match and the text after it.  What follows this pattern in the scripts'
    expressions is a comma, a space or the end of the text, none of which a
    shorter match could reach, so the greedy match is the only one to try. *)
Definition number (s : string) : option (string * string) :=
  let '(sgn, s1) :=
    match s with
    | String "-" r => ("-", r)
    | _ => ("", s)
    end in
  let '(ds, r) := span_digits s1 in
  if Str.is_empty ds then None
  else match r with
       | String "." r' =>
           let '(fs, r'') := span_digits r' in
           if Str.is_empty fs then Some (sgn ++ ds, r)
           else Some (sgn ++ ds ++ "." ++ fs, r'')
       | _ => Some (sgn ++ ds, r)
       end.

(** [q=(-?\d+(?:\.\d+)?),(-?\d+(?:\.\d+)?)] matched at the start of [s]:
    the two groups. *)
Definition q_pair_at (s : string) : option (string * string) :=
  match s with
  | String "q" (String "=" r) =>
      match number r with
      | Some (g1, String "," r1) =>
          match number r1 with
          | Some (g2, _) => Some (g1, g2)
          | None => None
          end
      | _ => None
      end
  | _ => None
  end.

(** [re.search(r"[?&]q=(-?\d+(?:\.\d+)?),(-?\d+(?:\.\d+)?)", s)]: the
    groups of the leftmost match. *)
Fixpoint search_q_pair (s : string) : option (string * string) :=
  match s with
  | EmptyString => None
  | String c s' =>
      match (if Ascii.eqb c "?" || Ascii.eqb c "&"
             then q_pair_at s' else None) with
      | Some g => Some g
      | None => search_q_pair s'
      end
  end.

(** [\s*$] at the start of [s]: only white space is left. *)
Definition all_space (s : string) : bool := Str.is_blank s.

(** [re.match(r"^\s*(-?\d+(?:\.\d+)?)\s*,\s*(-?\d+(?:\.\d+)?)\s*$", s)]:
    the two groups. *)
Definition match_pair (s : string) : option (string * string) :=
  match number (Str.lstrip s) with
  | Some (g1, r) =>
      match Str.lstrip r with
      | String "," r1 =>
          match number (Str.lstrip r1) with
          | Some (g2, r2) => if all_space r2 then Some (g1, g2) else None
          | None => None
          end
      | _ => None
      end
  | None => None
  end.

End Re.

(** ** [urllib.parse]: [urlparse(url).query], [parse_qs] and [unquote] *)

Module Url.

Definition in_range (lo hi : N) (c : ascii) : bool :=
  ((lo <=? Str.code c) && (Str.code c <=? hi))%N.

Definition is_alpha (c : ascii) : bool :=
  in_range 65 90 c || in_range 97 122 c.

(** [scheme_chars]: letters, digits and [+-.]. *)
Definition is_scheme_char (c : ascii) : bool :=
  is_alpha c || Str.is_digit c
  || Ascii.eqb c "+" || Ascii.eqb c "-" || Ascii.eqb c ".".

Fixpoint all_scheme_chars (s : string) : bool :=
  match s with
  | EmptyString => true
  | String c s' => is_scheme_char c && all_scheme_chars s'
  end.

(** [url.lstrip(_WHATWG_C0_CONTROL_OR_SPACE)] *)
Fixpoint lstrip_c0 (s : string) : string :=
  match s with
  | EmptyString => EmptyString
  | String c s' => if in_range 0 32 c then lstrip_c0 s' else s
  end.

(** The tab, the line feed and the carriage return are removed. *)
Fixpoint remove_unsafe (s : string) : string :=
  match s with
  | EmptyString => EmptyString
  | String c s' =>
      if ((Str.code c =? 9) || (Str.code c =? 10) || (Str.code c =? 13))%N
      then remove_unsafe s' else String c (remove_unsafe s')
  end.

(** The text after the scheme and its colon, when [url] starts with one. *)
Definition drop_scheme (url : string) : string :=
  match url with
  | String c _ =>
      if is_alpha c then
        match Str.split_once ":" url with
        | Some (sch, rest) => if all_scheme_chars sch then rest else url
        | None => url
        end
      else url
  | EmptyString => url
  end.

(** [_splitnetloc(url, 2)] on the text after [//]: the netloc runs to the
    first of [/], [?] and [#]. *)
Fixpoint splitnetloc (s : string) : string * string :=
  match s with
  | EmptyString => (EmptyString, EmptyString)
  | String c s' =>
      if Ascii.eqb c "/" || Ascii.eqb c "?" || Ascii.eqb c "#"
      then (EmptyString, s)
      else let '(n, r) := splitnetloc s' in (String c n, r)
  end.

Fixpoint all_chars (p : ascii -> bool) (s : string) : bool :=
  match s with
  | EmptyString => true
  | String c s' => p c && all_chars p s'
  end.

Definition is_hex (c : ascii) : bool :=
  Str.is_digit c || in_range 65 70 c || in_range 97 102 c.

(** The value of a text of decimal digits. *)
Fixpoint decimal_value (acc : N) (s : string) : N :=
  match s with
  | EmptyString => acc
  | String c s' => decimal_value (10 * acc + (Str.code c - 48))%N s'
  end.

(** [IPv4Address._parse_octet] returns: digits of ASCII, three at most, no
    zero in front of another digit, a value of 255 at most. *)
Definition is_octet (s : string) : bool :=
  negb (Str.is_empty s)
  && all_chars Str.is_digit s
  && (String.length s <=? 3)%nat
  && (String.eqb s "0" || negb (Str.startswith "0" s))
  && (decimal_value 0 s <=? 255)%N.

(** [IPv4Address(s)] returns: four octets between points. *)
Definition is_ipv4 (s : string) : bool :=
  negb (Str.mem "/" s)
  && negb (Str.is_empty s)
  && (let octets := Str.split "." s in
      (List.length octets =? 4)%nat && forallb is_octet octets).

(** [IPv6Address._parse_hextet] returns: one to four hexadecimal digits. *)
Definition is_hextet (s : string) : bool :=
  all_chars is_hex s && (String.length s <=? 4)%nat && negb (Str.is_empty s).

(** The indices from [i] on of the empty texts of [parts]. *)
Fixpoint empty_indices (i : nat) (parts : list string) : list nat :=
  match parts with
  | [] => []
  | p :: rest =>
      (if Str.is_empty p then [i] else []) ++ empty_indices (S i) rest
  end%list.

(** [IPv6Address._ip_int_from_string] returns, for the parts between the
    colons, a dotted last part replaced by two hextets: eight hextets, or
    fewer around one [::]. *)
Definition hextets_ok (parts : list string) : bool :=
  let n := List.length parts in
  let first_empty := Str.is_empty (hd "x" parts) in
  let last_empty := Str.is_empty (last parts "x") in
  (n <=? 9)%nat
  && match empty_indices 1 (firstn (n - 2) (skipn 1 parts)) with
     | [] =>
         (n =? 8)%nat && negb first_empty && negb last_empty
         && forallb is_hextet parts
     | [skip_index] =>
         let parts_hi := (if first_empty then skip_index - 1 else skip_index)%nat in
         let parts_lo :=
           (if last_empty then n - skip_index - 2 else n - skip_index - 1)%nat in
         (if first_empty then (parts_hi =? 0)%nat else true)
         && (if last_empty then (parts_lo =? 0)%nat else true)
         && (parts_hi + parts_lo <=? 7)%nat
         && forallb is_hextet (firstn parts_hi parts)
         && forallb is_hextet (skipn (n - parts_lo) parts)
     | _ => false
     end.

(** [IPv6Address(s)] returns: the address, then possibly a percent sign and
    a scope; the last part of the address may be an IPv4 address, which
    stands for two hextets. *)
Definition is_ipv6 (s : string) : bool :=
  let addr :=
    match Str.split_once "%" s with
    | Some (a, scope_id) =>
        if Str.is_empty scope_id || Str.mem "%" scope_id then None
        else Some a
    | None => Some s
    end in
  negb (Str.mem "/" s)
  && match addr with
     | None => false
     | Some a =>
         let parts := Str.split ":" a in
         negb (Str.is_empty a)
         && (3 <=? List.length parts)%nat
         && if Str.mem "." (last parts "")
            then is_ipv4 (last parts "")
                 && hextets_ok (removelast parts ++ ["0"; "0"])%list
            else hextets_ok parts
     end.

(** [s] without the hexadecimal digits at its start. *)
Fixpoint skip_hex (s : string) : string :=
  match s with
  | EmptyString => EmptyString
  | String c s' => if is_hex c then skip_hex s' else s
  end.

(** [re.match(r"\Av[a-fA-F0-9]+\..+\Z", "v" + r)]: a hexadecimal digit at
    least, a point, and at least one character, none a line feed. *)
Definition is_ipvfuture (r : string) : bool :=
  match r with
  | String c _ => is_hex c
  | EmptyString => false
  end
  && match skip_hex r with
     | String "." (String c more) =>
         all_chars (fun d => negb (Str.code d =? 10)%N) (String c more)
     | _ => false
     end.

(** [_check_bracketed_host]: what stands between the brackets is an IPv6
    address or an address of a later version. *)
Definition check_bracketed_host (hostname : string) : result unit :=
  match hostname with
  | String "v" r => if is_ipvfuture r then Ok tt else Raise ValueError
  | _ =>
      if is_ipv4 hostname then Raise ValueError
      else if is_ipv6 hostname then Ok tt
      else Raise ValueError
  end.

(** [s.rpartition(c)[2]]: the text after the last [c], all of [s] when [c]
    is not in it. *)
Fixpoint after_last (c : ascii) (s : string) : string :=
  match s with
  | EmptyString => EmptyString
  | String d s' =>
      if Str.mem c s' then after_last c s'
      else if Ascii.eqb c d then s' else s
  end.

(** [_check_bracketed_netloc], called on a netloc with both brackets. *)
Definition check_bracketed_netloc (netloc : string) : result unit :=
  let hostname_and_port := after_last "@" netloc in
  match Str.split_once "[" hostname_and_port with
  | Some (before_bracket, bracketed) =>
      if negb (Str.is_empty before_bracket) then Raise ValueError
      else
        let '(hostname, port) :=
          match Str.split_once "]" bracketed with
          | Some hp => hp
          | None => (bracketed, EmptyString)
          end in
        if negb (Str.is_empty port) && negb (Str.startswith ":" port)
        then Raise ValueError
        else check_bracketed_host hostname
  | None =>
      check_bracketed_host
        match Str.split_once ":" hostname_and_port with
        | Some (hostname, _) => hostname
        | None => hostname_and_port
        end
  end.

(** [_checknetloc]: the netloc, without its [@], [:], [#] and [?], is put
    in normal form NFKC and refused when that form holds one of [/], [?],
    [#], [@] and [:], which only a character of [nfkc_delimiters] brings
    in. *)
Definition check_netloc (netloc : string) : result unit :=
  if Unicode.any_char (fun cp => existsb (N.eqb cp) Unicode.nfkc_delimiters)
       netloc
  then Raise ValueError else Ok tt.

(** [urlparse(url).query], as [urlsplit] computes it; the three checks of
    the netloc raise [ValueError]. *)
Definition urlparse_query (url : string) : result string :=
  let url := drop_scheme (remove_unsafe (lstrip_c0 url)) in
  '(netloc, rest) <-
    match url with
    | String "/" (String "/" r) =>
        let '(netloc, rest) := splitnetloc r in
        let opens := Str.mem "[" netloc in
        let closes := Str.mem "]" netloc in
        if xorb opens closes then Raise ValueError
        else
          _ <- (if opens && closes then check_bracketed_netloc netloc
                else Ok tt) ;;
          Ok (netloc, rest)
    | _ => Ok (EmptyString, url)
    end ;;
  let rest := match Str.split_once "#" rest with
              | Some (before, _) => before
              | None => rest
              end in
  _ <- check_netloc netloc ;;
  Ok match Str.split_once "?" rest with
     | Some (_, query) => query
     | None => EmptyString
     end.

Definition hex_val (c : ascii) : option N :=
  if Str.is_digit c then Some (Str.code c - 48)%N
  else if in_range 65 70 c then Some (Str.code c - 55)%N
  else if in_range 97 102 c then Some (Str.code c - 87)%N
  else None.

(** [unquote_to_bytes]: each [%XX] with two hexadecimal digits becomes the
    byte it names; any other [%] stays. *)
Fixpoint percent_decode (s : string) : string :=
  match s with
  | EmptyString => EmptyString
  | String c s' =>
      if Ascii.eqb c "%" then
        match s' with
        | String h (String l s'') =>
            match hex_val h, hex_val l with
            | Some a, Some b =>
                String (ascii_of_N (16 * a + b)) (percent_decode s'')
            | _, _ => String c (percent_decode s')
            end
        | _ => String c (percent_decode s')
        end
      else String c (percent_decode s')
  end.

(** U+FFFD, the replacement character, in UTF-8. *)
Definition replacement : string :=
  String (ascii_of_N 239) (String (ascii_of_N 191) (String (ascii_of_N 189) "")).

(** A sequence under way: its bytes so far, the number of bytes still due
    and the range the next one must lie in. *)
Definition pending : Type := string * nat * N * N.

(** The first byte of a character: what is output at once, and the sequence
    it begins if it is a lead byte. *)
Definition utf8_start (b : ascii) : string * option pending :=
  let one := String b "" in
  if in_range 0 127 b then (one, None)
  else if in_range 194 223 b then ("", Some (one, 1%nat, 128, 191)%N)
  else if in_range 224 224 b then ("", Some (one, 2%nat, 160, 191)%N)
  else if in_range 237 237 b then ("", Some (one, 2%nat, 128, 159)%N)
  else if in_range 225 239 b then ("", Some (one, 2%nat, 128, 191)%N)
  else if in_range 240 240 b then ("", Some (one, 3%nat, 144, 191)%N)
  else if in_range 241 243 b then ("", Some (one, 3%nat, 128, 191)%N)
  else if in_range 244 244 b then ("", Some (one, 3%nat, 128, 143)%N)
  else (replacement, None).

(** [bytes.decode("utf-8", "replace")], the result again in UTF-8: each
    ill-formed run of bytes becomes U+FFFD. *)
Fixpoint utf8_replace (p : option pending) (s : string) : string :=
  match s with
  | EmptyString =>
      match p with
      | Some _ => replacement
      | None => EmptyString
      end
  | String b s' =>
      match p with
      | Some (seq, need, lo, hi) =>
          if in_range lo hi b then
            match need with
            | S (S n) =>
                utf8_replace (Some (seq ++ String b "", S n, 128, 191)%N) s'
            | _ => seq ++ String b (utf8_replace None s')
            end
          else
            let '(out, p') := utf8_start b in
            replacement ++ out ++ utf8_replace p' s'
      | None =>
          let '(out, p') := utf8_start b in
          out ++ utf8_replace p' s'
      end
  end.

(** [unquote(s)] *)
Definition unquote (s : string) : string :=
  if Str.mem "%" s then utf8_replace None (percent_decode s) else s.

(** [parse_qsl(query)]: the fields between ampersands that have a name, an
    equals sign and a value that is not empty, decoded. *)
Fixpoint parse_fields (fields : list string) : list (string * string) :=
  match fields with
  | [] => []
  | f :: fs =>
      match Str.split_once "=" f with
      | Some (name, value) =>
          if Str.is_empty value then parse_fields fs
          else (unquote (Str.replace "+" " " name),
                unquote (Str.replace "+" " " value)) :: parse_fields fs
      | None => parse_fields fs
      end
  end.

Definition parse_qsl (query : string) : list (string * string) :=
  parse_fields (Str.split "&" query).

(** [parse_qs(query).get(name)]: the values of the fields called [name], in
    order; the empty list stands for an absent key. *)
Definition parse_qs_get (query : string) (name : string) : list string :=
  map snd (filter (fun nv => String.eqb (fst nv) name) (parse_qsl query)).

End Url.

(** ** Output formatting: [f"{x:.8f}"] and [html.escape] *)

Module Fmt.

(** [s] filled with zeros on the left up to [width] characters. *)
Definition pad_left (width : nat) (s : string) : string :=
  Float.zeros (width - String.length s) ++ s.

(** The integer nearest to [q], ties to even, for [q >= 0]. *)
Definition round_half_even (q : Q) : Z :=
  let n := Qfloor q in
  match Qcompare (q - inject_Z n) (1 # 2) with
  | Gt => n + 1
  | Eq => if Z.even n then n else n + 1
  | Lt => n
  end.

(** [f"{x:.8f}"] *)
Definition fixed8 (x : float) : string :=
  match x with
  | S754_nan => "nan"
  | S754_infinity s => if s then "-inf" else "inf"
  | S754_zero s => if s then "-0.00000000" else "0.00000000"
  | S754_finite s m e =>
      let n := round_half_even
                 (inject_Z (Zpos m) * Float.pow2 e * inject_Z (10 ^ 8)) in
      (if s then "-" else "")
        ++ Str.of_Z (n / 10 ^ 8) ++ "." ++ pad_left 8 (Str.of_Z (n mod 10 ^ 8))
  end.

(** [html.escape(s, quote=True)] *)
Fixpoint escape (s : string) : string :=
  match s with
  | EmptyString => EmptyString
  | String c s' =>
      (if Ascii.eqb c "&" then "&amp;"
       else if Ascii.eqb c "<" then "&lt;"
       else if Ascii.eqb c ">" then "&gt;"
       else if Ascii.eqb c Py.dquote then "&quot;"
       else if Ascii.eqb c "'" then "&#x27;"
       else String c "") ++ escape s'
  end.

End Fmt.

(** ** What the three scripts share word for word

    [parse_latlon_from_url], [extract_lat_lon] and [derive_name_from_url]
    are written out in each script.  The three copies differ in their
    comments and in how the absence of the parameter [q] is tested: by
    membership in the GPX script, by the truth of the list of values in the
    other two, which is the same test since [parse_qs] never maps a key to
    an empty list. *)

Module Core.

(** [float(g1), float(g2)] for the two groups of a match. *)
Definition floats_of (g : string * string) : result (float * float) :=
  lat <- Float.of_string (fst g) ;;
  lon <- Float.of_string (snd g) ;;
  Ok (lat, lon).

(** The second half of [parse_latlon_from_url]: the [q] parameter read with
    [urlparse] and [parse_qs]. *)
Definition latlon_from_query (url : string) : result (option (float * float)) :=
  query <- Url.urlparse_query url ;;
  match Url.parse_qs_get query "q" with
  | [] => Ok None
  | q_raw :: _ =>
      let q_text := Str.strip (Url.unquote (Str.replace "+" " " q_raw)) in
      match Re.match_pair q_text with
      | Some g =>
          match floats_of g with
          | Ok p => Ok (Some p)
          | Raise ValueError => Ok None
          | Raise e => Raise e
          end
      | None => Ok None
      end
  end.

Definition parse_latlon_from_url (url : string)
  : result (option (float * float)) :=
  if Str.is_empty url then Ok None
  else match Re.search_q_pair url with
       | Some g =>
           match floats_of g with
           | Ok p => Ok (Some p)
           | Raise ValueError => latlon_from_query url
           | Raise e => Raise e
           end
       | None => latlon_from_query url
       end.

(** [feature.get("properties") or {}] and the like. *)
Definition get_or_empty (d : dict) (k : string) : json :=
  Py.or (Py.get d k) (JDict []).

(** [props.get("google_maps_url") or props.get("Google Maps URL")] *)
Definition maps_url (props : json) : result json :=
  a <- Py.get_attr props "google_maps_url" ;;
  if Py.truthy a then Ok a else Py.get_attr props "Google Maps URL".

(** [abs(lat) < 1e-12 and abs(lon) < 1e-12] *)
Definition is_placeholder (lat lon : float) : bool :=
  Float.ltb (Float.abs lat) Float.eps && Float.ltb (Float.abs lon) Float.eps.

(** Step 1 of [extract_lat_lon]: the coordinates of a Point geometry;
    [Ok None] when the step does not return. *)
Definition latlon_from_geometry (geom : json)
  : result (option (float * float)) :=
  match geom with
  | JDict g =>
      if Py.eq_str (Py.get g "type") "Point" then
        match Py.get g "coordinates" with
        | JList (c0 :: c1 :: _) =>
            if negb (Py.is_none c0) && negb (Py.is_none c1) then
              lon <- Py.to_float c0 ;;
              lat <- Py.to_float c1 ;;
              if negb (is_placeholder lat lon) then Ok (Some (lat, lon))
              else Ok None
            else Ok None
        | _ => Ok None
        end
      else Ok None
  | _ => Ok None
  end.

(** Step 2 of [extract_lat_lon]: the coordinates in the URL. *)
Definition latlon_from_props (props : json) : result (option (float * float)) :=
  url <- maps_url props ;;
  match url with
  | JStr u => parse_latlon_from_url u
  | _ => Ok None
  end.

Definition extract_lat_lon (feature : json) : result (option (float * float)) :=
  match feature with
  | JDict f =>
      let geom := get_or_empty f "geometry" in
      let props := get_or_empty f "properties" in
      found <- latlon_from_geometry geom ;;
      match found with
      | Some p => Ok (Some p)
      | None => latlon_from_props props
      end
  | _ => Raise AttributeError
  end.

Definition derive_name_from_url (url : string) : result (option string) :=
  query <- Url.urlparse_query url ;;
  match Url.parse_qs_get query "q" with
  | [] => Ok None
  | q_raw :: _ =>
      let q_text := Str.strip (Url.unquote (Str.replace "+" " " q_raw)) in
      match Re.match_pair q_text with
      | Some _ => Ok None
      | None =>
          let q_text :=
            if Str.startswith "m," (Str.lower q_text)
            then Str.strip (Str.drop 2 q_text) else q_text in
          Ok (if Str.is_empty q_text then None else Some q_text)
      end
  end.

End Core.

(** ** The name resolver's steps, as the scripts write them *)

Module Name.

(** [not name_val] for a name that is [None] or a [str]. *)
Definition missing (name_val : option string) : bool :=
  match name_val with
  | None => true
  | Some s => Str.is_empty s
  end.

(** [str(loc["name"])] when [loc] is a [dict] with a true [name]. *)
Definition of_location (loc : json) : option string :=
  match loc with
  | JDict l =>
      if Py.truthy (Py.get l "name") then Some (Py.str (Py.get l "name"))
      else None
  | _ => None
  end.

Definition label_keys : list string :=
  ["name"; "Name"; "title"; "Title"; "label"; "Label"].

(** The [for key in ...] loop: [str(props[key])] for the first key that is
    in [props] with a true value. *)
Fixpoint of_labels (props : dict) (keys : list string) : option string :=
  match keys with
  | [] => None
  | key :: rest =>
      if Py.contains props key && Py.truthy (Py.get props key)
      then Some (Py.str (Py.get props key))
      else of_labels props rest
  end.

(** [f"Saved Place {idx}"] *)
Definition fallback (idx : Z) : string := "Saved Place " ++ Str.of_Z idx.

(** Steps 1 to 4 of [extract_name_and_desc] and [extract_name_and_notes],
    with [name_val] assigned and tested step after step. *)
Definition resolve_by_steps (props : dict) (loc : json) (idx : Z)
  : result string :=
  let name_val := of_location loc in
  name_val <-
    (if missing name_val then
       url <- Core.maps_url (JDict props) ;;
       match url with
       | JStr u =>
           n <- Core.derive_name_from_url u ;;
           Ok (if missing n then name_val else n)
       | _ => Ok name_val
       end
     else Ok name_val) ;;
  let name_val :=
    if missing name_val then
      match of_labels props label_keys with
      | Some n => Some n
      | None => name_val
      end
    else name_val in
  let name_val := if missing name_val then Some (fallback idx) else name_val in
  Ok match name_val with
     | Some n => n
     | None => EmptyString
     end.

(** The four steps of [extract_name] in the HTML script, each returning as
    soon as it has a name. *)
Definition resolve_by_returns (props : dict) (loc : json) (idx : Z)
  : result string :=
  match of_location loc with
  | Some n => Ok n
  | None =>
      url <- Core.maps_url (JDict props) ;;
      n <- match url with
           | JStr u => Core.derive_name_from_url u
           | _ => Ok None
           end ;;
      if negb (missing n)
      then Ok match n with Some s => s | None => EmptyString end
      else match of_labels props label_keys with
           | Some s => Ok s
           | None => Ok (fallback idx)
           end
  end.

End Name.

(** ** The annotation's parts *)

Module Parts.

(** [f"Saved: {props['date']}"] if [props.get("date")] *)
Definition saved (props : dict) : list string :=
  if Py.truthy (Py.get props "date")
  then ["Saved: " ++ Py.str (Py.get props "date")] else [].

(** [f"Address: {loc['address']}"] if [loc] is a [dict] with a true
    [address] *)
Definition address (loc : json) : list string :=
  match loc with
  | JDict l =>
      if Py.truthy (Py.get l "address")
      then ["Address: " ++ Py.str (Py.get l "address")] else []
  | _ => []
  end.

(** [f"Google Maps: {url}"] if [url] is a [str] *)
Definition google_maps (url : json) : list string :=
  match url with
  | JStr u => ["Google Maps: " ++ u]
  | _ => []
  end.

(** [str(comment)] if [props.get("Comment") or props.get("comment")] *)
Definition comment (props : dict) : list string :=
  let c := Py.or (Py.get props "Comment") (Py.get props "comment") in
  if Py.truthy c then [Py.str c] else [].

End Parts.

(** ** geojson_to_gpx.py *)

Module Gpx.

Definition parse_latlon_from_url := Core.parse_latlon_from_url.
Definition extract_lat_lon := Core.extract_lat_lon.
Definition derive_name_from_url := Core.derive_name_from_url.

Definition extract_name_and_desc (feature : json) (idx : Z)
  : result (string * string) :=
  match feature with
  | JDict f =>
      match Core.get_or_empty f "properties" with
      | JDict props =>
          let loc := Core.get_or_empty props "location" in
          name_val <- Name.resolve_by_steps props loc idx ;;
          url <- Core.maps_url (JDict props) ;;
          let parts :=
            (Parts.saved props ++ Parts.address loc
               ++ Parts.google_maps url ++ Parts.comment props)%list in
          Ok (name_val, Str.join " | " parts)
      | _ => Raise AttributeError
      end
  | _ => Raise AttributeError
  end.

Definition nl : string := String (ascii_of_N 10) "".
Definition dq : string := String Py.dquote "".

Definition feature_to_wpt (feature : json) (idx : Z) : result string :=
  lat_lon <- extract_lat_lon feature ;;
  match lat_lon with
  | None => Ok EmptyString
  | Some (lat, lon) =>
      '(name, desc) <- extract_name_and_desc feature idx ;;
      let name_xml := Fmt.escape name in
      let desc_xml := Fmt.escape desc in
      let wpt_line :=
        "  <wpt lat=" ++ dq ++ Fmt.fixed8 lat ++ dq
          ++ " lon=" ++ dq ++ Fmt.fixed8 lon ++ dq ++ ">" in
      let name_line := "    <name>" ++ name_xml ++ "</name>" in
      let desc_line := "    <desc>" ++ desc_xml ++ "</desc>" in
      let out :=
        ([wpt_line; name_line]
           ++ (if Str.is_empty desc_xml then [] else [desc_line])
           ++ ["  </wpt>"])%list in
      Ok (Str.join nl out)
  end.

(** The loop of [json_to_gpx] over [enumerate(features, start=i)]: the
    list [wpts]. *)
Fixpoint wpts_from (i : Z) (features : list json) : result (list string) :=
  match features with
  | [] => Ok []
  | feat :: rest =>
      w <- feature_to_wpt feat i ;;
      ws <- wpts_from (i + 1) rest ;;
      Ok (if Str.is_empty w then ws else w :: ws)
  end.

(** The list [wpts] that [json_to_gpx] builds. *)
Definition waypoints (data : json) : result (list string) :=
  fs <- Py.get_attr data "features" ;;
  features <- Py.iterate (Py.or fs (JList [])) ;;
  wpts_from 1 features.

Definition header : list string :=
  ["<?xml version=" ++ dq ++ "1.0" ++ dq ++ " encoding=" ++ dq ++ "UTF-8"
     ++ dq ++ "?>";
   "<gpx version=" ++ dq ++ "1.1" ++ dq
     ++ " creator=" ++ dq ++ "google-saved-to-gpx" ++ dq
     ++ " xmlns=" ++ dq ++ "http://www.topografix.com/GPX/1/1" ++ dq
     ++ " xmlns:xsi=" ++ dq ++ "http://www.w3.org/2001/XMLSchema-instance" ++ dq
     ++ " xsi:schemaLocation=" ++ dq ++ "http://www.topografix.com/GPX/1/1 "
     ++ "http://www.topografix.com/GPX/1/1/gpx.xsd" ++ dq ++ ">"].

Definition json_to_gpx (data : json) : result string :=
  wpts <- waypoints data ;;
  Ok (Str.join nl (header ++ wpts ++ ["</gpx>"])%list).

End Gpx.

(** ** saved_places_to_csv.py *)

Module Csv.

Definition parse_latlon_from_url := Core.parse_latlon_from_url.
Definition extract_lat_lon := Core.extract_lat_lon.
Definition derive_name_from_url := Core.derive_name_from_url.

Definition extract_name_and_notes (feature : json) (idx : Z)
  : result (string * string) :=
  match feature with
  | JDict f =>
      match Core.get_or_empty f "properties" with
      | JDict props =>
          let loc := Core.get_or_empty props "location" in
          name_val <- Name.resolve_by_steps props loc idx ;;
          let notes_parts :=
            (Parts.saved props ++ Parts.address loc
               ++ Parts.comment props)%list in
          Ok (name_val, Str.join " | " notes_parts)
      | _ => Raise AttributeError
      end
  | _ => Raise AttributeError
  end.

(** A row: the [dict] with the keys [name], [latitude], [longitude], [url]
    and [notes]. *)
Record row : Type := {
  name : string;
  latitude : string;
  longitude : string;
  url : json;
  notes : string
}.

(** The body of the loop of [json_to_rows]: the row appended, if any. *)
Definition row_of (feat : json) (i : Z) : result (option row) :=
  latlon <- extract_lat_lon feat ;;
  match latlon with
  | None => Ok None
  | Some (lat, lon) =>
      props <- (f <- Py.get_attr feat "properties" ;; Ok (Py.or f (JDict []))) ;;
      u <- Core.maps_url props ;;
      let u := Py.or u (JStr "") in
      '(n, ns) <- extract_name_and_notes feat i ;;
      Ok (Some {| name := n;
                  latitude := Fmt.fixed8 lat;
                  longitude := Fmt.fixed8 lon;
                  url := u;
                  notes := ns |})
  end.

Fixpoint rows_from (i : Z) (features : list json) : result (list row) :=
  match features with
  | [] => Ok []
  | feat :: rest =>
      r <- row_of feat i ;;
      rs <- rows_from (i + 1) rest ;;
      Ok match r with
         | Some x => x :: rs
         | None => rs
         end
  end.

Definition json_to_rows (data : json) : result (list row) :=
  fs <- Py.get_attr data "features" ;;
  features <- Py.iterate (Py.or fs (JList [])) ;;
  rows_from 1 features.

End Csv.

(** ** saved_places_to_html.py *)

Module Html.

Definition parse_latlon_from_url := Core.parse_latlon_from_url.
Definition extract_lat_lon := Core.extract_lat_lon.
Definition derive_name_from_url := Core.derive_name_from_url.

Definition extract_name (feature : json) (idx : Z) : result string :=
  match feature with
  | JDict f =>
      match Core.get_or_empty f "properties" with
      | JDict props =>
          Name.resolve_by_returns props (Core.get_or_empty props "location") idx
      | _ => Raise AttributeError
      end
  | _ => Raise AttributeError
  end.

(** An entry: the [dict] with the keys [name], [lat], [lon], [date] and
    [gmaps_url]. *)
Record entry : Type := {
  name : string;
  lat : string;
  lon : string;
  date : json;
  gmaps_url : json
}.

(** [props.get("date", "")] *)
Definition get_date (props : json) : result json :=
  match props with
  | JDict p =>
      Ok match Py.lookup "date" p with
         | Some v => v
         | None => JStr ""
         end
  | _ => Raise AttributeError
  end.

(** The body of the loop of [json_to_entries]: the entry appended, if any. *)
Definition entry_of (feat : json) (i : Z) : result (option entry) :=
  latlon <- extract_lat_lon feat ;;
  match latlon with
  | None => Ok None
  | Some (la, lo) =>
      n <- extract_name feat i ;;
      props <- (f <- Py.get_attr feat "properties" ;; Ok (Py.or f (JDict []))) ;;
      d <- get_date props ;;
      u <- Core.maps_url props ;;
      Ok (Some {| name := n;
                  lat := Fmt.fixed8 la;
                  lon := Fmt.fixed8 lo;
                  date := d;
                  gmaps_url := Py.or u (JStr "") |})
  end.

Fixpoint entries_from (i : Z) (features : list json) : result (list entry) :=
  match features with
  | [] => Ok []
  | feat :: rest =>
      e <- entry_of feat i ;;
      es <- entries_from (i + 1) rest ;;
      Ok match e with
         | Some x => x :: es
         | None => es
         end
  end.

Definition json_to_entries (data : json) : result (list entry) :=
  fs <- Py.get_attr data "features" ;;
  features <- Py.iterate (Py.or fs (JList [])) ;;
  entries_from 1 features.

(** [html.escape(v)] on a value of any type: only a [str] has the method
    [replace] it starts with. *)
Definition escape_value (v : json) : result string :=
  match v with
  | JStr s => Ok (Fmt.escape s)
  | _ => Raise AttributeError
  end.

(** The body of the loop of [entries_to_html]: the seven lines of a table
    row. *)
Definition row_lines (idx : Z) (e : entry) : result (list string) :=
  let name_html := Fmt.escape (name e) in
  date_html <- escape_value (date e) ;;
  url_html <- escape_value (gmaps_url e) ;;
  let maps_url :=
    "https://maps.apple.com/?ll=" ++ lat e ++ "," ++ lon e
      ++ "&q=" ++ name_html in
  Ok ["<tr>";
      "<td>" ++ Str.of_Z idx ++ "</td>";
      "<td>" ++ name_html ++ "</td>";
      "<td><a href='" ++ maps_url
        ++ "' target='_blank'>Open in Apple Maps</a></td>";
      "<td><a href='" ++ url_html ++ "' target='_blank'>"
        ++ (if Str.is_empty url_html then "" else "Google link")
        ++ "</a></td>";
      "<td>" ++ date_html ++ "</td>";
      "</tr>"].

(** The loop of [entries_to_html] over [enumerate(entries, start=idx)]. *)
Fixpoint table_rows (idx : Z) (entries : list entry) : result (list string) :=
  match entries with
  | [] => Ok []
  | e :: rest =>
      ls <- row_lines idx e ;;
      more <- table_rows (idx + 1) rest ;;
      Ok (ls ++ more)%list
  end.

(** The lines before the rows. *)
Definition head_lines (title : string) : list string :=
  ["<!DOCTYPE html>";
   "<html>";
   "<head>";
   "<meta charset='utf-8'>";
   "<title>" ++ Fmt.escape title ++ "</title>";
   "<style>";
   "body { font-family: -apple-system, BlinkMacSystemFont, sans-serif; }";
   "table { border-collapse: collapse; width: 100%; }";
   "th, td { border: 1px solid #ccc; padding: 4px 8px; }";
   "th { background: #f0f0f0; }";
   "a { text-decoration: none; }";
   "</style>";
   "</head>";
   "<body>";
   "<h1>" ++ Fmt.escape title ++ "</h1>";
   "<table>";
   "<tr><th>#</th><th>Name</th><th>Open in Apple Maps</th>"
     ++ "<th>Google Maps URL</th><th>Date</th></tr>"].

(** The opening and the closing curly quote, U+201C and U+201D. *)
Definition ldquo : string :=
  String (ascii_of_N 226) (String (ascii_of_N 128) (String (ascii_of_N 156) "")).
Definition rdquo : string :=
  String (ascii_of_N 226) (String (ascii_of_N 128) (String (ascii_of_N 157) "")).

(** The lines after the rows. *)
Definition foot_lines : list string :=
  ["</table>";
   "<p>Click a link in the " ++ ldquo ++ "Open in Apple Maps" ++ rdquo
     ++ " column, then use " ++ ldquo ++ "Add to Favorites" ++ rdquo
     ++ " or " ++ ldquo ++ "Add to Guide" ++ rdquo ++ " in Apple Maps.</p>";
   "</body>";
   "</html>"].

Definition nl : string := String (ascii_of_N 10) "".

Definition entries_to_html (entries : list entry) (title : string)
  : result string :=
  rows <- table_rows 1 entries ;;
  Ok (Str.join nl (head_lines title ++ rows ++ foot_lines)%list).

End Html.

(** ** Sample documents *)

Module Sample.

Definition url_brighton : string :=
  "https://maps.google.com/?q=50.82253,-0.13150".

Definition point (c0 c1 : json) : json :=
  JDict [("type", JStr "Point"); ("coordinates", JList [c0; c1])].

(** 51.5 and -0.25 *)
Definition f51_5 : float := Float.of_decimal false 515 (-1).
Definition fm0_25 : float := Float.of_decimal true 25 (-2).

(** A Point whose first coordinate is text that is not a number, with a
    URL that holds coordinates. *)
Definition text_coordinate : json :=
  JDict [("geometry", point (JStr "abc") (JFloat f51_5));
         ("properties", JDict [("google_maps_url", JStr url_brighton)])].

(** A Point whose first coordinate is a list. *)
Definition list_coordinate : json :=
  JDict [("geometry", point (JList []) (JFloat f51_5));
         ("properties", JDict [("google_maps_url", JStr url_brighton)])].

(** A URL whose netloc opens a bracket and never closes it. *)
Definition url_open_bracket : string := "http://[".

(** A feature with a title and that URL. *)
Definition titled_open_bracket_props : dict :=
  [("title", JStr "Brighton"); ("google_maps_url", JStr url_open_bracket)].

Definition titled_open_bracket : dict :=
  [("properties", JDict titled_open_bracket_props)].

(** A Point with the integer 2^53 + 1 for longitude. *)
Definition big_longitude : json :=
  JDict [("geometry", point (JInt 9007199254740993) (JFloat f51_5))].

(** A Point at longitude -0.25, latitude 51.5. *)
Definition london : dict :=
  [("geometry", point (JFloat fm0_25) (JFloat f51_5))].

(** A Point at (0, 0) with a URL that holds coordinates. *)
Definition unset_point : dict :=
  [("geometry", point (JFloat (S754_zero false)) (JInt 0));
   ("properties", JDict [("google_maps_url", JStr url_brighton)])].

(** A place saved on a date, with a URL that holds coordinates. *)
Definition dated : dict :=
  [("properties",
    JDict [("google_maps_url", JStr url_brighton);
           ("date", JStr "2021-05-01")])].

(** A place with a date, an address and a URL, and no comment. *)
Definition main_st_props : dict :=
  [("google_maps_url", JStr url_brighton);
   ("date", JStr "2021-05-01");
   ("location", JDict [("address", JStr "1 Main St")])].

Definition main_st : dict := [("properties", JDict main_st_props)].

(** The same place without the URL. *)
Definition main_st_no_url_props : dict :=
  [("date", JStr "2021-05-01");
   ("location", JDict [("address", JStr "1 Main St")])].

Definition main_st_no_url : dict :=
  [("properties", JDict main_st_no_url_props)].

(** Properties with an empty first spelling of the URL key and of the
    comment key. *)
Definition second_spellings : dict :=
  [("google_maps_url", JStr "");
   ("Google Maps URL", JStr url_brighton);
   ("comment", JStr "by the sea")].

(** A feature with no geometry, no URL and no name field. *)
Definition anonymous : dict := [("properties", JDict [("date", JStr "2021")])].

(** A feature with a title and a URL whose [q] is a place name. *)
Definition pier : dict :=
  [("properties",
    JDict [("title", JStr "Brighton");
           ("google_maps_url", JStr "https://maps.google.com/?q=m,The+Pier")])].

(** A feature whose URL holds the coordinates 0,0. *)
Definition url_origin : json :=
  JDict [("properties",
          JDict [("google_maps_url", JStr "https://maps.google.com/?q=0,0")])].

(** A document with a located feature and one that cannot be located. *)
Definition two_features : dict :=
  [("features", JList [JDict anonymous; JDict london])].

Definition origin_document : json := JDict [("features", JList [url_origin])].

(** A document whose [features] is the number 5. *)
Definition features_is_number : json := JDict [("features", JInt 5)].

(** A document without [features]. *)
Definition no_features : dict := [("type", JStr "FeatureCollection")].

(** An entry whose date is [None]. *)
Definition null_date_entry : Html.entry :=
  {| Html.name := "Pier";
     Html.lat := "50.82253000";
     Html.lon := "-0.13150000";
     Html.date := JNull;
     Html.gmaps_url := JStr "" |}.

(** A URL whose [q] is a place name. *)
Definition url_pier : string := "https://maps.google.com/?q=m,The+Pier".

End Sample.

(** ** Notions the properties are stated with *)

Module Spec.

(** The number a finite float stands for. *)
Definition to_Q (x : float) : option Q :=
  match x with
  | S754_zero _ => Some (0 # 1)
  | S754_finite s m e =>
      Some (inject_Z (if s then Zneg m else Zpos m) * Float.pow2 e)%Q
  | S754_infinity _ | S754_nan => None
  end.

(** The float [x] is the JSON number [c] exactly: the same float, or a
    float that stands for the integer [c]. *)
Definition equals_element (x : float) (c : json) : Prop :=
  match c with
  | JFloat y => x = y
  | JInt z =>
      match to_Q x with
      | Some q => Qeq q (inject_Z z)
      | None => False
      end
  | _ => False
  end.

(** [part] is one of the parts that [text] joins with [" | "]. *)
Definition has_part (part text : string) : Prop :=
  exists before after : list string,
    text = Str.join " | " (before ++ part :: after)%list.

(** The key [k] is absent from [props], or its value is false. *)
Definition unusable (props : dict) (k : string) : Prop :=
  Py.lookup k props = None \/ Py.truthy (Py.get props k) = false.

(** What a source of the name gives: nothing when the value is absent or
    false, its text otherwise. *)
Definition present (v : json) : option string :=
  if Py.truthy v then Some (Py.str v) else None.

(** [properties.location.name] *)
Definition location_name (props : dict) : option string :=
  match Py.get props "location" with
  | JDict l => present (Py.get l "name")
  | _ => None
  end.

(** The sources of the name in their order of priority: the location name,
    the URL-derived name [url_name], then the keys [name], [Name], [title],
    [Title], [label] and [Label]. *)
Definition name_sources (props : dict) (url_name : option string)
  : list (option string) :=
  location_name props
  :: url_name
  :: map (fun k => present (Py.get props k))
       ["name"; "Name"; "title"; "Title"; "label"; "Label"].

(** The first source, in order, that gives a text that is not empty. *)
Fixpoint first_nonempty (sources : list (option string)) : option string :=
  match sources with
  | [] => None
  | Some s :: rest => if Str.is_empty s then first_nonempty rest else Some s
  | None :: rest => first_nonempty rest
  end.

(** The name of the specification: the first source that is not empty,
    else [Saved Place] and the ordinal. *)
Definition name_by_priority (props : dict) (url_name : option string)
  (idx : Z) : string :=
  match first_nonempty (name_sources props url_name) with
  | Some n => n
  | None => "Saved Place " ++ Str.of_Z idx
  end.

(** The call the scripts make for the URL-derived name: the URL name parser
    on the feature's URL, when that is a text. *)
Definition derive_name (props : dict) : result (option string) :=
  match Py.or (Py.get props "google_maps_url")
              (Py.get props "Google Maps URL") with
  | JStr u => Core.derive_name_from_url u
  | _ => Ok None
  end.

(** The name alone of a name and annotation pair. *)
Definition name_of (r : result (string * string)) : result string :=
  p <- r ;; Ok (fst p).

(** The coordinates a feature contributes to the output, as the texts the
    records hold: one pair when the coordinate resolver returns a pair,
    nothing otherwise. *)
Definition coords_text (feat : json) : list (string * string) :=
  match Core.extract_lat_lon feat with
  | Ok (Some (lat, lon)) => [(Fmt.fixed8 lat, Fmt.fixed8 lon)]
  | _ => []
  end.

(** Where the pair [(lat, lon)] of the feature [f] comes from: its
    geometry, and then it is no placeholder, or else its URL. *)
Definition resolved_from (f : dict) (lat lon : float) : Prop :=
  (Core.latlon_from_geometry (Core.get_or_empty f "geometry")
   = Ok (Some (lat, lon))
   /\ Core.is_placeholder lat lon = false)
  \/ (Core.latlon_from_geometry (Core.get_or_empty f "geometry") = Ok None
      /\ Core.latlon_from_props (Core.get_or_empty f "properties")
         = Ok (Some (lat, lon))).

(** [x] is [float(c)] for a JSON number [c]: [c] itself when it is a float,
    the nearest double when it is an integer in the range of the doubles. *)
Definition number_value (c : json) (x : float) : Prop :=
  c = JFloat x \/ exists z, c = JInt z /\ Float.of_Z z = Ok x.

(** *** Notions for the further properties *)

(** Only digits. *)
Fixpoint all_digits (s : string) : bool :=
  match s with
  | EmptyString => true
  | String c s' => Str.is_digit c && all_digits s'
  end.

(** None of the six white-space characters [float] strips. *)
Fixpoint no_space (s : string) : bool :=
  match s with
  | EmptyString => true
  | String c s' => negb (Float.is_space c) && no_space s'
  end.

(** A decimal numeral, the texts [-?\d+(?:\.\d+)?] stands for: an optional
    minus sign, digits, and possibly a point followed by digits. *)
Inductive numeral : string -> Prop :=
| numeral_intro (neg : bool) (ds tail : string) :
    all_digits ds = true ->
    ds <> "" ->
    (tail = ""
     \/ exists fs, tail = String "." fs /\ all_digits fs = true /\ fs <> "") ->
    numeral ((if neg then "-" else "") ++ ds ++ tail).

(** Neither [?] nor [&] occurs in [prefix]. *)
Definition plain_prefix (prefix : string) : bool :=
  negb (Str.mem "?" prefix) && negb (Str.mem "&" prefix).

(** The loop the three scripts share: [body] is run on each feature with
    its ordinal, and what it gives, if anything, is appended. *)
Fixpoint collect {A : Type} (body : json -> Z -> result (option A))
  (i : Z) (features : list json) : result (list A) :=
  match features with
  | [] => Ok []
  | feat :: rest =>
      r <- body feat i ;;
      rs <- collect body (i + 1) rest ;;
      Ok match r with
         | Some x => x :: rs
         | None => rs
         end
  end.

(** The body of the loop of [json_to_gpx]: the waypoint appended, if any. *)
Definition wpt_of (feat : json) (i : Z) : result (option string) :=
  w <- Gpx.feature_to_wpt feat i ;;
  Ok (if Str.is_empty w then None else Some w).

(** A function applied to what a call returns. *)
Definition rmap {A B : Type} (f : A -> B) (r : result A) : result B :=
  x <- r ;; Ok (f x).

(** What a CSV row and an HTML entry both say of a place: its name, its
    latitude, its longitude and its URL. *)
Definition place : Type := (string * string * string * json)%type.

Definition row_place (r : Csv.row) : place :=
  (Csv.name r, Csv.latitude r, Csv.longitude r, Csv.url r).

Definition entry_place (e : Html.entry) : place :=
  (Html.name e, Html.lat e, Html.lon e, Html.gmaps_url e).

(** [isinstance(v, str)] *)
Definition is_str (v : json) : bool :=
  match v with
  | JStr _ => true
  | _ => false
  end.

(** The date and the URL of the entry are both texts. *)
Definition texts (e : Html.entry) : bool :=
  is_str (Html.date e) && is_str (Html.gmaps_url e).

(** The properties have a true [date]. *)
Definition has_date (props : dict) : bool := Py.truthy (Py.get props "date").

(** The properties have a [location] mapping with a true [address]. *)
Definition has_address (props : dict) : bool :=
  match Py.get props "location" with
  | JDict l => Py.truthy (Py.get l "address")
  | _ => false
  end.

(** The properties have a true [Comment] or [comment]. *)
Definition has_comment (props : dict) : bool :=
  Py.truthy (Py.or (Py.get props "Comment") (Py.get props "comment")).

(** The URL of the properties is a text. *)
Definition has_url_text (props : dict) : bool :=
  is_str (Py.or (Py.get props "google_maps_url")
                (Py.get props "Google Maps URL")).

End Spec.

(** ** Properties *)

(** *** Coordinates of the wrong type (C2) *)

(** When [float(coords[0])] raises, so does [extract_lat_lon]: the URL is
    not consulted. *)
Lemma extract_lat_lon_first_coordinate_raises
  (f g : dict) (c0 c1 : json) (rest : list json) (e : exn) :
  Core.get_or_empty f "geometry" = JDict g ->
  Py.get g "type" = JStr "Point" ->
  Py.get g "coordinates" = JList (c0 :: c1 :: rest) ->
  Py.is_none c0 = false ->
  Py.is_none c1 = false ->
  Py.to_float c0 = Raise e ->
  Core.extract_lat_lon (JDict f) = Raise e.
Proof.
  intros Hg Ht Hc N0 N1 E.
  unfold Core.extract_lat_lon, Core.latlon_from_geometry.
  rewrite Hg, Ht, Hc, N0, N1, E. reflexivity.
Qed.

(** C2, at a failing input: with the coordinates [["abc", 51.5]] and a URL
    that holds coordinates, the coordinate resolver raises [ValueError]
    instead of going on to the URL; with a list for the first coordinate
    it raises [TypeError]. *)
Theorem extract_lat_lon_raises_on_bad_coordinate :
  Gpx.extract_lat_lon Sample.text_coordinate = Raise ValueError
  /\ Csv.extract_lat_lon Sample.text_coordinate = Raise ValueError
  /\ Gpx.extract_lat_lon Sample.list_coordinate = Raise TypeError
  /\ Core.latlon_from_props
       (JDict [("google_maps_url", JStr Sample.url_brighton)])
     = Ok (Some (Float.of_decimal false 5082253 (-5),
                 Float.of_decimal true 13150 (-5))).
Proof. repeat split; vm_compute; reflexivity. Qed.

(** *** The URL coordinate parser and exceptions (C3) *)

(** [urlparse] is reached whenever the text is not empty and the first
    expression finds nothing; what it raises, the parser raises. *)
Lemma parse_latlon_from_url_urlparse_raises (url : string) (e : exn) :
  Str.is_empty url = false ->
  Re.search_q_pair url = None ->
  Url.urlparse_query url = Raise e ->
  Core.parse_latlon_from_url url = Raise e.
Proof.
  intros Hne Hs Hu.
  unfold Core.parse_latlon_from_url, Core.latlon_from_query.
  rewrite Hne, Hs, Hu. reflexivity.
Qed.

(** C3, at a failing input: on the text [http://[] the URL coordinate
    parser raises [ValueError], the one [urlparse] raises for a bracket
    that is not closed. *)
Theorem parse_latlon_from_url_raises_on_open_bracket :
  Gpx.parse_latlon_from_url Sample.url_open_bracket = Raise ValueError
  /\ Html.parse_latlon_from_url Sample.url_open_bracket = Raise ValueError
  /\ Csv.parse_latlon_from_url Sample.url_open_bracket = Raise ValueError.
Proof. repeat split; vm_compute; reflexivity. Qed.

(** *** Inverting the outcome of a sequence of calls *)

Lemma bind_ok {A B : Type} (r : result A) (k : A -> result B) (b : B) :
  bind r k = Ok b -> exists a, r = Ok a /\ k a = Ok b.
Proof. destruct r as [a | e]; simpl; intros H; [eauto | discriminate]. Qed.

Lemma bind_raise {A B : Type} (r : result A) (k : A -> result B) (e : exn) :
  r = Raise e -> bind r k = Raise e.
Proof. intros ->. reflexivity. Qed.

Ltac invert_bind H :=
  let a := fresh "a" in
  let Ha := fresh "Ha" in
  apply bind_ok in H; destruct H as (a & Ha & H).

(** *** A [features] that is absent, false, or not a list (C6) *)

Lemma chars_nonempty (c : ascii) (s : string) : Py.chars (String c s) <> [].
Proof.
  simpl. destruct (Py.chars s); [discriminate |].
  destruct s as [| d s']; [discriminate |].
  destruct ((128 <=? Str.code d) && (Str.code d <=? 191))%N; discriminate.
Qed.

(** What [for feat in features] runs over when [features] is true and not a
    list: nothing (a number is not iterable), or strings. *)
Lemma iterate_not_list (v : json) :
  Py.truthy v = true ->
  (forall l, v <> JList l) ->
  Py.iterate v = Raise TypeError
  \/ exists s rest, Py.iterate v = Ok (JStr s :: rest).
Proof.
  intros T NL. destruct v as [| b | z | x | s | l | d]; simpl in *;
    try (left; reflexivity).
  - right. destruct s as [| c s]; [discriminate |].
    pose proof (chars_nonempty c s) as NE.
    destruct (Py.chars (String c s)) as [| w ws]; [contradiction |].
    exists w, (map JStr ws). reflexivity.
  - exfalso. apply (NL l). reflexivity.
  - right. destruct d as [| [k x] d]; [discriminate |].
    exists k, (map (fun kv => JStr (fst kv)) d). reflexivity.
Qed.

(** A [features] that is true and not a list makes each of the three loops
    raise. *)
Lemma features_not_list_raises (d : dict) :
  Py.truthy (Py.get d "features") = true ->
  (forall l, Py.get d "features" <> JList l) ->
  raises (Gpx.json_to_gpx (JDict d))
  /\ raises (Csv.json_to_rows (JDict d))
  /\ raises (Html.json_to_entries (JDict d)).
Proof.
  intros T NL.
  unfold Gpx.json_to_gpx, Gpx.waypoints, Csv.json_to_rows,
    Html.json_to_entries, raises. simpl.
  unfold Py.or. rewrite T.
  destruct (iterate_not_list _ T NL) as [-> | (s & rest & ->)]; simpl;
    repeat split; eauto.
Qed.

(** C6, as amended: when the document has no [features], or a [features]
    that is false (null, false, zero, an empty string, list or object), the
    three loops run over nothing: no waypoint, no row and no entry. *)
Theorem features_false_gives_no_record (d : dict) :
  Py.truthy (Py.get d "features") = false ->
  Gpx.waypoints (JDict d) = Ok []
  /\ Gpx.json_to_gpx (JDict d)
     = Ok (Str.join Gpx.nl (Gpx.header ++ ["</gpx>"])%list)
  /\ Csv.json_to_rows (JDict d) = Ok []
  /\ Html.json_to_entries (JDict d) = Ok [].
Proof.
  intros F.
  unfold Gpx.json_to_gpx, Gpx.waypoints, Csv.json_to_rows,
    Html.json_to_entries. simpl.
  unfold Py.or. rewrite F. simpl. repeat split; reflexivity.
Qed.

Lemma features_false_gives_no_record_witness :
  Py.truthy (Py.get Sample.no_features "features") = false
  /\ Csv.json_to_rows (JDict Sample.no_features) = Ok [].
Proof.
  split; [reflexivity |].
  apply (features_false_gives_no_record Sample.no_features). reflexivity.
Defined.

(** C6, as stated, fails: with the number 5 for [features] the loops raise
    [TypeError]; no empty list is produced. *)
Lemma features_number_raises :
  Gpx.json_to_gpx Sample.features_is_number = Raise TypeError
  /\ Csv.json_to_rows Sample.features_is_number = Raise TypeError
  /\ Html.json_to_entries Sample.features_is_number = Raise TypeError.
Proof. repeat split; reflexivity. Qed.

(** *** The coordinates of a Point (C4, C5) *)

Lemma number_value_to_float (c : json) (x : float) :
  Spec.number_value c x -> Py.to_float c = Ok x /\ Py.is_none c = false.
Proof.
  intros [-> | (z & -> & Hz)]; simpl; auto.
Qed.

Lemma point_geometry (f g : dict) :
  Py.get f "geometry" = JDict g ->
  Py.get g "type" = JStr "Point" ->
  Core.get_or_empty f "geometry" = JDict g.
Proof.
  intros Hg Ht. unfold Core.get_or_empty, Py.or. rewrite Hg.
  destruct g; [discriminate | reflexivity].
Qed.

(** Step 1 on a Point with two numbers. *)
Lemma latlon_from_point (g : dict) (c0 c1 : json) (rest : list json)
  (lat lon : float) :
  Py.get g "type" = JStr "Point" ->
  Py.get g "coordinates" = JList (c0 :: c1 :: rest) ->
  Spec.number_value c0 lon ->
  Spec.number_value c1 lat ->
  Core.latlon_from_geometry (JDict g)
  = Ok (if Core.is_placeholder lat lon then None else Some (lat, lon)).
Proof.
  intros Ht Hc H0 H1.
  apply number_value_to_float in H0 as [F0 N0].
  apply number_value_to_float in H1 as [F1 N1].
  unfold Core.latlon_from_geometry.
  rewrite Ht, Hc, N0, N1, F0, F1. simpl.
  destruct (Core.is_placeholder lat lon); reflexivity.
Qed.

(** C4, as amended: for a feature whose geometry is a Point with a
    coordinates list of at least two numbers, not both within 1e-12 of
    zero, the coordinate resolver returns [float(coordinates[1])] for
    latitude and [float(coordinates[0])] for longitude: the elements
    themselves when they are floats, the nearest doubles when they are
    integers. *)
Theorem point_coordinates_swapped
  (f g : dict) (c0 c1 : json) (rest : list json) (lat lon : float) :
  Py.get f "geometry" = JDict g ->
  Py.get g "type" = JStr "Point" ->
  Py.get g "coordinates" = JList (c0 :: c1 :: rest) ->
  Spec.number_value c0 lon ->
  Spec.number_value c1 lat ->
  Core.is_placeholder lat lon = false ->
  Core.extract_lat_lon (JDict f) = Ok (Some (lat, lon))
  /\ (forall x, c0 = JFloat x -> lon = x)
  /\ (forall y, c1 = JFloat y -> lat = y).
Proof.
  intros Hg Ht Hc H0 H1 NP. split.
  - unfold Core.extract_lat_lon.
    rewrite (point_geometry f g Hg Ht).
    rewrite (latlon_from_point g c0 c1 rest lat lon Ht Hc H0 H1), NP.
    reflexivity.
  - split; intros x ->.
    + destruct H0 as [E | (z & E & _)]; congruence.
    + destruct H1 as [E | (z & E & _)]; congruence.
Qed.

Lemma point_coordinates_swapped_witness :
  Core.extract_lat_lon (JDict Sample.london)
  = Ok (Some (Sample.f51_5, Sample.fm0_25)).
Proof.
  apply (point_coordinates_swapped Sample.london
           [("type", JStr "Point");
            ("coordinates", JList [JFloat Sample.fm0_25; JFloat Sample.f51_5])]
           (JFloat Sample.fm0_25) (JFloat Sample.f51_5) []
           Sample.f51_5 Sample.fm0_25);
    try reflexivity; left; reflexivity.
Defined.

(** C4, as stated, fails: with the integer 2^53 + 1 for longitude the
    resolver returns the double 2^53, which is not that element. *)
Lemma big_longitude_rounded :
  Core.extract_lat_lon Sample.big_longitude
  = Ok (Some (Sample.f51_5, S754_finite false 4503599627370496 1))
  /\ ~ Spec.equals_element (S754_finite false 4503599627370496 1)
        (JInt 9007199254740993).
Proof.
  split; [vm_compute; reflexivity |].
  unfold Spec.equals_element, Spec.to_Q, Qeq. vm_compute. discriminate.
Qed.

(** C5: for a feature whose geometry is a Point with two numbers both
    within 1e-12 of zero, the coordinate resolver answers what the URL step
    answers, which is what it answers for the feature without its geometry;
    so it finds no coordinates only when the URL step finds none. *)
Theorem placeholder_point_falls_through
  (f g : dict) (c0 c1 : json) (rest : list json) (lat lon : float) :
  Py.get f "geometry" = JDict g ->
  Py.get g "type" = JStr "Point" ->
  Py.get g "coordinates" = JList (c0 :: c1 :: rest) ->
  Spec.number_value c0 lon ->
  Spec.number_value c1 lat ->
  Core.is_placeholder lat lon = true ->
  Core.extract_lat_lon (JDict f)
  = Core.latlon_from_props (Core.get_or_empty f "properties")
  /\ Core.extract_lat_lon (JDict f)
     = Core.extract_lat_lon (JDict [("properties", Py.get f "properties")])
  /\ (Core.extract_lat_lon (JDict f) = Ok None <->
      Core.latlon_from_props (Core.get_or_empty f "properties") = Ok None).
Proof.
  intros Hg Ht Hc H0 H1 P.
  assert (E : Core.extract_lat_lon (JDict f)
              = Core.latlon_from_props (Core.get_or_empty f "properties")).
  { unfold Core.extract_lat_lon.
    rewrite (point_geometry f g Hg Ht).
    rewrite (latlon_from_point g c0 c1 rest lat lon Ht Hc H0 H1), P.
    reflexivity. }
  split; [exact E |]. split; [| rewrite E; tauto].
  rewrite E. reflexivity.
Qed.

Lemma placeholder_point_falls_through_witness :
  Core.extract_lat_lon (JDict Sample.unset_point)
  = Core.latlon_from_props (Core.get_or_empty Sample.unset_point "properties").
Proof.
  apply (placeholder_point_falls_through Sample.unset_point
           [("type", JStr "Point");
            ("coordinates", JList [JFloat (S754_zero false); JInt 0])]
           (JFloat (S754_zero false)) (JInt 0) []
           (S754_zero false) (S754_zero false));
    try reflexivity.
  - left; reflexivity.
  - right. exists 0. split; reflexivity.
Defined.

(** *** The annotation and the URL (C1, C8, C10) *)

Lemma mem_app (c : ascii) (a b : string) :
  Str.mem c (a ++ b) = Str.mem c a || Str.mem c b.
Proof.
  induction a as [| d a IH]; simpl; [reflexivity |].
  rewrite IH. apply orb_assoc.
Qed.

Lemma mem_join (c : ascii) (sep p : string) (parts : list string) :
  In p parts -> Str.mem c p = true -> Str.mem c (Str.join sep parts) = true.
Proof.
  induction parts as [| q [| q' qs] IH]; intros HIn Hc.
  - contradiction.
  - destruct HIn as [-> | []]. exact Hc.
  - change (Str.join sep (q :: q' :: qs))
      with (q ++ sep ++ Str.join sep (q' :: qs)).
    rewrite !mem_app. destruct HIn as [-> | HIn].
    + rewrite Hc. reflexivity.
    + rewrite (IH HIn Hc). rewrite !orb_true_r. reflexivity.
Qed.

(** A character of a part is a character of the text. *)
Lemma has_part_mem (c : ascii) (part text : string) :
  Spec.has_part part text -> Str.mem c part = true -> Str.mem c text = true.
Proof.
  intros (before & after & ->) Hc.
  apply (mem_join c " | " part); [| exact Hc].
  apply in_or_app. right. left. reflexivity.
Qed.

Lemma unusable_false (props : dict) (k : string) :
  Spec.unusable props k -> Py.truthy (Py.get props k) = false.
Proof.
  intros [H | H]; [| exact H]. unfold Py.get. rewrite H. reflexivity.
Qed.

Lemma maps_url_dict (props : dict) :
  Core.maps_url (JDict props)
  = Ok (Py.or (Py.get props "google_maps_url") (Py.get props "Google Maps URL")).
Proof.
  unfold Core.maps_url, Py.or. simpl.
  destruct (Py.truthy (Py.get props "google_maps_url")); reflexivity.
Qed.

Lemma or_empty_str (u : string) : Py.or (JStr u) (JStr "") = JStr u.
Proof. destruct u; reflexivity. Qed.

(** C1, as amended: for a feature whose properties hold a URL string [u],
    the GPX description has the part [Google Maps: u], between the address
    and the comment; the CSV notes are made of the date, the address and
    the comment only, and the row carries the URL in its [url] field; the
    HTML entry has no annotation and carries the URL in [gmaps_url]. *)
Theorem url_part_by_variant (f props : dict) (u : string) (idx : Z) :
  Core.get_or_empty f "properties" = JDict props ->
  Core.maps_url (JDict props) = Ok (JStr u) ->
  let loc := Core.get_or_empty props "location" in
  Gpx.extract_name_and_desc (JDict f) idx
  = (n <- Name.resolve_by_steps props loc idx ;;
     Ok (n, Str.join " | "
              (Parts.saved props ++ Parts.address loc
                 ++ Parts.google_maps (JStr u) ++ Parts.comment props)%list))
  /\ (forall n a, Gpx.extract_name_and_desc (JDict f) idx = Ok (n, a) ->
      Spec.has_part ("Google Maps: " ++ u) a)
  /\ Csv.extract_name_and_notes (JDict f) idx
     = (n <- Name.resolve_by_steps props loc idx ;;
        Ok (n, Str.join " | "
                 (Parts.saved props ++ Parts.address loc
                    ++ Parts.comment props)%list))
  /\ (forall r, Csv.row_of (JDict f) idx = Ok (Some r) -> Csv.url r = JStr u)
  /\ (forall e, Html.entry_of (JDict f) idx = Ok (Some e) ->
      Html.gmaps_url e = JStr u).
Proof.
  intros Hp Hu loc.
  assert (G : Gpx.extract_name_and_desc (JDict f) idx
              = (n <- Name.resolve_by_steps props loc idx ;;
                 Ok (n, Str.join " | "
                          (Parts.saved props ++ Parts.address loc
                             ++ Parts.google_maps (JStr u)
                             ++ Parts.comment props)%list))).
  { unfold Gpx.extract_name_and_desc. rewrite Hp. fold loc.
    destruct (Name.resolve_by_steps props loc idx); [| reflexivity].
    simpl. rewrite Hu. reflexivity. }
  split; [exact G |]. split.
  - intros n a H. rewrite G in H. invert_bind H. injection H as _ <-.
    exists (Parts.saved props ++ Parts.address loc)%list, (Parts.comment props).
    rewrite <- app_assoc. reflexivity.
  - split; [unfold Csv.extract_name_and_notes; rewrite Hp; reflexivity |].
    split.
    + intros r H. unfold Csv.row_of in H. invert_bind H.
      destruct a as [[la lo] |]; [| discriminate].
      simpl in H. fold (Core.get_or_empty f "properties") in H.
      rewrite Hp, Hu in H. simpl in H. invert_bind H.
      destruct a as [n ns]. injection H as <-. simpl. apply or_empty_str.
    + intros e H. unfold Html.entry_of in H. invert_bind H.
      destruct a as [[la lo] |]; [| discriminate].
      invert_bind H. simpl in H.
      fold (Core.get_or_empty f "properties") in H.
      rewrite Hp in H. simpl in H. rewrite Hu in H. simpl in H.
      injection H as <-. simpl. apply or_empty_str.
Qed.

Lemma url_part_by_variant_witness :
  Spec.has_part ("Google Maps: " ++ Sample.url_brighton)
    ("Saved: 2021-05-01 | Google Maps: " ++ Sample.url_brighton).
Proof.
  apply (url_part_by_variant Sample.dated
           [("google_maps_url", JStr Sample.url_brighton);
            ("date", JStr "2021-05-01")]
           Sample.url_brighton 1 eq_refl eq_refl) with (n := "Saved Place 1").
  vm_compute. reflexivity.
Defined.

(** C1, as stated, fails for the CSV variant: for a place with a date and a
    URL the notes are [Saved: 2021-05-01]; [Google Maps: ...] is no part of
    them. *)
Lemma csv_notes_without_url :
  Core.maps_url (Py.get Sample.dated "properties")
  = Ok (JStr Sample.url_brighton)
  /\ Csv.extract_name_and_notes (JDict Sample.dated) 1
     = Ok ("Saved Place 1", "Saved: 2021-05-01")
  /\ ~ Spec.has_part ("Google Maps: " ++ Sample.url_brighton)
        "Saved: 2021-05-01".
Proof.
  split; [reflexivity |]. split; [vm_compute; reflexivity |].
  intros H. apply (has_part_mem "G") in H; [discriminate | reflexivity].
Qed.

(** With no URL string the name resolver returns. *)
Lemma resolve_by_steps_no_url (props : dict) (loc : json) (idx : Z) :
  (forall u, Core.maps_url (JDict props) <> Ok (JStr u)) ->
  exists n, Name.resolve_by_steps props loc idx = Ok n.
Proof.
  intros NU. unfold Name.resolve_by_steps.
  destruct (Name.missing (Name.of_location loc)); simpl; [| eauto].
  destruct (Core.maps_url (JDict props)) as [v | e] eqn:E.
  - destruct v; simpl; eauto. exfalso. apply (NU s). reflexivity.
  - rewrite maps_url_dict in E. discriminate.
Qed.

Lemma comment_absent (props : dict) :
  Py.contains props "Comment" = false ->
  Py.contains props "comment" = false ->
  Parts.comment props = [].
Proof.
  unfold Py.contains, Parts.comment, Py.or, Py.get. intros H1 H2.
  destruct (Py.lookup "Comment" props); [discriminate |].
  destruct (Py.lookup "comment" props); [discriminate |]. reflexivity.
Qed.

(** C8, as amended: for a feature with the date [2021-05-01], the address
    [1 Main St] and no comment, the CSV notes are exactly
    [Saved: 2021-05-01 | Address: 1 Main St] whenever the call returns, and
    when the properties hold no URL string both the GPX and the CSV variant
    return exactly that annotation. *)
Theorem date_and_address_annotation (f props loc : dict) (idx : Z) :
  Core.get_or_empty f "properties" = JDict props ->
  Py.get props "date" = JStr "2021-05-01" ->
  Py.get props "location" = JDict loc ->
  Py.get loc "address" = JStr "1 Main St" ->
  Py.contains props "Comment" = false ->
  Py.contains props "comment" = false ->
  Csv.extract_name_and_notes (JDict f) idx
  = (n <- Name.resolve_by_steps props (JDict loc) idx ;;
     Ok (n, "Saved: 2021-05-01 | Address: 1 Main St"))
  /\ ((forall u, Core.maps_url (JDict props) <> Ok (JStr u)) ->
      exists n,
        Gpx.extract_name_and_desc (JDict f) idx
        = Ok (n, "Saved: 2021-05-01 | Address: 1 Main St")
        /\ Csv.extract_name_and_notes (JDict f) idx
           = Ok (n, "Saved: 2021-05-01 | Address: 1 Main St")).
Proof.
  intros Hp Hd Hl Ha C1 C2.
  assert (L : Core.get_or_empty props "location" = JDict loc).
  { unfold Core.get_or_empty, Py.or. rewrite Hl.
    destruct loc; [discriminate | reflexivity]. }
  assert (S1 : Parts.saved props = ["Saved: 2021-05-01"]).
  { unfold Parts.saved. rewrite Hd. reflexivity. }
  assert (S2 : Parts.address (JDict loc) = ["Address: 1 Main St"]).
  { unfold Parts.address. rewrite Ha. reflexivity. }
  pose proof (comment_absent props C1 C2) as S3.
  assert (E : Csv.extract_name_and_notes (JDict f) idx
              = (n <- Name.resolve_by_steps props (JDict loc) idx ;;
                 Ok (n, "Saved: 2021-05-01 | Address: 1 Main St"))).
  { unfold Csv.extract_name_and_notes. rewrite Hp, L, S1, S2, S3.
    reflexivity. }
  split; [exact E |].
  intros NU.
  destruct (resolve_by_steps_no_url props (JDict loc) idx NU) as [n Hn].
  exists n. split.
  - unfold Gpx.extract_name_and_desc. rewrite Hp, L, Hn, S1, S2, S3. simpl.
    rewrite maps_url_dict. simpl.
    destruct (Py.or (Py.get props "google_maps_url")
                (Py.get props "Google Maps URL")) eqn:U; try reflexivity.
    exfalso. apply (NU s). rewrite maps_url_dict, U. reflexivity.
  - rewrite E, Hn. reflexivity.
Qed.

Lemma date_and_address_annotation_witness :
  exists n,
    Gpx.extract_name_and_desc (JDict Sample.main_st_no_url) 3
    = Ok (n, "Saved: 2021-05-01 | Address: 1 Main St")
    /\ Csv.extract_name_and_notes (JDict Sample.main_st_no_url) 3
       = Ok (n, "Saved: 2021-05-01 | Address: 1 Main St").
Proof.
  apply (date_and_address_annotation Sample.main_st_no_url
           Sample.main_st_no_url_props [("address", JStr "1 Main St")] 3);
    try reflexivity.
  intros u H. vm_compute in H. discriminate.
Defined.

(** C8, as stated, fails for the GPX variant: with a URL among the
    properties the description has a third part. *)
Lemma gpx_desc_with_url :
  Py.get Sample.main_st_props "date" = JStr "2021-05-01"
  /\ Py.get (Sample.main_st_props) "location"
     = JDict [("address", JStr "1 Main St")]
  /\ Py.contains Sample.main_st_props "Comment" = false
  /\ Py.contains Sample.main_st_props "comment" = false
  /\ Gpx.extract_name_and_desc (JDict Sample.main_st) 1
     = Ok ("Saved Place 1",
           "Saved: 2021-05-01 | Address: 1 Main St | Google Maps: https://maps.google.com/?q=50.82253,-0.13150").
Proof. repeat split; vm_compute; reflexivity. Qed.

(** C10: of the two spellings of the URL key, [google_maps_url] is used
    when its value is true and [Google Maps URL] when the first is absent
    or false; of the two spellings of the comment key, [Comment] is used
    when its value is true and [comment] when the first is absent or
    false.  The URL so chosen is the one the coordinate resolver parses and
    the one the CSV row and the HTML entry carry. *)
Theorem alternate_spellings (props : dict) :
  (Py.truthy (Py.get props "google_maps_url") = true ->
   Core.maps_url (JDict props) = Ok (Py.get props "google_maps_url"))
  /\ (Spec.unusable props "google_maps_url" ->
      Core.maps_url (JDict props) = Ok (Py.get props "Google Maps URL"))
  /\ (Py.truthy (Py.get props "Comment") = true ->
      Parts.comment props = [Py.str (Py.get props "Comment")])
  /\ (Spec.unusable props "Comment" ->
      Parts.comment props
      = if Py.truthy (Py.get props "comment")
        then [Py.str (Py.get props "comment")] else [])
  /\ (forall f url,
        Core.get_or_empty f "properties" = JDict props ->
        Core.maps_url (JDict props) = Ok url ->
        Core.latlon_from_props (Core.get_or_empty f "properties")
        = match url with
          | JStr u => Core.parse_latlon_from_url u
          | _ => Ok None
          end
        /\ (forall i r, Csv.row_of (JDict f) i = Ok (Some r) ->
                        Csv.url r = Py.or url (JStr ""))
        /\ (forall i e, Html.entry_of (JDict f) i = Ok (Some e) ->
                        Html.gmaps_url e = Py.or url (JStr ""))).
Proof.
  split; [| split; [| split; [| split]]].
  - intros T. rewrite maps_url_dict. unfold Py.or. rewrite T. reflexivity.
  - intros U. apply unusable_false in U.
    rewrite maps_url_dict. unfold Py.or. rewrite U. reflexivity.
  - intros T. unfold Parts.comment, Py.or. rewrite T, T. reflexivity.
  - intros U. apply unusable_false in U.
    unfold Parts.comment, Py.or. rewrite U. reflexivity.
  - intros f url Hp Hu. split; [| split].
    + rewrite Hp. unfold Core.latlon_from_props. rewrite Hu. reflexivity.
    + intros i r H. unfold Csv.row_of in H. invert_bind H.
      destruct a as [[la lo] |]; [| discriminate].
      simpl in H. fold (Core.get_or_empty f "properties") in H.
      rewrite Hp, Hu in H. simpl in H. invert_bind H.
      destruct a as [n ns]. injection H as <-. reflexivity.
    + intros i e H. unfold Html.entry_of in H. invert_bind H.
      destruct a as [[la lo] |]; [| discriminate].
      invert_bind H. simpl in H.
      fold (Core.get_or_empty f "properties") in H.
      rewrite Hp in H. simpl in H. rewrite Hu in H. simpl in H.
      injection H as <-. reflexivity.
Qed.

Lemma alternate_spellings_witness :
  Core.maps_url (JDict Sample.second_spellings) = Ok (JStr Sample.url_brighton)
  /\ Parts.comment Sample.second_spellings = ["by the sea"].
Proof.
  split.
  - apply (alternate_spellings Sample.second_spellings).
    right. reflexivity.
  - apply (alternate_spellings Sample.second_spellings).
    left. reflexivity.
Defined.

(** *** The name (C7) *)

Lemma is_empty_app (a b : string) :
  Str.is_empty (a ++ b) = Str.is_empty a && Str.is_empty b.
Proof. destruct a; reflexivity. Qed.

Lemma of_Z_nonempty (z : Z) : Str.is_empty (Str.of_Z z) = false.
Proof.
  unfold Str.of_Z. destruct z as [| p | p]; simpl; try reflexivity.
  pose proof (DecimalPos.Unsigned.to_uint_nonnil p) as NN.
  destruct (Pos.to_uint p); try reflexivity. contradiction.
Qed.

Lemma layout_nonempty (ds : string) (decpt : Z) :
  Str.is_empty (Float.layout ds decpt) = false.
Proof.
  unfold Float.layout.
  destruct ((decpt <=? -4) || (16 <? decpt)).
  - rewrite !is_empty_app. simpl. rewrite !andb_false_r. reflexivity.
  - destruct (decpt <=? 0); [reflexivity |].
    destruct (Z.of_nat (String.length ds) <=? decpt).
    + rewrite !is_empty_app. simpl. rewrite !andb_false_r. reflexivity.
    + rewrite is_empty_app. simpl. apply andb_false_r.
Qed.

Lemma float_repr_nonempty (x : float) : Str.is_empty (Float.repr x) = false.
Proof.
  destruct x as [s | s | | s m e]; simpl;
    try reflexivity; try (destruct s; reflexivity).
  destruct (Float.shortest m e) as [d k].
  rewrite is_empty_app, layout_nonempty. apply andb_false_r.
Qed.

(** The text of a true value is not empty. *)
Lemma str_nonempty (v : json) :
  Py.truthy v = true -> Str.is_empty (Py.str v) = false.
Proof.
  destruct v as [| b | z | x | s | l | d]; simpl; intros T;
    try discriminate; try reflexivity.
  - destruct b; [reflexivity | discriminate].
  - apply of_Z_nonempty.
  - apply float_repr_nonempty.
  - destruct s; [discriminate | reflexivity].
Qed.

Lemma present_nonempty (v : json) (s : string) :
  Spec.present v = Some s -> Str.is_empty s = false.
Proof.
  unfold Spec.present. destruct (Py.truthy v) eqn:T; [| discriminate].
  intros [= <-]. apply str_nonempty, T.
Qed.

Lemma contains_and_truthy (props : dict) (k : string) :
  Py.contains props k && Py.truthy (Py.get props k)
  = Py.truthy (Py.get props k).
Proof.
  unfold Py.contains, Py.get. destruct (Py.lookup k props); reflexivity.
Qed.

Lemma of_location_spec (props : dict) :
  Name.of_location (Core.get_or_empty props "location")
  = Spec.location_name props.
Proof.
  unfold Core.get_or_empty, Py.or, Spec.location_name, Name.of_location,
    Spec.present.
  destruct (Py.get props "location") as [| b | z | x | s | l | d]; simpl;
    try reflexivity.
  - destruct b; reflexivity.
  - destruct (negb (z =? 0)); reflexivity.
  - destruct (Float.truthy x); reflexivity.
  - destruct s; reflexivity.
  - destruct l; reflexivity.
  - destruct d; reflexivity.
Qed.

(** The loop over the label keys finds the first key that is present. *)
Lemma of_labels_spec (props : dict) (keys : list string) :
  Spec.first_nonempty (map (fun k => Spec.present (Py.get props k)) keys)
  = Name.of_labels props keys.
Proof.
  induction keys as [| k keys IH]; simpl; [reflexivity |].
  rewrite contains_and_truthy.
  destruct (Spec.present (Py.get props k)) as [s |] eqn:P.
  - rewrite (present_nonempty _ _ P).
    unfold Spec.present in P.
    destruct (Py.truthy (Py.get props k)); congruence.
  - unfold Spec.present in P.
    destruct (Py.truthy (Py.get props k)); [discriminate | exact IH].
Qed.

Lemma of_labels_nonempty (props : dict) (keys : list string) (s : string) :
  Name.of_labels props keys = Some s -> Str.is_empty s = false.
Proof.
  induction keys as [| k keys IH]; simpl; [discriminate |].
  rewrite contains_and_truthy.
  destruct (Py.truthy (Py.get props k)) eqn:T; [| exact IH].
  intros [= <-]. apply str_nonempty, T.
Qed.

Lemma location_name_nonempty (props : dict) (n : string) :
  Spec.location_name props = Some n -> Str.is_empty n = false.
Proof.
  unfold Spec.location_name.
  destruct (Py.get props "location"); try discriminate.
  apply present_nonempty.
Qed.

Lemma derive_name_spec (props : dict) :
  Spec.derive_name props
  = (url <- Core.maps_url (JDict props) ;;
     match url with
     | JStr u => Core.derive_name_from_url u
     | _ => Ok None
     end).
Proof. rewrite maps_url_dict. reflexivity. Qed.

(** The name of the specification is the location name when there is one,
    whatever the other sources give. *)
Lemma name_by_priority_location (props : dict) (o : option string) (idx : Z)
  (n : string) :
  Spec.location_name props = Some n -> Spec.name_by_priority props o idx = n.
Proof.
  intros L. unfold Spec.name_by_priority, Spec.name_sources.
  cbn [Spec.first_nonempty]. rewrite L, (location_name_nonempty _ _ L).
  reflexivity.
Qed.

(** What it is once the location gives none, [o] being the URL-derived
    name. *)
Lemma name_by_priority_unfold (props : dict) (o : option string) (idx : Z) :
  Spec.location_name props = None ->
  Spec.name_by_priority props o idx
  = match (if Name.missing o then Name.of_labels props Name.label_keys
           else o) with
    | Some n => n
    | None => Name.fallback idx
    end.
Proof.
  intros L. unfold Spec.name_by_priority, Spec.name_sources.
  cbn [Spec.first_nonempty]. rewrite L. fold Name.label_keys.
  rewrite of_labels_spec.
  destruct o as [[| c s] |]; reflexivity.
Qed.

(** The resolver of the HTML script: the location name if there is one;
    otherwise the URL name parser is called and, if it returns, the name is
    that of the specification. *)
Lemma resolve_by_returns_spec (props : dict) (idx : Z) :
  Name.resolve_by_returns props (Core.get_or_empty props "location") idx
  = match Spec.location_name props with
    | Some n => Ok n
    | None =>
        o <- Spec.derive_name props ;;
        Ok (Spec.name_by_priority props o idx)
    end.
Proof.
  unfold Name.resolve_by_returns. rewrite of_location_spec.
  destruct (Spec.location_name props) as [n |] eqn:Ln; [reflexivity |].
  rewrite derive_name_spec.
  destruct (Core.maps_url (JDict props)) as [url | e]; [| reflexivity].
  cbn [bind].
  destruct (match url with
            | JStr u => Core.derive_name_from_url u
            | _ => Ok None
            end) as [o | e]; [| reflexivity].
  cbn [bind]. rewrite (name_by_priority_unfold props o idx Ln).
  generalize (Name.of_labels props Name.label_keys) as L.
  generalize (Name.fallback idx) as F. intros F L.
  destruct o as [[| c s] |]; cbn; destruct L; reflexivity.
Qed.

(** The resolver of the GPX and CSV scripts computes the same. *)
Lemma resolve_by_steps_spec (props : dict) (idx : Z) :
  Name.resolve_by_steps props (Core.get_or_empty props "location") idx
  = match Spec.location_name props with
    | Some n => Ok n
    | None =>
        o <- Spec.derive_name props ;;
        Ok (Spec.name_by_priority props o idx)
    end.
Proof.
  unfold Name.resolve_by_steps. rewrite of_location_spec.
  pose proof (of_labels_nonempty props Name.label_keys) as NE.
  pose proof (name_by_priority_unfold props) as U.
  set (L := Name.of_labels props Name.label_keys) in *.
  set (F := Name.fallback idx).
  assert (Fin : forall o : option string,
             (let name_val :=
                if Name.missing o
                then match L with
                     | Some n => Some n
                     | None => o
                     end
                else o in
              let name_val :=
                if Name.missing name_val then Some F else name_val in
              Ok match name_val with
                 | Some n => n
                 | None => EmptyString
                 end)
             = Ok match (if Name.missing o then L else o) with
                  | Some n => n
                  | None => F
                  end :> result string).
  { intros o. destruct L as [n |].
    - pose proof (NE n eq_refl) as NEn.
      destruct o as [[| c s] |]; cbn; rewrite ?NEn; reflexivity.
    - destruct o as [[| c s] |]; reflexivity. }
  destruct (Spec.location_name props) as [n |] eqn:Ln.
  - pose proof (location_name_nonempty props n Ln) as NEn.
    cbn [Name.missing]. rewrite NEn. cbn [bind Name.missing].
    rewrite NEn. cbn [Name.missing]. rewrite NEn. reflexivity.
  - cbn [Name.missing]. rewrite derive_name_spec.
    destruct (Core.maps_url (JDict props)) as [url | e]; [| reflexivity].
    cbn [bind].
    assert (Fin' : forall o : option string,
               (let name_val :=
                  if Name.missing o
                  then match L with
                       | Some n => Some n
                       | None => o
                       end
                  else o in
                let name_val :=
                  if Name.missing name_val then Some F else name_val in
                Ok match name_val with
                   | Some n => n
                   | None => EmptyString
                   end)
               = Ok (Spec.name_by_priority props o idx) :> result string).
    { intros o. rewrite (U o idx eq_refl). apply Fin. }
    assert (Skip : forall o : option string,
               Name.missing o = true ->
               Spec.name_by_priority props o idx
               = Spec.name_by_priority props None idx).
    { intros o M. rewrite !(U _ idx eq_refl), M. reflexivity. }
    destruct url; cbn [bind]; try exact (Fin' None).
    destruct (Core.derive_name_from_url s) as [o | e]; [| reflexivity].
    cbn [bind].
    replace (if Name.missing o then None else o)
      with (if Name.missing o then @None string else o) by reflexivity.
    destruct o as [[| c t] |]; cbn [Name.missing Str.is_empty].
    + rewrite (Skip (Some "") eq_refl). exact (Fin' None).
    + exact (Fin' (Some (String c t))).
    + exact (Fin' None).
Qed.

Lemma resolve_by_steps_returns (props : dict) (idx : Z) :
  Name.resolve_by_steps props (Core.get_or_empty props "location") idx
  = Name.resolve_by_returns props (Core.get_or_empty props "location") idx.
Proof. rewrite resolve_by_steps_spec, resolve_by_returns_spec. reflexivity. Qed.

(** Whenever the URL name parser returns, the name each script resolves is
    the first text that is not empty among, in this order,
    [properties.location.name], the URL-derived name and the keys [name],
    [Name], [title], [Title], [label], [Label], and [Saved Place] followed
    by the ordinal when no source gives one. *)
Lemma names_follow_priority (f props : dict) (idx : Z) (o : option string) :
  Core.get_or_empty f "properties" = JDict props ->
  Spec.derive_name props = Ok o ->
  Html.extract_name (JDict f) idx = Ok (Spec.name_by_priority props o idx)
  /\ Spec.name_of (Gpx.extract_name_and_desc (JDict f) idx)
     = Ok (Spec.name_by_priority props o idx)
  /\ Spec.name_of (Csv.extract_name_and_notes (JDict f) idx)
     = Ok (Spec.name_by_priority props o idx).
Proof.
  intros Hp Hd.
  assert (R : match Spec.location_name props with
              | Some n => Ok n
              | None =>
                  o' <- Spec.derive_name props ;;
                  Ok (Spec.name_by_priority props o' idx)
              end = Ok (Spec.name_by_priority props o idx)).
  { destruct (Spec.location_name props) as [n |] eqn:Ln.
    - rewrite (name_by_priority_location props o idx n Ln). reflexivity.
    - rewrite Hd. reflexivity. }
  assert (U : exists url, Core.maps_url (JDict props) = Ok url).
  { rewrite maps_url_dict. eauto. }
  destruct U as [url U].
  repeat split.
  - unfold Html.extract_name. rewrite Hp, resolve_by_returns_spec. exact R.
  - unfold Gpx.extract_name_and_desc, Spec.name_of. rewrite Hp.
    rewrite resolve_by_steps_spec, R, U. reflexivity.
  - unfold Csv.extract_name_and_notes, Spec.name_of. rewrite Hp.
    rewrite resolve_by_steps_spec, R. reflexivity.
Qed.

(** C7, at a failing input: for the feature with the title [Brighton] and
    the URL [http://[], at ordinal 1, the first source of the name that is
    not empty is the title, no name being derived from a URL without a
    query; the three name resolvers raise the [ValueError] of [urlparse]
    instead of returning it. *)
Theorem name_resolvers_raise_on_open_bracket :
  Spec.name_by_priority Sample.titled_open_bracket_props None 1 = "Brighton"
  /\ Html.extract_name (JDict Sample.titled_open_bracket) 1
     = Raise ValueError
  /\ Gpx.extract_name_and_desc (JDict Sample.titled_open_bracket) 1
     = Raise ValueError
  /\ Csv.extract_name_and_notes (JDict Sample.titled_open_bracket) 1
     = Raise ValueError.
Proof. repeat split; vm_compute; reflexivity. Qed.

(** With no source of the name, the name is [Saved Place] and the ordinal;
    the URL-derived name comes before the title. *)
Example name_of_anonymous :
  Html.extract_name (JDict Sample.anonymous) 3 = Ok "Saved Place 3".
Proof. vm_compute. reflexivity. Qed.

Example name_of_pier :
  Html.extract_name (JDict Sample.pier) 1 = Ok "The Pier"
  /\ Spec.name_of (Gpx.extract_name_and_desc (JDict Sample.pier) 1)
     = Ok "The Pier".
Proof. split; vm_compute; reflexivity. Qed.

(** *** The records emitted (C9) *)

(** Step 1 never returns a placeholder. *)
Lemma latlon_from_geometry_no_placeholder (geom : json) (lat lon : float) :
  Core.latlon_from_geometry geom = Ok (Some (lat, lon)) ->
  Core.is_placeholder lat lon = false.
Proof.
  unfold Core.latlon_from_geometry.
  destruct geom as [| | | | | | g]; try discriminate.
  destruct (Py.eq_str (Py.get g "type") "Point"); [| discriminate].
  destruct (Py.get g "coordinates") as [| | | | | [| c0 [| c1 rest]] |];
    try discriminate.
  destruct (negb (Py.is_none c0) && negb (Py.is_none c1)); [| discriminate].
  destruct (Py.to_float c0) as [x |]; [| discriminate].
  destruct (Py.to_float c1) as [y |]; [| discriminate].
  simpl. destruct (Core.is_placeholder y x) eqn:P; [discriminate |].
  intros [= <- <-]. exact P.
Qed.

Lemma extract_lat_lon_source (f : dict) (lat lon : float) :
  Core.extract_lat_lon (JDict f) = Ok (Some (lat, lon)) ->
  Spec.resolved_from f lat lon.
Proof.
  unfold Core.extract_lat_lon, Spec.resolved_from.
  destruct (Core.latlon_from_geometry (Core.get_or_empty f "geometry"))
    as [[[la lo] |] | e] eqn:G; simpl; intros H.
  - injection H as -> ->. left. split; [reflexivity |].
    apply (latlon_from_geometry_no_placeholder _ _ _ G).
  - right. split; [reflexivity | exact H].
  - discriminate.
Qed.

(** A row holds the coordinates of its feature; a feature without
    coordinates has no row. *)
Lemma row_of_coords (feat : json) (i : Z) (r : option Csv.row) :
  Csv.row_of feat i = Ok r ->
  match r with
  | Some x => [(Csv.latitude x, Csv.longitude x)]
  | None => []
  end = Spec.coords_text feat.
Proof.
  unfold Csv.row_of, Spec.coords_text, Csv.extract_lat_lon.
  destruct (Core.extract_lat_lon feat) as [[[la lo] |] | e]; simpl; intros H.
  - invert_bind H. invert_bind H. invert_bind H.
    destruct a1 as [n ns]. injection H as <-. reflexivity.
  - injection H as <-. reflexivity.
  - discriminate.
Qed.

Lemma rows_from_coords (features : list json) :
  forall (i : Z) (rows : list Csv.row),
    Csv.rows_from i features = Ok rows ->
    map (fun r => (Csv.latitude r, Csv.longitude r)) rows
    = flat_map Spec.coords_text features.
Proof.
  induction features as [| feat rest IH]; intros i rows H; simpl in H.
  - injection H as <-. reflexivity.
  - invert_bind H. invert_bind H. injection H as <-.
    simpl. rewrite <- (row_of_coords feat i a Ha), <- (IH _ _ Ha0).
    destruct a; reflexivity.
Qed.

Lemma entry_of_coords (feat : json) (i : Z) (r : option Html.entry) :
  Html.entry_of feat i = Ok r ->
  match r with
  | Some x => [(Html.lat x, Html.lon x)]
  | None => []
  end = Spec.coords_text feat.
Proof.
  unfold Html.entry_of, Spec.coords_text, Html.extract_lat_lon.
  destruct (Core.extract_lat_lon feat) as [[[la lo] |] | e]; simpl; intros H.
  - invert_bind H. invert_bind H. invert_bind H. invert_bind H.
    injection H as <-. reflexivity.
  - injection H as <-. reflexivity.
  - discriminate.
Qed.

Lemma entries_from_coords (features : list json) :
  forall (i : Z) (entries : list Html.entry),
    Html.entries_from i features = Ok entries ->
    map (fun e => (Html.lat e, Html.lon e)) entries
    = flat_map Spec.coords_text features.
Proof.
  induction features as [| feat rest IH]; intros i entries H; simpl in H.
  - injection H as <-. reflexivity.
  - invert_bind H. invert_bind H. injection H as <-.
    simpl. rewrite <- (entry_of_coords feat i a Ha), <- (IH _ _ Ha0).
    destruct a; reflexivity.
Qed.

(** C9, as amended: the records emitted for a document are, in order, one
    for each feature for which the coordinate resolver returns a pair, with
    that pair for coordinates, and none for the other features; a pair the
    resolver returns comes from the geometry, and then is not within 1e-12
    of (0, 0), or else from the URL. *)
Theorem emitted_records_are_resolved (d : dict) :
  (forall rows, Csv.json_to_rows (JDict d) = Ok rows ->
     exists features,
       Py.iterate (Py.or (Py.get d "features") (JList [])) = Ok features
       /\ map (fun r => (Csv.latitude r, Csv.longitude r)) rows
          = flat_map Spec.coords_text features)
  /\ (forall entries, Html.json_to_entries (JDict d) = Ok entries ->
     exists features,
       Py.iterate (Py.or (Py.get d "features") (JList [])) = Ok features
       /\ map (fun e => (Html.lat e, Html.lon e)) entries
          = flat_map Spec.coords_text features)
  /\ (forall f lat lon,
        Core.extract_lat_lon (JDict f) = Ok (Some (lat, lon)) ->
        Spec.resolved_from f lat lon).
Proof.
  split; [| split].
  - intros rows H. unfold Csv.json_to_rows in H. simpl in H.
    invert_bind H. exists a. split; [exact Ha |].
    apply (rows_from_coords a 1 rows H).
  - intros entries H. unfold Html.json_to_entries in H. simpl in H.
    invert_bind H. exists a. split; [exact Ha |].
    apply (entries_from_coords a 1 entries H).
  - apply extract_lat_lon_source.
Qed.

Lemma emitted_records_are_resolved_witness :
  exists features,
    Py.iterate (Py.or (Py.get Sample.two_features "features") (JList []))
    = Ok features
    /\ map (fun r => (Csv.latitude r, Csv.longitude r))
         [{| Csv.name := "Saved Place 2";
             Csv.latitude := "51.50000000";
             Csv.longitude := "-0.25000000";
             Csv.url := JStr "";
             Csv.notes := "" |}]
       = flat_map Spec.coords_text features.
Proof.
  apply (proj1 (emitted_records_are_resolved Sample.two_features)).
  vm_compute. reflexivity.
Defined.

(** C9, as stated, fails: a feature whose URL reads [q=0,0] is emitted
    with latitude and longitude both zero. *)
Lemma origin_from_url_emitted :
  Core.extract_lat_lon Sample.url_origin
  = Ok (Some (S754_zero false, S754_zero false))
  /\ Csv.json_to_rows Sample.origin_document
     = Ok [{| Csv.name := "Saved Place 1";
              Csv.latitude := "0.00000000";
              Csv.longitude := "0.00000000";
              Csv.url := JStr "https://maps.google.com/?q=0,0";
              Csv.notes := "" |}].
Proof. split; vm_compute; reflexivity. Qed.

(** *** The examples of the specification *)

Example brighton_coordinates :
  Core.parse_latlon_from_url Sample.url_brighton
  = Ok (Some (Float.of_decimal false 5082253 (-5),
              Float.of_decimal true 13150 (-5)))
  /\ Core.derive_name_from_url Sample.url_brighton = Ok None.
Proof. split; vm_compute; reflexivity. Qed.

Example pier_name :
  Core.derive_name_from_url "https://maps.google.com/?q=m,The+Pier"
  = Ok (Some "The Pier").
Proof. vm_compute. reflexivity. Qed.

Example encoded_coordinates :
  Core.parse_latlon_from_url "https://maps.google.com/?q=50.5%2C%20-1"
  = Ok (Some (Float.of_decimal false 505 (-1), Float.of_decimal true 1 0)).
Proof. vm_compute. reflexivity. Qed.

Example empty_url : Core.parse_latlon_from_url "" = Ok None.
Proof. reflexivity. Qed.

(** Characters outside ASCII: the Arabic-Indic digits U+0661 to U+0664 are
    read as the coordinates 12 and 34, and a no-break space, U+00A0, is
    stripped from a name. *)
Example arabic_indic_coordinates :
  Core.parse_latlon_from_url
    ("?q=" ++ Unicode.encode 1633 ++ Unicode.encode 1634 ++ ","
       ++ Unicode.encode 1635 ++ Unicode.encode 1636)
  = Ok (Some (Float.of_decimal false 12 0, Float.of_decimal false 34 0)).
Proof. vm_compute. reflexivity. Qed.

Example no_break_space_stripped :
  Core.derive_name_from_url "https://maps.google.com/?q=%C2%A0The+Pier"
  = Ok (Some "The Pier").
Proof. vm_compute. reflexivity. Qed.

(** A host between brackets must be an IPv6 address. *)
Example bracketed_hosts :
  Url.urlparse_query "http://[::1]:8080/?q=1" = Ok "q=1"
  /\ Url.urlparse_query "http://[maps]/?q=1" = Raise ValueError
  /\ Url.urlparse_query "http://[1.2.3.4]/?q=1" = Raise ValueError.
Proof. repeat split; vm_compute; reflexivity. Qed.

(** ** Further properties of the scripts *)

(** *** Characters *)

Lemma str_app_empty (s : string) : s ++ "" = s.
Proof. induction s; simpl; congruence. Qed.

Lemma str_app_assoc (a b c : string) : (a ++ b) ++ c = a ++ b ++ c.
Proof. induction a; simpl; congruence. Qed.

Lemma str_length_app (a b : string) :
  String.length (a ++ b) = (String.length a + String.length b)%nat.
Proof. induction a; simpl; congruence. Qed.

(** Induction on the length of a text. *)
Lemma str_length_ind (P : string -> Prop) :
  (forall s, (forall t, (String.length t < String.length s)%nat -> P t) -> P s) ->
  forall s, P s.
Proof.
  intros H s.
  assert (K : forall n t, (String.length t < n)%nat -> P t).
  { induction n as [| n IH]; intros t L; [lia |].
    apply H. intros u Lu. apply IH. lia. }
  apply (K (S (String.length s))). lia.
Qed.

(** A character is read from its own bytes: what follows them plays no
    part. *)
Lemma decode_app (s t : string) (cp : N) (w : nat) :
  Unicode.decode s = Some (cp, w) -> Unicode.decode (s ++ t) = Some (cp, w).
Proof.
  unfold Unicode.decode.
  destruct s as [| b0 s]; [discriminate |]. cbn [append]. cbv zeta.
  destruct (Unicode.byte b0 <? 128)%N; [trivial |].
  destruct s as [| b1 s]; [discriminate |]. cbn [append].
  destruct (Unicode.between 194 223 (Unicode.byte b0)); [trivial |].
  destruct s as [| b2 s]; [discriminate |]. cbn [append].
  destruct (Unicode.between 224 239 (Unicode.byte b0)); [trivial |].
  destruct s as [| b3 s]; [discriminate |]. trivial.
Qed.

(** The bytes of the character a text starts with, and the text after
    them. *)
Lemma decode_split (s : string) (cp : N) (w : nat) :
  Unicode.decode s = Some (cp, w) ->
  exists a r, s = a ++ r /\ String.length a = w /\ (1 <= w <= 4)%nat
              /\ Unicode.decode a = Some (cp, w).
Proof.
  unfold Unicode.decode.
  destruct s as [| b0 s]; [discriminate |]. cbv zeta.
  destruct (Unicode.byte b0 <? 128)%N eqn:A.
  { intros [= <- <-]. exists (String b0 ""), s. rewrite A.
    repeat split; lia. }
  destruct s as [| b1 s]; [discriminate |].
  destruct (Unicode.between 194 223 (Unicode.byte b0)) eqn:B.
  { destruct (Unicode.cont (Unicode.byte b1)) eqn:C; [| discriminate].
    intros [= <- <-]. exists (String b0 (String b1 "")), s.
    rewrite A, B, C. repeat split; lia. }
  destruct s as [| b2 s]; [discriminate |].
  destruct (Unicode.between 224 239 (Unicode.byte b0)) eqn:C.
  { destruct (Unicode.second (Unicode.byte b0) (Unicode.byte b1)
              && Unicode.cont (Unicode.byte b2)) eqn:D; [| discriminate].
    intros [= <- <-]. exists (String b0 (String b1 (String b2 ""))), s.
    rewrite A, B, C, D. repeat split; lia. }
  destruct s as [| b3 s]; [discriminate |].
  destruct (Unicode.between 240 244 (Unicode.byte b0)
            && Unicode.second (Unicode.byte b0) (Unicode.byte b1)
            && Unicode.cont (Unicode.byte b2)
            && Unicode.cont (Unicode.byte b3)) eqn:D; [| discriminate].
  intros [= <- <-]. exists (String b0 (String b1 (String b2 (String b3 "")))), s.
  rewrite A, B, C, D. repeat split; lia.
Qed.

Section Runs.

Variable p : N -> bool.

Lemma width_app (s t : string) :
  Unicode.width p s <> 0%nat ->
  Unicode.width p (s ++ t) = Unicode.width p s.
Proof.
  unfold Unicode.width.
  destruct (Unicode.decode s) as [[cp w] |] eqn:D; [| intros H; contradiction].
  rewrite (decode_app s t cp w D). reflexivity.
Qed.

(** The character that counts, and the text after it. *)
Lemma width_split (s : string) :
  Unicode.width p s <> 0%nat ->
  exists a r, s = a ++ r /\ String.length a = Unicode.width p s
              /\ (1 <= Unicode.width p s <= 4)%nat
              /\ Unicode.width p a = Unicode.width p s.
Proof.
  unfold Unicode.width.
  destruct (Unicode.decode s) as [[cp w] |] eqn:D; [| intros H; contradiction].
  destruct (p cp) eqn:P; [| intros H; contradiction].
  intros _. destruct (decode_split s cp w D) as (a & r & E & L & B & Da).
  exists a, r. rewrite Da, P. auto.
Qed.

Lemma skip_stay (s : string) :
  Unicode.width p s = 0%nat -> Unicode.skip p s = s.
Proof. intros W. destruct s as [| b0 s]; simpl; rewrite ?W; reflexivity. Qed.

Lemma take_stay (s : string) :
  Unicode.width p s = 0%nat -> Unicode.take p s = "".
Proof. intros W. destruct s as [| b0 s]; simpl; rewrite ?W; reflexivity. Qed.

Lemma skip_step (a r : string) :
  Unicode.width p (a ++ r) = String.length a -> a <> "" ->
  Unicode.skip p (a ++ r) = Unicode.skip p r.
Proof.
  intros W NE.
  destruct (width_split (a ++ r)) as (_ & _ & _ & _ & B & _).
  { rewrite W. destruct a; [contradiction | discriminate]. }
  rewrite W in B.
  destruct a as [| b0 [| b1 [| b2 [| b3 [| b4 a]]]]]; simpl in B; try lia;
    cbn [append] in *; cbn [Unicode.skip]; rewrite W; reflexivity.
Qed.

Lemma take_step (a r : string) :
  Unicode.width p (a ++ r) = String.length a -> a <> "" ->
  Unicode.take p (a ++ r) = a ++ Unicode.take p r.
Proof.
  intros W NE.
  destruct (width_split (a ++ r)) as (_ & _ & _ & _ & B & _).
  { rewrite W. destruct a; [contradiction | discriminate]. }
  rewrite W in B.
  destruct a as [| b0 [| b1 [| b2 [| b3 [| b4 a]]]]]; simpl in B; try lia;
    cbn [append] in *; cbn [Unicode.take]; rewrite W; reflexivity.
Qed.

(** Either no character that counts starts the text, or its bytes [a] do. *)
Lemma width_cases (s : string) :
  Unicode.width p s = 0%nat
  \/ exists a r, s = a ++ r /\ a <> ""
                 /\ Unicode.width p (a ++ r) = String.length a
                 /\ Unicode.width p a = String.length a.
Proof.
  destruct (Nat.eq_dec (Unicode.width p s) 0) as [Z | NZ]; [left; exact Z |].
  right. destruct (width_split s NZ) as (a & r & E & L & B & Wa).
  exists a, r. subst s. repeat split; try congruence.
  intros ->. simpl in *. congruence.
Qed.

(** No character that counts is left in front. *)
Lemma skip_stop (s : string) : Unicode.width p (Unicode.skip p s) = 0%nat.
Proof.
  induction s as [s IH] using str_length_ind.
  destruct (width_cases s) as [Z | (a & r & -> & NE & W & _)].
  - rewrite (skip_stay s Z). exact Z.
  - rewrite (skip_step a r W NE). apply IH. rewrite str_length_app.
    destruct a; [contradiction | simpl; lia].
Qed.

(** A text made of characters that count is skipped whole. *)
Lemma skip_app (a b : string) :
  Unicode.skip p a = "" -> Unicode.skip p (a ++ b) = Unicode.skip p b.
Proof.
  induction a as [a IH] using str_length_ind. intros E.
  destruct (width_cases a) as [Z | (c & r & -> & NE & W & Wc)].
  - rewrite (skip_stay a Z) in E. subst a. reflexivity.
  - rewrite (skip_step c r W NE) in E.
    rewrite str_app_assoc.
    rewrite skip_step; [| | exact NE].
    + apply IH; [| exact E]. rewrite str_length_app.
      destruct c; [contradiction | simpl; lia].
    + rewrite width_app; [exact Wc |]. rewrite Wc.
      destruct c; [contradiction | discriminate].
Qed.

(** A text that starts with no character that counts has no start that
    does. *)
Lemma width_prefix (a b : string) :
  Unicode.width p (a ++ b) = 0%nat -> Unicode.width p a = 0%nat.
Proof.
  intros Z. destruct (Nat.eq_dec (Unicode.width p a) 0) as [E | NE]; [exact E |].
  rewrite (width_app a b NE) in Z. contradiction.
Qed.

End Runs.

(** *** Numerals and [float] (X1, X2) *)

Lemma digit_facts (c : ascii) :
  Str.is_digit c = true ->
  Float.is_space c = false /\ Str.lower_char c = c
  /\ Ascii.eqb c "-" = false /\ Ascii.eqb c "+" = false
  /\ Ascii.eqb c "i" = false /\ Ascii.eqb c "n" = false
  /\ (Unicode.byte c <? 128)%N = true
  /\ Unicode.is_decimal (Unicode.byte c) = true.
Proof.
  destruct c as [[] [] [] [] [] [] [] []]; intros H;
    try discriminate H; repeat split; reflexivity.
Qed.

Lemma rev_onto_twice (s a b : string) :
  Str.rev_onto (Str.rev_onto s a) b = Str.rev_onto a (s ++ b).
Proof.
  revert a b. induction s as [| c s IH]; intros a b; simpl; [reflexivity |].
  rewrite IH. reflexivity.
Qed.

Lemma str_rev_involutive (s : string) : Str.rev (Str.rev s) = s.
Proof. unfold Str.rev. rewrite rev_onto_twice. simpl. apply str_app_empty. Qed.

Lemma no_space_rev_onto (s a : string) :
  Spec.no_space (Str.rev_onto s a) = Spec.no_space s && Spec.no_space a.
Proof.
  revert a. induction s as [| c s IH]; intros a; simpl; [reflexivity |].
  rewrite IH. simpl. destruct (Float.is_space c); simpl;
    [rewrite andb_false_r |]; reflexivity.
Qed.

Lemma lstrip_no_space (s : string) :
  Spec.no_space s = true -> Float.lstrip s = s.
Proof.
  destruct s as [| c s]; simpl; [reflexivity |].
  destruct (Float.is_space c); [discriminate | reflexivity].
Qed.

(** [float] strips nothing from a text without white space. *)
Lemma strip_no_space (s : string) : Spec.no_space s = true -> Float.strip s = s.
Proof.
  intros H. unfold Float.strip. rewrite (lstrip_no_space s H).
  rewrite lstrip_no_space; [apply str_rev_involutive |].
  unfold Str.rev. rewrite no_space_rev_onto, H. reflexivity.
Qed.

Lemma no_space_app (a b : string) :
  Spec.no_space (a ++ b) = Spec.no_space a && Spec.no_space b.
Proof.
  induction a as [| c a IH]; simpl; [| rewrite IH, andb_assoc]; reflexivity.
Qed.

Lemma is_ascii_app (a b : string) :
  Unicode.is_ascii (a ++ b) = Unicode.is_ascii a && Unicode.is_ascii b.
Proof.
  induction a as [| c a IH]; simpl; [| rewrite IH, andb_assoc]; reflexivity.
Qed.

Lemma all_digits_plain (s : string) :
  Spec.all_digits s = true ->
  Spec.no_space s = true /\ Unicode.is_ascii s = true.
Proof.
  induction s as [| c s IH]; simpl; [split; reflexivity |].
  intros H. apply andb_prop in H as [D H].
  destruct (digit_facts c D) as (S & _ & _ & _ & _ & _ & A & _).
  destruct (IH H) as [IH1 IH2]. rewrite S, A, IH1, IH2. split; reflexivity.
Qed.

(** A numeral is a text of ASCII without white space. *)
Lemma numeral_plain (g : string) :
  Spec.numeral g -> Spec.no_space g = true /\ Unicode.is_ascii g = true.
Proof.
  intros [neg ds tail H NE T].
  rewrite !no_space_app, !is_ascii_app.
  destruct (all_digits_plain ds H) as [-> ->].
  destruct T as [-> | (fs & -> & Hf & _)]; simpl.
  - destruct neg; split; reflexivity.
  - destruct (all_digits_plain fs Hf) as [-> ->].
    destruct neg; split; reflexivity.
Qed.

Lemma digits_tl_digits (ds : string) :
  Spec.all_digits ds = true ->
  forall acc n t, exists acc' n',
    Float.digits_tl acc n (ds ++ t) = Float.digits_tl acc' n' t.
Proof.
  induction ds as [| c ds IH]; intros H acc n t; simpl.
  - exists acc, n. reflexivity.
  - simpl in H. apply andb_prop in H as [D H]. rewrite D.
    apply (IH H).
Qed.

Lemma digits_tl_end (acc n : Z) : Float.digits_tl acc n "" = (acc, n, "").
Proof. reflexivity. Qed.

Lemma digits_tl_point (acc n : Z) (fs : string) :
  Float.digits_tl acc n (String "." fs) = (acc, n, String "." fs).
Proof. reflexivity. Qed.

Lemma digitpart_digits (ds t : string) (acc : Z) :
  Spec.all_digits ds = true -> ds <> "" ->
  exists m n, Float.digitpart acc (ds ++ t) = Some (Float.digits_tl m n t).
Proof.
  intros H NE. destruct ds as [| c ds]; [contradiction |].
  simpl in H. apply andb_prop in H as [D H].
  unfold Float.digitpart. cbn [append]. rewrite D.
  destruct (digits_tl_digits ds H (10 * acc + Str.digit_val c) 1 t)
    as (m & n & E).
  exists m, n. rewrite E. reflexivity.
Qed.

Lemma number_of_numeral (ds tail : string) :
  Spec.all_digits ds = true -> ds <> "" ->
  (tail = ""
   \/ exists fs, tail = String "." fs /\ Spec.all_digits fs = true /\ fs <> "") ->
  exists m nf, Float.number (ds ++ tail) = Some (m, nf, "").
Proof.
  intros H NE T. unfold Float.number.
  destruct (digitpart_digits ds tail 0 H NE) as (m & n & E). rewrite E.
  destruct T as [-> | (fs & -> & Hf & NEf)].
  - rewrite digits_tl_end. exists m, 0. reflexivity.
  - rewrite digits_tl_point.
    destruct (digitpart_digits fs "" m Hf NEf) as (m' & n' & E').
    rewrite str_app_empty in E'. cbn. rewrite E', digits_tl_end.
    exists m', n'. reflexivity.
Qed.

Lemma lower_not_word (c : ascii) (s : string) :
  Str.is_digit c = true ->
  String.eqb (Str.lower (String c s)) "inf" = false
  /\ String.eqb (Str.lower (String c s)) "infinity" = false
  /\ String.eqb (Str.lower (String c s)) "nan" = false.
Proof.
  intros D. destruct (digit_facts c D) as (_ & L & _ & _ & I & N & _).
  simpl. rewrite L, I, N. repeat split; reflexivity.
Qed.

(** A numeral is read as a number. *)
Lemma of_ascii_numeral (g : string) :
  Spec.numeral g -> exists x, Float.of_ascii g = Ok x.
Proof.
  intros [neg ds tail H NE T].
  unfold Float.of_ascii.
  destruct ds as [| c ds']; [contradiction |].
  pose proof H as H'. simpl in H'. apply andb_prop in H' as [D _].
  destruct (digit_facts c D) as (_ & _ & M & P & _).
  assert (S : Float.sign ((if neg then "-" else "") ++ String c ds' ++ tail)
              = (neg, String c ds' ++ tail)).
  { destruct neg; [reflexivity |]. simpl.
    destruct c as [[] [] [] [] [] [] [] []]; try discriminate D; reflexivity. }
  rewrite S.
  destruct (lower_not_word c (ds' ++ tail) D) as (E1 & E2 & E3).
  change (String c ds' ++ tail) with (String c (ds' ++ tail)).
  rewrite E1, E2, E3. simpl orb. cbv iota.
  change (String c (ds' ++ tail)) with (String c ds' ++ tail).
  destruct (number_of_numeral (String c ds') tail H NE T) as (m & nf & N).
  rewrite N. simpl. eauto.
Qed.

(** [float] accepts a text that becomes a numeral in ASCII. *)
Lemma of_string_to_numeral (g : string) :
  Spec.numeral (Float.to_ascii g) -> exists x, Float.of_string g = Ok x.
Proof.
  intros N. unfold Float.of_string.
  rewrite (strip_no_space _ (proj1 (numeral_plain _ N))).
  apply of_ascii_numeral, N.
Qed.

(** *** Decimal digits outside ASCII *)

(** The zeros of the table: the one of ASCII, and zeros above U+007F none
    of whose digits is white space. *)
Lemma decimal_zeros_facts (z : N) :
  In z Unicode.decimal_zeros ->
  (z = 48 \/ 128 <= z)%N
  /\ forall r, In r Unicode.white_space -> (snd r < z \/ z + 9 < fst r)%N.
Proof.
  intros I.
  assert (A : forallb (fun z => (z =? 48) || (128 <=? z))%N
                Unicode.decimal_zeros = true) by (vm_compute; reflexivity).
  assert (B : forallb (fun z =>
                forallb (fun r => (snd r <? z) || (z + 9 <? fst r))%N
                  Unicode.white_space) Unicode.decimal_zeros = true)
    by (vm_compute; reflexivity).
  rewrite forallb_forall in A, B. specialize (A z I). specialize (B z I).
  split.
  - apply orb_prop in A as [A | A];
      [left; apply N.eqb_eq, A | right; apply N.leb_le, A].
  - intros r Ir. rewrite forallb_forall in B. specialize (B r Ir).
    apply orb_prop in B as [B | B]; [left | right]; apply N.ltb_lt, B.
Qed.

(** A decimal digit has a value from 0 to 9, is a digit of ASCII when it
    lies in ASCII, and is no white space. *)
Lemma decimal_facts (cp d : N) :
  Unicode.decimal cp = Some d ->
  (d <= 9)%N
  /\ ((cp < 128)%N -> (48 <= cp <= 57)%N /\ d = (cp - 48)%N)
  /\ Unicode.is_space cp = false.
Proof.
  unfold Unicode.decimal.
  destruct (find _ Unicode.decimal_zeros) as [z |] eqn:F; [| discriminate].
  intros [= <-]. apply find_some in F as [I B].
  unfold Unicode.between in B. apply andb_prop in B as [B1 B2].
  apply N.leb_le in B1. apply N.leb_le in B2.
  destruct (decimal_zeros_facts z I) as [Z W].
  split; [lia |]. split; [intros L; split; lia |].
  unfold Unicode.is_space, Unicode.in_ranges.
  destruct (existsb _ Unicode.white_space) eqn:E; [| reflexivity].
  apply existsb_exists in E as (r & Ir & Br).
  unfold Unicode.between in Br. apply andb_prop in Br as [R1 R2].
  apply N.leb_le in R1. apply N.leb_le in R2.
  destruct (W r Ir); lia.
Qed.

(** The digit of ASCII that [float] reads for a decimal digit. *)
Lemma ascii_of_decimal (cp : N) :
  Unicode.is_decimal cp = true ->
  exists c, Float.ascii_of cp = Some c /\ Str.is_digit c = true
            /\ ((cp < 128)%N -> cp = Unicode.byte c).
Proof.
  unfold Unicode.is_decimal.
  destruct (Unicode.decimal cp) as [d |] eqn:D; [| discriminate]. intros _.
  destruct (decimal_facts cp d D) as (B & A & S).
  unfold Float.ascii_of. rewrite S, D.
  assert (Dig : forall n, (48 <= n <= 57)%N ->
                  Str.is_digit (ascii_of_N n) = true
                  /\ Unicode.byte (ascii_of_N n) = n).
  { intros n Hn. unfold Str.is_digit, Str.code, Unicode.byte.
    rewrite N_ascii_embedding by lia. split; [| reflexivity].
    apply andb_true_intro. split; apply N.leb_le; lia. }
  destruct (cp <? 127)%N eqn:L.
  - apply N.ltb_lt in L. destruct A as [A _]; [lia |].
    exists (ascii_of_N cp). destruct (Dig cp A) as [D1 D2].
    repeat split; auto.
  - apply N.ltb_ge in L. exists (ascii_of_N (48 + d)).
    destruct (Dig (48 + d)%N) as [D1 D2]; [lia |].
    repeat split; auto. intros K. destruct A as [A _]; [exact K |]. lia.
Qed.

(** [transform] goes from character to character. *)
Lemma transform_step (a r : string) (cp : N) (c : ascii) :
  Unicode.decode (a ++ r) = Some (cp, String.length a) ->
  Float.ascii_of cp = Some c ->
  Float.transform (a ++ r) = String c (Float.transform r).
Proof.
  intros D A.
  destruct (decode_split _ _ _ D) as (_ & _ & _ & _ & B & _).
  destruct a as [| b0 [| b1 [| b2 [| b3 [| b4 a]]]]]; simpl in B; try lia;
    cbn [append] in *; cbn [Float.transform]; rewrite D, A; reflexivity.
Qed.

(** What [transform] makes of a run of decimal digits: as many digits of
    ASCII, the run itself when it is in ASCII. *)
Lemma transform_digits (s : string) :
  exists a,
    Spec.all_digits a = true
    /\ (Unicode.take Unicode.is_decimal s = "" -> a = "")
    /\ (a = "" -> Unicode.take Unicode.is_decimal s = "")
    /\ (forall t, Float.transform (Unicode.take Unicode.is_decimal s ++ t)
                  = a ++ Float.transform t)
    /\ (Unicode.is_ascii (Unicode.take Unicode.is_decimal s) = true ->
        Unicode.take Unicode.is_decimal s = a).
Proof.
  induction s as [s IH] using str_length_ind.
  destruct (width_cases Unicode.is_decimal s)
    as [Z | (c & r & -> & NE & W & Wc)].
  - rewrite (take_stay _ s Z). exists "". repeat split; auto.
  - rewrite (take_step _ c r W NE).
    destruct (IH r) as (a & Da & _ & _ & Ta & Aa).
    { rewrite str_length_app. destruct c; [contradiction | simpl; lia]. }
    unfold Unicode.width in Wc.
    destruct (Unicode.decode c) as [[cp w] |] eqn:D;
      [| destruct c; [contradiction | discriminate]].
    destruct (Unicode.is_decimal cp) eqn:P;
      [| destruct c; [contradiction | discriminate]].
    subst w.
    destruct (ascii_of_decimal cp P) as (d & Ad & Dd & Bd).
    exists (String d a). split; [simpl; rewrite Dd; exact Da |].
    split; [intros E; destruct c; [contradiction | discriminate] |].
    split; [discriminate |]. split.
    + intros t. rewrite str_app_assoc.
      rewrite (transform_step c _ cp d (decode_app _ _ _ _ D) Ad).
      rewrite Ta. reflexivity.
    + rewrite is_ascii_app. intros K. apply andb_prop in K as [Kc Kr].
      rewrite (Aa Kr).
      unfold Unicode.decode in D.
      destruct c as [| b0 c]; [contradiction |]. cbv zeta in D.
      simpl in Kc. apply andb_prop in Kc as [K0 _]. rewrite K0 in D.
      injection D as <- L. destruct c; [| discriminate].
      cbn [append]. f_equal.
      apply N.ltb_lt in K0. specialize (Bd K0).
      unfold Unicode.byte in Bd. apply (f_equal ascii_of_N) in Bd.
      rewrite !ascii_N_embedding in Bd. exact Bd.
Qed.

Lemma transform_char (c : ascii) (r : string) :
  (Unicode.byte c <? 127)%N = true ->
  Float.transform (String c r) = String c (Float.transform r).
Proof.
  intros L.
  apply (transform_step (String c "") r (Unicode.byte c) c).
  - unfold Unicode.decode. cbn [append]. cbv zeta.
    apply N.ltb_lt in L.
    destruct (Unicode.byte c <? 128)%N eqn:K; [reflexivity |].
    apply N.ltb_ge in K. lia.
  - unfold Float.ascii_of. rewrite L. unfold Unicode.byte.
    rewrite ascii_N_embedding. reflexivity.
Qed.

(** What the expression for a number matches, [float] reads as a numeral:
    a sign, a run of decimal digits and possibly a point and a second
    run. *)
Lemma group_to_numeral (neg : bool) (s1 s2 : string) (pointed : bool) :
  Unicode.take Unicode.is_decimal s1 <> "" ->
  (pointed = true -> Unicode.take Unicode.is_decimal s2 <> "") ->
  Spec.numeral
    (Float.to_ascii
       ((if neg then "-" else "")
          ++ Unicode.take Unicode.is_decimal s1
          ++ (if pointed then String "." (Unicode.take Unicode.is_decimal s2)
              else ""))).
Proof.
  intros NE1 NE2.
  destruct (transform_digits s1) as (a1 & D1 & _ & E1 & T1 & A1).
  destruct (transform_digits s2) as (a2 & D2 & _ & E2 & T2 & A2).
  set (u1 := Unicode.take Unicode.is_decimal s1) in *.
  set (u2 := Unicode.take Unicode.is_decimal s2) in *.
  assert (N : Spec.numeral
                ((if neg then "-" else "") ++ a1
                   ++ (if pointed then String "." a2 else ""))).
  { apply Spec.numeral_intro; [exact D1 | intros K; apply NE1, E1, K |].
    destruct pointed; [right | left; reflexivity].
    exists a2. repeat split; [exact D2 |]. intros K. apply (NE2 eq_refl), E2, K. }
  unfold Float.to_ascii.
  destruct (Unicode.is_ascii
              ((if neg then "-" else "") ++ u1
                 ++ (if pointed then String "." u2 else ""))) eqn:A.
  - rewrite !is_ascii_app in A. apply andb_prop in A as [_ A].
    apply andb_prop in A as [K1 K2]. rewrite (A1 K1).
    destruct pointed; [| exact N].
    simpl in K2. rewrite (A2 K2). exact N.
  - assert (T : Float.transform
                  (u1 ++ (if pointed then String "." u2 else ""))
                = a1 ++ (if pointed then String "." a2 else "")).
    { rewrite T1. f_equal. destruct pointed; [| reflexivity].
      rewrite transform_char by reflexivity. f_equal.
      rewrite <- (str_app_empty u2), T2. apply str_app_empty. }
    destruct neg.
    + cbn [append]. rewrite transform_char by reflexivity. rewrite T. exact N.
    + cbn [append]. rewrite T. exact N.
Qed.

Lemma number_to_numeral (s g r : string) :
  Re.number s = Some (g, r) -> Spec.numeral (Float.to_ascii g).
Proof.
  unfold Re.number, Re.span_digits.
  set (p := match s with String "-" r0 => ("-", r0) | _ => ("", s) end).
  assert (Hs : exists neg : bool, fst p = if neg then "-" else "").
  { subst p. destruct s as [| c s]; [exists false; reflexivity |].
    destruct c as [[] [] [] [] [] [] [] []];
      (exists false; reflexivity) || (exists true; reflexivity). }
  destruct p as [sgn s1]. destruct Hs as [neg Hs]. simpl in Hs. subst sgn.
  destruct (Str.is_empty (Unicode.take Unicode.is_decimal s1)) eqn:E;
    [discriminate |].
  assert (NE : Unicode.take Unicode.is_decimal s1 <> "").
  { intros K. rewrite K in E. discriminate. }
  assert (Base : forall rr,
             Some ((if neg then "-" else "")
                     ++ Unicode.take Unicode.is_decimal s1, rr) = Some (g, r) ->
             Spec.numeral (Float.to_ascii g)).
  { intros rr [= <- _].
    pose proof (group_to_numeral neg s1 "" false NE) as G.
    rewrite str_app_empty in G. apply G. discriminate. }
  destruct (Unicode.skip Unicode.is_decimal s1) as [| c r']; [apply Base |].
  destruct (Ascii.eqb c ".") eqn:Ec.
  - apply Ascii.eqb_eq in Ec. subst c.
    destruct (Str.is_empty (Unicode.take Unicode.is_decimal r')) eqn:E2;
      [apply Base |].
    intros [= <- _].
    apply (group_to_numeral neg s1 r' true NE).
    intros _ K. rewrite K in E2. discriminate.
  - destruct c as [[] [] [] [] [] [] [] []]; try discriminate Ec; apply Base.
Qed.

(** [float] accepts what the expression for a number matches. *)
Lemma number_accepted (s g r : string) :
  Re.number s = Some (g, r) -> exists x, Float.of_string g = Ok x.
Proof. intros N. eapply of_string_to_numeral, number_to_numeral, N. Qed.

Lemma q_pair_at_accepted (s g1 g2 : string) :
  Re.q_pair_at s = Some (g1, g2) ->
  (exists x, Float.of_string g1 = Ok x) /\ (exists y, Float.of_string g2 = Ok y).
Proof.
  unfold Re.q_pair_at.
  destruct s as [| c s]; [discriminate |].
  destruct (Ascii.eqb c "q") eqn:Ec;
    [| destruct c as [[] [] [] [] [] [] [] []]; try discriminate Ec; discriminate].
  apply Ascii.eqb_eq in Ec. subst c.
  destruct s as [| c s]; [discriminate |].
  destruct (Ascii.eqb c "=") eqn:Ec;
    [| destruct c as [[] [] [] [] [] [] [] []]; try discriminate Ec; discriminate].
  apply Ascii.eqb_eq in Ec. subst c.
  destruct (Re.number s) as [[h1 r1] |] eqn:N1; [| discriminate].
  destruct r1 as [| c r1]; [discriminate |].
  destruct (Ascii.eqb c ",") eqn:Ec;
    [| destruct c as [[] [] [] [] [] [] [] []]; try discriminate Ec; discriminate].
  apply Ascii.eqb_eq in Ec. subst c.
  destruct (Re.number r1) as [[h2 r2] |] eqn:N2; [| discriminate].
  intros [= <- <-]. split; eapply number_accepted; eassumption.
Qed.

Lemma search_q_pair_accepted (s g1 g2 : string) :
  Re.search_q_pair s = Some (g1, g2) ->
  (exists x, Float.of_string g1 = Ok x) /\ (exists y, Float.of_string g2 = Ok y).
Proof.
  induction s as [| c s IH]; simpl; [discriminate |].
  destruct (if Ascii.eqb c "?" || Ascii.eqb c "&" then Re.q_pair_at s else None)
    as [[h1 h2] |] eqn:E.
  - intros [= <- <-].
    destruct (Ascii.eqb c "?" || Ascii.eqb c "&"); [| discriminate].
    apply (q_pair_at_accepted s h1 h2 E).
  - exact IH.
Qed.

Lemma search_nonempty (url : string) (g : string * string) :
  Re.search_q_pair url = Some g -> Str.is_empty url = false.
Proof. destruct url; [discriminate | reflexivity]. Qed.

Lemma parse_of_search (url g1 g2 : string) :
  Re.search_q_pair url = Some (g1, g2) ->
  exists lat lon,
    Float.of_string g1 = Ok lat /\ Float.of_string g2 = Ok lon
    /\ Core.parse_latlon_from_url url = Ok (Some (lat, lon)).
Proof.
  intros S. destruct (search_q_pair_accepted url g1 g2 S) as [[lat E1] [lon E2]].
  exists lat, lon. repeat split; auto.
  unfold Core.parse_latlon_from_url, Core.floats_of.
  rewrite (search_nonempty url _ S), S. simpl. rewrite E1, E2. reflexivity.
Qed.

(** X1: whenever the first regular expression of [parse_latlon_from_url]
    finds a match, the two groups are accepted by [float] and the parser
    returns their values: the handler for [ValueError] never runs and
    [urlparse] is not reached. *)
Theorem first_expression_decides (url g1 g2 : string) :
  Re.search_q_pair url = Some (g1, g2) ->
  exists lat lon,
    Float.of_string g1 = Ok lat /\ Float.of_string g2 = Ok lon
    /\ Core.parse_latlon_from_url url = Ok (Some (lat, lon)).
Proof. apply parse_of_search. Qed.

Lemma first_expression_decides_witness :
  exists lat lon,
    Float.of_string "50.82253" = Ok lat /\ Float.of_string "-0.13150" = Ok lon
    /\ Core.parse_latlon_from_url Sample.url_brighton = Ok (Some (lat, lon)).
Proof.
  apply (first_expression_decides Sample.url_brighton "50.82253" "-0.13150").
  vm_compute. reflexivity.
Defined.

Lemma width_ascii (p : N -> bool) (c : ascii) (s : string) :
  (Unicode.byte c <? 128)%N = true ->
  Unicode.width p (String c s)
  = if p (Unicode.byte c) then 1%nat else 0%nat.
Proof.
  intros L. unfold Unicode.width, Unicode.decode. cbv zeta. rewrite L.
  reflexivity.
Qed.

Lemma span_digits_app (ds t : string) :
  Spec.all_digits ds = true ->
  Unicode.width Unicode.is_decimal t = 0%nat ->
  Re.span_digits (ds ++ t) = (ds, t).
Proof.
  intros H T. unfold Re.span_digits. induction ds as [| c ds IH].
  - cbn [append]. rewrite (take_stay _ t T), (skip_stay _ t T). reflexivity.
  - simpl in H. apply andb_prop in H as [D H].
    destruct (digit_facts c D) as (_ & _ & _ & _ & _ & _ & A & P).
    assert (W : Unicode.width Unicode.is_decimal (String c "" ++ ds ++ t)
                = String.length (String c "")).
    { cbn [append]. rewrite (width_ascii _ c _ A), P. reflexivity. }
    change (String c ds ++ t) with (String c "" ++ ds ++ t).
    rewrite (take_step _ _ _ W), (skip_step _ _ _ W) by discriminate.
    injection (IH H) as -> ->. reflexivity.
Qed.

Lemma number_exact (g t : string) :
  Spec.numeral g -> (t = "" \/ exists t', t = String "," t') ->
  Re.number (g ++ t) = Some (g, t).
Proof.
  intros [neg ds tail H NE T] Ht.
  assert (S : match (if neg then "-" else "") ++ (ds ++ tail) ++ t with
              | String "-" r => ("-", r)
              | _ => ("", (if neg then "-" else "") ++ (ds ++ tail) ++ t)
              end = ((if neg then "-" else ""), ds ++ tail ++ t)).
  { rewrite str_app_assoc. destruct neg; [reflexivity |].
    destruct ds as [| c ds']; [contradiction |].
    simpl in H. apply andb_prop in H as [D _].
    destruct c as [[] [] [] [] [] [] [] []]; try discriminate D; reflexivity. }
  unfold Re.number. rewrite str_app_assoc, S.
  assert (Wt : Unicode.width Unicode.is_decimal t = 0%nat).
  { destruct Ht as [-> | (t' & ->)]; reflexivity. }
  assert (Sp : Re.span_digits (ds ++ tail ++ t) = (ds, tail ++ t)).
  { apply span_digits_app; [exact H |].
    destruct T as [-> | (fs & -> & _)]; [exact Wt | reflexivity]. }
  rewrite Sp.
  destruct ds as [| c ds']; [contradiction |]. cbn [Str.is_empty].
  destruct T as [-> | (fs & -> & Hf & NEf)].
  - rewrite str_app_empty.
    destruct Ht as [-> | (t' & ->)]; reflexivity.
  - cbn [append].
    assert (Sf : Re.span_digits (fs ++ t) = (fs, t)).
    { apply span_digits_app; [exact Hf | exact Wt]. }
    cbn -[Re.span_digits]. rewrite Sf.
    destruct fs as [| d fs']; [contradiction |]. cbn [Str.is_empty].
    reflexivity.
Qed.

Lemma search_after_plain (prefix rest : string) :
  Spec.plain_prefix prefix = true ->
  Re.search_q_pair (prefix ++ rest) = Re.search_q_pair rest.
Proof.
  unfold Spec.plain_prefix. induction prefix as [| c p IH]; [reflexivity |].
  cbn [Str.mem append Re.search_q_pair]. intros H.
  apply andb_prop in H as [H1 H2].
  apply negb_true_iff in H1. apply negb_true_iff in H2.
  apply orb_false_elim in H1 as [Q1 M1]. apply orb_false_elim in H2 as [Q2 M2].
  rewrite Ascii.eqb_sym, Q1, (Ascii.eqb_sym c "&"), Q2. simpl.
  apply IH. rewrite M1, M2. reflexivity.
Qed.

Lemma search_direct (prefix g1 g2 : string) :
  Spec.plain_prefix prefix = true -> Spec.numeral g1 -> Spec.numeral g2 ->
  Re.search_q_pair (prefix ++ "?q=" ++ g1 ++ "," ++ g2) = Some (g1, g2).
Proof.
  intros P N1 N2. rewrite (search_after_plain _ _ P).
  cbn [append Re.search_q_pair Ascii.eqb Bool.eqb orb Re.q_pair_at].
  rewrite (number_exact g1 (String "," g2) N1)
    by (right; exists g2; reflexivity).
  rewrite <- (str_app_empty g2) at 1.
  rewrite (number_exact g2 "" N2) by (left; reflexivity).
  reflexivity.
Qed.

(** X2: for a text made of a prefix without [?] and [&], then [?q=], a
    numeral, a comma and a numeral, [parse_latlon_from_url] returns the
    floats of the two numerals, latitude first. *)
Theorem direct_url_coordinates (prefix g1 g2 : string) :
  Spec.plain_prefix prefix = true ->
  Spec.numeral g1 ->
  Spec.numeral g2 ->
  exists lat lon,
    Float.of_string g1 = Ok lat /\ Float.of_string g2 = Ok lon
    /\ Core.parse_latlon_from_url (prefix ++ "?q=" ++ g1 ++ "," ++ g2)
       = Ok (Some (lat, lon)).
Proof.
  intros P N1 N2. apply parse_of_search, search_direct; assumption.
Qed.

Lemma direct_url_coordinates_witness :
  exists lat lon,
    Float.of_string "50.82253" = Ok lat /\ Float.of_string "-0.13150" = Ok lon
    /\ Core.parse_latlon_from_url
         ("https://maps.google.com/" ++ "?q=" ++ "50.82253" ++ "," ++ "-0.13150")
       = Ok (Some (lat, lon)).
Proof.
  apply (direct_url_coordinates "https://maps.google.com/" "50.82253"
           "-0.13150").
  - reflexivity.
  - apply (Spec.numeral_intro false "50" ".82253");
      [reflexivity | discriminate |].
    right. exists "82253". repeat split; try reflexivity; discriminate.
  - apply (Spec.numeral_intro true "0" ".13150");
      [reflexivity | discriminate |].
    right. exists "13150". repeat split; try reflexivity; discriminate.
Defined.

(** *** The name and the coordinates in the URL (X4, X5) *)

(** X4: when the first regular expression finds nothing, the parameter [q]
    is read either as coordinates or as a name, never as both: if
    [parse_latlon_from_url] returns a pair, [derive_name_from_url] returns
    no name, and if [derive_name_from_url] returns a name,
    [parse_latlon_from_url] returns no pair. *)
Theorem name_or_coordinates (url : string) :
  Re.search_q_pair url = None ->
  (forall p, Core.parse_latlon_from_url url = Ok (Some p) ->
             Core.derive_name_from_url url = Ok None)
  /\ (forall n, Core.derive_name_from_url url = Ok (Some n) ->
                Core.parse_latlon_from_url url = Ok None).
Proof.
  intros S. unfold Core.parse_latlon_from_url, Core.latlon_from_query,
    Core.derive_name_from_url. rewrite S.
  destruct (Str.is_empty url) eqn:E.
  - destruct url; [| discriminate]. split; intros x H; [discriminate |].
    vm_compute in H. discriminate.
  - destruct (Url.urlparse_query url) as [query | e']; simpl;
      [| split; intros x H; discriminate].
    destruct (Url.parse_qs_get query "q") as [| q_raw rest];
      [split; intros x H; discriminate |].
    destruct (Re.match_pair _) as [g |]; split; intros x H;
      try discriminate; reflexivity.
Qed.

Lemma name_or_coordinates_witness :
  Core.parse_latlon_from_url Sample.url_pier = Ok None.
Proof.
  apply (proj2 (name_or_coordinates Sample.url_pier eq_refl) "The Pier").
  vm_compute. reflexivity.
Defined.

(** What [rstrip] removes is white space. *)
Lemma rstrip_split (s : string) :
  exists sp, s = Str.rstrip s ++ sp /\ Str.is_blank sp = true.
Proof.
  induction s as [| c s (sp & E & B)].
  - exists "". split; reflexivity.
  - cbn [Str.rstrip]. destruct (Str.is_blank (String c s)) eqn:K.
    + exists (String c s). split; [reflexivity | exact K].
    + exists sp. split; [cbn [append]; congruence | exact B].
Qed.

Lemma is_blank_app (a b : string) :
  Str.is_blank a = true -> Str.is_blank b = true -> Str.is_blank (a ++ b) = true.
Proof.
  unfold Str.is_blank, Str.lstrip. intros A B.
  rewrite skip_app; [exact B |].
  destruct (Unicode.skip Unicode.is_space a); [reflexivity | discriminate].
Qed.

Lemma rstrip_fixed (s : string) : Str.rstrip (Str.rstrip s) = Str.rstrip s.
Proof.
  induction s as [| c s IH]; [reflexivity |].
  cbn [Str.rstrip]. destruct (Str.is_blank (String c s)) eqn:K; [reflexivity |].
  cbn [Str.rstrip]. rewrite IH.
  destruct (Str.is_blank (String c (Str.rstrip s))) eqn:K'; [| reflexivity].
  destruct (rstrip_split s) as (sp & E & B).
  rewrite E in K. change (String c (Str.rstrip s ++ sp))
    with (String c (Str.rstrip s) ++ sp) in K.
  rewrite (is_blank_app _ _ K' B) in K. discriminate.
Qed.

(** [rstrip] leaves a text without white space in front as it is there. *)
Lemma lstrip_rstrip (s : string) :
  Str.lstrip (Str.rstrip (Str.lstrip s)) = Str.rstrip (Str.lstrip s).
Proof.
  unfold Str.lstrip at 1. apply skip_stay.
  destruct (rstrip_split (Str.lstrip s)) as (sp & E & _).
  apply (width_prefix _ _ sp). rewrite <- E. apply skip_stop.
Qed.

Lemma strip_fixed (s : string) : Str.strip (Str.strip s) = Str.strip s.
Proof. unfold Str.strip. rewrite lstrip_rstrip. apply rstrip_fixed. Qed.

(** X5: a name [derive_name_from_url] returns is never empty and has no
    white space at either end: stripping it again changes nothing. *)
Theorem derived_name_trimmed (url n : string) :
  Core.derive_name_from_url url = Ok (Some n) ->
  n <> "" /\ Str.strip n = n.
Proof.
  unfold Core.derive_name_from_url.
  destruct (Url.urlparse_query url) as [query | e]; [| discriminate].
  cbn [bind].
  destruct (Url.parse_qs_get query "q") as [| q_raw rest]; [discriminate |].
  set (q := Str.strip (Url.unquote (Str.replace "+" " " q_raw))).
  destruct (Re.match_pair q); [discriminate |].
  destruct (Str.startswith "m," (Str.lower q)).
  - set (t := Str.strip (Str.drop 2 q)).
    destruct (Str.is_empty t) eqn:E; [discriminate |].
    intros [= <-]. split; [intros H; rewrite H in E; discriminate |].
    apply strip_fixed.
  - destruct (Str.is_empty q) eqn:E; [discriminate |].
    intros [= <-]. split; [intros H; rewrite H in E; discriminate |].
    apply strip_fixed.
Qed.

Lemma derived_name_trimmed_witness :
  "The Pier" <> "" /\ Str.strip "The Pier" = "The Pier".
Proof.
  apply (derived_name_trimmed Sample.url_pier "The Pier").
  vm_compute. reflexivity.
Defined.

(** *** The resolved name (X6) *)

Lemma first_nonempty_nonempty (sources : list (option string)) (s : string) :
  Spec.first_nonempty sources = Some s -> Str.is_empty s = false.
Proof.
  induction sources as [| [t |] rest IH]; simpl; [discriminate | | exact IH].
  destruct (Str.is_empty t) eqn:E; [exact IH |].
  intros [= <-]. exact E.
Qed.

(** The name of the specification is never empty, whatever the sources
    give. *)
Lemma name_by_priority_nonempty (props : dict) (o : option string) (idx : Z) :
  Str.is_empty (Spec.name_by_priority props o idx) = false.
Proof.
  unfold Spec.name_by_priority.
  destruct (Spec.first_nonempty (Spec.name_sources props o)) as [s |] eqn:F.
  - apply (first_nonempty_nonempty _ _ F).
  - reflexivity.
Qed.

Lemma resolve_by_returns_nonempty (props : dict) (idx : Z) (n : string) :
  Name.resolve_by_returns props (Core.get_or_empty props "location") idx
  = Ok n ->
  n <> "".
Proof.
  rewrite resolve_by_returns_spec. intros H ->.
  destruct (Spec.location_name props) as [m |] eqn:L.
  - injection H as ->. apply location_name_nonempty in L. discriminate.
  - destruct (Spec.derive_name props) as [o | e]; [| discriminate].
    injection H as H.
    pose proof (name_by_priority_nonempty props o idx) as NE.
    rewrite H in NE. discriminate.
Qed.

(** X6: the name [extract_name], [extract_name_and_desc] and
    [extract_name_and_notes] return is never the empty text, whatever the
    feature and its ordinal. *)
Theorem resolved_name_not_empty (feat : json) (idx : Z) (n : string) :
  (Html.extract_name feat idx = Ok n -> n <> "")
  /\ (forall d, Gpx.extract_name_and_desc feat idx = Ok (n, d) -> n <> "")
  /\ (forall ns, Csv.extract_name_and_notes feat idx = Ok (n, ns) -> n <> "").
Proof.
  unfold Html.extract_name, Gpx.extract_name_and_desc,
    Csv.extract_name_and_notes.
  destruct feat as [| | | | | | f]; try (repeat split; intros; discriminate).
  destruct (Core.get_or_empty f "properties") as [| | | | | | p];
    try (repeat split; intros; discriminate).
  rewrite resolve_by_steps_returns, maps_url_dict.
  pose proof (resolve_by_returns_nonempty p idx n) as K.
  repeat split.
  - exact K.
  - intros d H. apply K.
    destruct (Name.resolve_by_returns p _ idx); [| discriminate].
    simpl in H. congruence.
  - intros ns H. apply K.
    destruct (Name.resolve_by_returns p _ idx); [| discriminate].
    simpl in H. congruence.
Qed.

Lemma resolved_name_not_empty_witness : "The Pier" <> "".
Proof.
  apply (proj1 (resolved_name_not_empty (JDict Sample.pier) 1 "The Pier")).
  vm_compute. reflexivity.
Defined.

(** *** A geometry that gives no pair (X7) *)

Lemma geometry_dict (f g : dict) :
  Py.get f "geometry" = JDict g -> Core.get_or_empty f "geometry" = JDict g.
Proof.
  intros H. unfold Core.get_or_empty, Py.or. rewrite H.
  destruct g; reflexivity.
Qed.

Lemma geometry_not_dict (f : dict) :
  (forall g, Py.get f "geometry" <> JDict g) ->
  Core.latlon_from_geometry (Core.get_or_empty f "geometry") = Ok None.
Proof.
  intros H. unfold Core.get_or_empty, Py.or.
  destruct (Py.get f "geometry") as [| | | | | | g] eqn:E;
    try (destruct (Py.truthy _); reflexivity).
  exfalso. apply (H g). reflexivity.
Qed.

(** X7: [extract_lat_lon] answers what the URL step answers whenever the
    geometry is absent or no mapping, its type is not [Point], its
    coordinates are no list, the list has fewer than two elements, or one
    of the first two elements is null. *)
Theorem geometry_without_pair (f : dict) :
  let by_url := Core.latlon_from_props (Core.get_or_empty f "properties") in
  ((forall g, Py.get f "geometry" <> JDict g) ->
   Core.extract_lat_lon (JDict f) = by_url)
  /\ (forall g, Py.get f "geometry" = JDict g ->
        Py.eq_str (Py.get g "type") "Point" = false ->
        Core.extract_lat_lon (JDict f) = by_url)
  /\ (forall g, Py.get f "geometry" = JDict g ->
        (forall l, Py.get g "coordinates" <> JList l) ->
        Core.extract_lat_lon (JDict f) = by_url)
  /\ (forall g l, Py.get f "geometry" = JDict g ->
        Py.get g "coordinates" = JList l -> (List.length l < 2)%nat ->
        Core.extract_lat_lon (JDict f) = by_url)
  /\ (forall g c0 c1 rest, Py.get f "geometry" = JDict g ->
        Py.get g "coordinates" = JList (c0 :: c1 :: rest) ->
        c0 = JNull \/ c1 = JNull ->
        Core.extract_lat_lon (JDict f) = by_url).
Proof.
  intros by_url. unfold Core.extract_lat_lon. repeat split.
  - intros H. rewrite (geometry_not_dict f H). reflexivity.
  - intros g Hg T. rewrite (geometry_dict f g Hg).
    unfold Core.latlon_from_geometry. rewrite T. reflexivity.
  - intros g Hg C. rewrite (geometry_dict f g Hg).
    unfold Core.latlon_from_geometry.
    destruct (Py.eq_str (Py.get g "type") "Point"); [| reflexivity].
    destruct (Py.get g "coordinates") as [| | | | | l |] eqn:E;
      try reflexivity.
    exfalso. apply (C l). reflexivity.
  - intros g l Hg C L. rewrite (geometry_dict f g Hg).
    unfold Core.latlon_from_geometry.
    destruct (Py.eq_str (Py.get g "type") "Point"); [| reflexivity].
    rewrite C. destruct l as [| c0 [| c1 rest]]; try reflexivity.
    simpl in L. lia.
  - intros g c0 c1 rest Hg C N. rewrite (geometry_dict f g Hg).
    unfold Core.latlon_from_geometry.
    destruct (Py.eq_str (Py.get g "type") "Point"); [| reflexivity].
    rewrite C. destruct N as [-> | ->]; [reflexivity |].
    simpl. rewrite andb_false_r. reflexivity.
Qed.

Lemma geometry_without_pair_witness :
  Core.extract_lat_lon (JDict Sample.dated)
  = Core.latlon_from_props (Core.get_or_empty Sample.dated "properties").
Proof.
  apply (proj1 (geometry_without_pair Sample.dated)).
  intros g H. vm_compute in H. discriminate H.
Defined.

(** *** An annotation without parts (X8) *)

Lemma join_empty (sep : string) (parts : list string) :
  Forall (fun p => Str.is_empty p = false) parts ->
  (Str.join sep parts = "" <-> parts = []).
Proof.
  intros F. destruct parts as [| p ps]; [tauto |].
  split; [| discriminate]. intros H. exfalso.
  inversion F as [| ? ? Hp _]; subst.
  destruct p as [| c p]; [discriminate |].
  destruct ps; simpl in H; discriminate.
Qed.

Lemma parts_nonempty (props : dict) (loc url : json) :
  Forall (fun p => Str.is_empty p = false)
    (Parts.saved props ++ Parts.address loc
       ++ Parts.google_maps url ++ Parts.comment props)%list
  /\ Forall (fun p => Str.is_empty p = false)
       (Parts.saved props ++ Parts.address loc ++ Parts.comment props)%list.
Proof.
  assert (S : Forall (fun p => Str.is_empty p = false) (Parts.saved props)).
  { unfold Parts.saved. destruct (Py.truthy _); repeat constructor. }
  assert (A : Forall (fun p => Str.is_empty p = false) (Parts.address loc)).
  { unfold Parts.address. destruct loc; try constructor.
    destruct (Py.truthy _); repeat constructor. }
  assert (G : Forall (fun p => Str.is_empty p = false) (Parts.google_maps url)).
  { unfold Parts.google_maps. destruct url; repeat constructor. }
  assert (C : Forall (fun p => Str.is_empty p = false) (Parts.comment props)).
  { unfold Parts.comment.
    destruct (Py.truthy (Py.or _ _)) eqn:T; repeat constructor.
    apply str_nonempty, T. }
  split; repeat (apply Forall_app; split); assumption.
Qed.

Ltac solve_iff :=
  let H := fresh "H" in
  split; intros H; first [discriminate H | reflexivity].

Lemma saved_none (props : dict) :
  Parts.saved props = [] <-> Spec.has_date props = false.
Proof.
  unfold Parts.saved, Spec.has_date.
  destruct (Py.truthy (Py.get props "date")); solve_iff.
Qed.

Lemma address_none (props : dict) :
  Parts.address (Core.get_or_empty props "location") = []
  <-> Spec.has_address props = false.
Proof.
  unfold Core.get_or_empty, Py.or, Spec.has_address.
  destruct (Py.get props "location") as [| b | z | x | s | l | d].
  - solve_iff.
  - destruct b; solve_iff.
  - cbn [Py.truthy]. destruct (negb (z =? 0)); solve_iff.
  - cbn [Py.truthy]. destruct (Float.truthy x); solve_iff.
  - destruct s; solve_iff.
  - destruct l; solve_iff.
  - destruct d as [| kv d]; [solve_iff |].
    cbn [Py.truthy Parts.address].
    destruct (Py.truthy (Py.get (kv :: d) "address")); solve_iff.
Qed.

Lemma comment_none (props : dict) :
  Parts.comment props = [] <-> Spec.has_comment props = false.
Proof.
  unfold Parts.comment, Spec.has_comment.
  destruct (Py.truthy (Py.or (Py.get props "Comment") (Py.get props "comment")));
    solve_iff.
Qed.

Lemma google_maps_none (u : json) :
  Parts.google_maps u = [] <-> Spec.is_str u = false.
Proof. destruct u; solve_iff. Qed.

(** X8: for a feature whose properties are a mapping, the CSV notes are
    the empty text exactly when the properties have no true date, no true
    address and no true comment, and the GPX description exactly when, in
    addition, their URL is no text. *)
Theorem empty_annotation (f props : dict) (idx : Z) (n a : string) :
  Core.get_or_empty f "properties" = JDict props ->
  (Csv.extract_name_and_notes (JDict f) idx = Ok (n, a) ->
   (a = "" <->
    Spec.has_date props = false /\ Spec.has_address props = false
    /\ Spec.has_comment props = false))
  /\ (Gpx.extract_name_and_desc (JDict f) idx = Ok (n, a) ->
      (a = "" <->
       Spec.has_date props = false /\ Spec.has_address props = false
       /\ Spec.has_url_text props = false /\ Spec.has_comment props = false)).
Proof.
  intros Hp.
  unfold Csv.extract_name_and_notes, Gpx.extract_name_and_desc.
  rewrite Hp.
  destruct (Name.resolve_by_steps props (Core.get_or_empty props "location") idx)
    as [m | e]; [| split; discriminate].
  cbn [bind]. rewrite maps_url_dict. cbn [bind].
  unfold Spec.has_url_text.
  set (u := Py.or (Py.get props "google_maps_url")
              (Py.get props "Google Maps URL")).
  destruct (parts_nonempty props (Core.get_or_empty props "location") u)
    as [F1 F2].
  rewrite <- saved_none, <- address_none, <- comment_none,
    <- (google_maps_none u).
  split; intros [= _ <-].
  - rewrite (join_empty _ _ F2). split.
    + intros H. apply app_eq_nil in H as [H1 H].
      apply app_eq_nil in H as [H2 H3]. auto.
    + intros (H1 & H2 & H3). rewrite H1, H2, H3. reflexivity.
  - rewrite (join_empty _ _ F1). split.
    + intros H. apply app_eq_nil in H as [H1 H].
      apply app_eq_nil in H as [H2 H]. apply app_eq_nil in H as [H3 H4].
      auto.
    + intros (H1 & H2 & H3 & H4). rewrite H1, H2, H3, H4. reflexivity.
Qed.

Lemma empty_annotation_witness :
  Spec.has_date [] = false /\ Spec.has_address [] = false
  /\ Spec.has_comment [] = false.
Proof.
  exact (proj1 (proj1 (empty_annotation Sample.london [] 1 "Saved Place 1" ""
                         eq_refl) eq_refl) eq_refl).
Defined.

(** *** The waypoint text (X9) *)

(** X9: [feature_to_wpt] returns the empty text exactly when the coordinate
    resolver returns no pair, so the test [if w] of [json_to_gpx] leaves
    out the features without coordinates and only those. *)
Theorem empty_wpt_means_no_coordinates (feat : json) (idx : Z) :
  Gpx.feature_to_wpt feat idx = Ok "" <-> Core.extract_lat_lon feat = Ok None.
Proof.
  unfold Gpx.feature_to_wpt, Gpx.extract_lat_lon.
  destruct (Core.extract_lat_lon feat) as [[[la lo] |] | e]; cbn [bind].
  - split; [| discriminate].
    destruct (Gpx.extract_name_and_desc feat idx) as [[n d] | e];
      cbn [bind]; [| discriminate].
    intros H. discriminate H.
  - tauto.
  - split; discriminate.
Qed.

(** *** The loops over the features (X10, X11) *)

Lemma rows_from_collect (features : list json) (i : Z) :
  Csv.rows_from i features = Spec.collect Csv.row_of i features.
Proof.
  revert i. induction features as [| feat rest IH]; intros i; simpl;
    [reflexivity |]. rewrite IH. reflexivity.
Qed.

Lemma entries_from_collect (features : list json) (i : Z) :
  Html.entries_from i features = Spec.collect Html.entry_of i features.
Proof.
  revert i. induction features as [| feat rest IH]; intros i; simpl;
    [reflexivity |]. rewrite IH. reflexivity.
Qed.

Lemma wpts_from_collect (features : list json) (i : Z) :
  Gpx.wpts_from i features = Spec.collect Spec.wpt_of i features.
Proof.
  revert i. induction features as [| feat rest IH]; intros i;
    cbn [Gpx.wpts_from Spec.collect]; [reflexivity |]. rewrite IH.
  assert (B : Spec.wpt_of feat i
              = (w <- Gpx.feature_to_wpt feat i ;;
                 Ok (if Str.is_empty w then None else Some w)))
    by reflexivity.
  rewrite B.
  destruct (Gpx.feature_to_wpt feat i) as [w | e]; cbn [bind];
    [| reflexivity].
  destruct (Spec.collect Spec.wpt_of (i + 1) rest); cbn [bind]; [| reflexivity].
  destruct (Str.is_empty w); reflexivity.
Qed.

Lemma collect_app {A : Type} (body : json -> Z -> result (option A))
  (pre post : list json) :
  forall i,
    Spec.collect body i (pre ++ post)
    = (a <- Spec.collect body i pre ;;
       b <- Spec.collect body (i + Z.of_nat (List.length pre)) post ;;
       Ok (a ++ b)%list).
Proof.
  induction pre as [| feat pre IH]; intros i.
  - simpl. rewrite Z.add_0_r.
    destruct (Spec.collect body i post); reflexivity.
  - cbn [Spec.collect app List.length]. rewrite IH.
    replace (i + 1 + Z.of_nat (List.length pre))
      with (i + Z.of_nat (S (List.length pre))) by lia.
    destruct (body feat i) as [r | e]; [| reflexivity]. cbn [bind].
    destruct (Spec.collect body (i + 1) pre) as [a | e]; [| reflexivity].
    cbn [bind].
    destruct (Spec.collect body (i + Z.of_nat (S (List.length pre))) post) as [b | e];
      [| reflexivity].
    cbn [bind]. destruct r; reflexivity.
Qed.

(** X10: the loops of [json_to_rows], [json_to_entries] and [json_to_gpx]
    over a list of features in two pieces give the records of the first
    piece followed by those of the second, the second piece being numbered
    from the ordinal after the whole first piece: a feature that is left
    out still takes its ordinal. *)
Theorem loops_split (pre post : list json) (i : Z) :
  Csv.rows_from i (pre ++ post)
  = (a <- Csv.rows_from i pre ;;
     b <- Csv.rows_from (i + Z.of_nat (List.length pre)) post ;;
     Ok (a ++ b)%list)
  /\ Html.entries_from i (pre ++ post)
     = (a <- Html.entries_from i pre ;;
        b <- Html.entries_from (i + Z.of_nat (List.length pre)) post ;;
        Ok (a ++ b)%list)
  /\ Gpx.wpts_from i (pre ++ post)
     = (a <- Gpx.wpts_from i pre ;;
        b <- Gpx.wpts_from (i + Z.of_nat (List.length pre)) post ;;
        Ok (a ++ b)%list).
Proof.
  rewrite !rows_from_collect, !entries_from_collect, !wpts_from_collect.
  repeat split; apply collect_app.
Qed.

Lemma collect_raises {A : Type} (body : json -> Z -> result (option A))
  (features : list json) :
  forall i,
    raises (Spec.collect body i features) <->
    exists k feat, nth_error features k = Some feat
                   /\ raises (body feat (i + Z.of_nat k)).
Proof.
  induction features as [| feat rest IH]; intros i.
  - split.
    + intros [e H]. discriminate.
    + intros (k & f & H & _). destruct k; discriminate.
  - cbn [Spec.collect]. split.
    + intros [e H].
      destruct (body feat i) as [r | e0] eqn:B.
      * cbn [bind] in H.
        destruct (Spec.collect body (i + 1) rest) as [rs | e1] eqn:C;
          [discriminate |].
        destruct (proj1 (IH (i + 1)) (ex_intro _ e1 C))
          as (k & f & Hk & Hr).
        exists (S k), f. split; [exact Hk |].
        replace (i + Z.of_nat (S k)) with (i + 1 + Z.of_nat k) by lia.
        exact Hr.
      * exists O, feat. split; [reflexivity |].
        rewrite Z.add_0_r, B. exists e0. reflexivity.
    + intros (k & f & Hk & Hr).
      destruct (body feat i) as [r | e0] eqn:B; [| exists e0; reflexivity].
      cbn [bind].
      destruct k as [| k].
      * injection Hk as <-. rewrite Z.add_0_r, B in Hr.
        destruct Hr as [e H]. discriminate.
      * assert (R : raises (Spec.collect body (i + 1) rest)).
        { apply IH. exists k, f. split; [exact Hk |].
          replace (i + 1 + Z.of_nat k) with (i + Z.of_nat (S k)) by lia.
          exact Hr. }
        destruct R as [e ->]. exists e. reflexivity.
Qed.

(** X11: each of the three loops raises exactly when its body raises on one
    of the features, taken with its ordinal: one feature that cannot be
    processed makes the whole conversion fail. *)
Theorem loop_raises_with_a_feature (features : list json) (i : Z) :
  (raises (Csv.rows_from i features) <->
   exists k feat, nth_error features k = Some feat
                  /\ raises (Csv.row_of feat (i + Z.of_nat k)))
  /\ (raises (Html.entries_from i features) <->
      exists k feat, nth_error features k = Some feat
                     /\ raises (Html.entry_of feat (i + Z.of_nat k)))
  /\ (raises (Gpx.wpts_from i features) <->
      exists k feat, nth_error features k = Some feat
                     /\ raises (Gpx.feature_to_wpt feat (i + Z.of_nat k))).
Proof.
  rewrite rows_from_collect, entries_from_collect, wpts_from_collect.
  split; [apply collect_raises |]. split; [apply collect_raises |].
  rewrite collect_raises. split; intros (k & f & Hk & Hr); exists k, f;
    (split; [exact Hk |]); unfold Spec.wpt_of, raises in *;
    destruct (Gpx.feature_to_wpt f (i + Z.of_nat k)) as [w | e]; simpl in *.
  - destruct Hr as [e H]. discriminate.
  - eauto.
  - destruct Hr as [e H]. discriminate.
  - eauto.
Qed.

(** *** The three scripts side by side (X12) *)

Lemma collect_map {A B C : Type}
  (b1 : json -> Z -> result (option A)) (b2 : json -> Z -> result (option B))
  (f : A -> C) (g : B -> C) (features : list json) :
  (forall feat i, In feat features ->
                  Spec.rmap (option_map f) (b1 feat i) = Spec.rmap (option_map g) (b2 feat i)) ->
  forall i,
    Spec.rmap (map f) (Spec.collect b1 i features) = Spec.rmap (map g) (Spec.collect b2 i features).
Proof.
  induction features as [| feat rest IH]; intros H i; [reflexivity |].
  cbn [Spec.collect].
  pose proof (H feat i (or_introl eq_refl)) as Hf.
  specialize (IH (fun x j Hx => H x j (or_intror Hx)) (i + 1)).
  unfold Spec.rmap in *.
  destruct (b1 feat i) as [r1 | e1], (b2 feat i) as [r2 | e2];
    cbn [bind] in *; try discriminate; [| congruence].
  destruct (Spec.collect b1 (i + 1) rest) as [l1 | e1],
           (Spec.collect b2 (i + 1) rest) as [l2 | e2];
    cbn [bind] in *; try discriminate; [| congruence].
  injection Hf as Hf. injection IH as IH.
  destruct r1, r2; simpl in *; try discriminate; congruence.
Qed.

Lemma row_and_entry (feat : json) (i : Z) :
  Spec.rmap (option_map Spec.row_place) (Csv.row_of feat i)
  = Spec.rmap (option_map Spec.entry_place) (Html.entry_of feat i).
Proof.
  unfold Csv.row_of, Html.entry_of, Csv.extract_lat_lon, Html.extract_lat_lon.
  destruct (Core.extract_lat_lon feat) as [[[la lo] |] | e] eqn:E;
    [| reflexivity | reflexivity].
  destruct feat as [| | | | | | f]; try (simpl in E; discriminate E).
  cbn [bind Py.get_attr].
  unfold Csv.extract_name_and_notes, Html.extract_name.
  fold (Core.get_or_empty f "properties").
  destruct (Core.get_or_empty f "properties") as [| | | | | | p] eqn:P;
    try reflexivity.
  rewrite maps_url_dict, resolve_by_steps_returns.
  cbn [bind].
  destruct (Name.resolve_by_returns p (Core.get_or_empty p "location") i);
    reflexivity.
Qed.

Lemma row_and_wpt (feat : json) (i : Z) :
  Spec.rmap (option_map (fun _ => tt)) (Spec.wpt_of feat i)
  = Spec.rmap (option_map (fun _ => tt)) (Csv.row_of feat i).
Proof.
  unfold Spec.wpt_of, Gpx.feature_to_wpt, Csv.row_of, Csv.extract_lat_lon,
    Gpx.extract_lat_lon.
  destruct (Core.extract_lat_lon feat) as [[[la lo] |] | e] eqn:E;
    [| reflexivity | reflexivity].
  destruct feat as [| | | | | | f]; try (simpl in E; discriminate E).
  cbn [bind Py.get_attr].
  unfold Csv.extract_name_and_notes, Gpx.extract_name_and_desc.
  fold (Core.get_or_empty f "properties").
  destruct (Core.get_or_empty f "properties") as [| | | | | | p] eqn:P;
    try reflexivity.
  rewrite maps_url_dict. cbn [bind].
  destruct (Name.resolve_by_steps p (Core.get_or_empty p "location") i);
    reflexivity.
Qed.

Lemma rmap_length {A B C : Type} (f : A -> C) (g : B -> C)
  (r1 : result (list A)) (r2 : result (list B)) :
  Spec.rmap (map f) r1 = Spec.rmap (map g) r2 ->
  Spec.rmap (@List.length A) r1 = Spec.rmap (@List.length B) r2.
Proof.
  unfold Spec.rmap. destruct r1 as [l1 | e1], r2 as [l2 | e2]; simpl;
    intros H; try discriminate; [| congruence].
  injection H as H. f_equal.
  rewrite <- (length_map f l1), <- (length_map g l2), H. reflexivity.
Qed.

(** X12: on every document [json_to_rows] and [json_to_entries] have the
    same outcome: they raise the same exception, or they list the same
    places (name, latitude, longitude and URL) in the same order; and
    [json_to_gpx] builds as many waypoints, or raises as well. *)
Theorem scripts_list_the_same_places (data : json) :
  Spec.rmap (map Spec.row_place) (Csv.json_to_rows data)
  = Spec.rmap (map Spec.entry_place) (Html.json_to_entries data)
  /\ Spec.rmap (@List.length string) (Gpx.waypoints data)
     = Spec.rmap (@List.length Csv.row) (Csv.json_to_rows data).
Proof.
  unfold Csv.json_to_rows, Html.json_to_entries, Gpx.waypoints.
  destruct (Py.get_attr data "features") as [fs | e]; [| split; reflexivity].
  cbn [bind].
  destruct (Py.iterate (Py.or fs (JList []))) as [features | e];
    [| split; reflexivity].
  cbn [bind].
  rewrite rows_from_collect, entries_from_collect, wpts_from_collect.
  split.
  - apply collect_map. intros feat i _. apply row_and_entry.
  - apply (rmap_length (fun _ => tt) (fun _ => tt)).
    apply collect_map. intros feat i _. apply row_and_wpt.
Qed.

(** *** The HTML page (X13) *)

Lemma row_lines_texts (idx : Z) (e : Html.entry) :
  (Spec.texts e = true -> exists ls, Html.row_lines idx e = Ok ls)
  /\ (Spec.texts e = false -> Html.row_lines idx e = Raise AttributeError).
Proof.
  unfold Spec.texts, Html.row_lines.
  destruct (Html.date e), (Html.gmaps_url e); simpl; split; intros H;
    try discriminate; eauto.
Qed.

Lemma table_rows_texts (entries : list Html.entry) :
  forall idx,
    (forallb Spec.texts entries = true ->
       exists ls, Html.table_rows idx entries = Ok ls)
    /\ (forallb Spec.texts entries = false ->
       Html.table_rows idx entries = Raise AttributeError).
Proof.
  induction entries as [| e rest IH]; intros idx; simpl.
  - split; [eauto | discriminate].
  - destruct (row_lines_texts idx e) as [R1 R2].
    destruct (Spec.texts e) eqn:T; simpl.
    + destruct (R1 eq_refl) as [ls ->]. simpl.
      destruct (IH (idx + 1)) as [I1 I2]. split; intros H.
      * destruct (I1 H) as [more ->]. simpl. eauto.
      * rewrite (I2 H). reflexivity.
    + split; [discriminate |]. intros _. rewrite (R2 eq_refl). reflexivity.
Qed.

(** X13: [entries_to_html] returns a page when the date and the URL of
    every entry are texts, and raises [AttributeError] as soon as one of
    them is not (a date that is null or a number, a URL that is a number). *)
Theorem page_needs_text_fields (entries : list Html.entry) (title : string) :
  (forallb Spec.texts entries = true ->
     exists page, Html.entries_to_html entries title = Ok page)
  /\ (forallb Spec.texts entries = false ->
     Html.entries_to_html entries title = Raise AttributeError).
Proof.
  unfold Html.entries_to_html.
  destruct (table_rows_texts entries 1) as [T1 T2]. split; intros H.
  - destruct (T1 H) as [ls ->]. simpl. eauto.
  - rewrite (T2 H). reflexivity.
Qed.

Lemma page_needs_text_fields_witness :
  Html.entries_to_html [Sample.null_date_entry] "Saved Places"
  = Raise AttributeError.
Proof.
  apply (proj2 (page_needs_text_fields [Sample.null_date_entry]
                  "Saved Places")).
  reflexivity.
Defined.
